(** * KFCC rates crawler: parser, fetch client, grade gate and snapshot store

  A shallow embedding of [src/parser.py], [src/crawler.py],
  [src/grade_crawler.py], [src/storage.py] and [collect_grades] of
  [src/main.py], the properties of the specification that are stated
  about them, and further properties of the code.

  Conventions of the embedding.
  - A [str] is its list of code points; literals are written [py"..."].
  - A document is given as the tree BeautifulSoup builds from it.
  - The clock is an argument [now] of the operations that read it, read
    once per call.
  - The file system is a finite map from paths to files. Its operations
    succeed: the [except] branches that only log an I/O error are left out.
  - Requests and sleeps of the fetch client, and the reads of the grade
    gate, are returned as a list of events next to the result.
  - [CRAWLER_CONFIG], [GRADE_CONFIG], [DATA_DIR] and [BANK_LIST_FILE] come
    from the configuration module and are arguments here. *)

From Stdlib Require Import ZArith NArith QArith Qcanon Ascii String.
From stdpp Require Import base tactics option list numbers countable gmap fin_sets fin_maps sorting.

Set Warnings "-register-all,-clear-no-such-hyp".

Open Scope Z_scope.

(** ** Python values *)

(** A Python [str] is a sequence of Unicode code points; [len], slicing and
  the regular expressions of the source all count code points. *)
Abbreviation char := N (only parsing).
Abbreviation str := (list N) (only parsing).

Module Py.

(** Source literals are written in the file as UTF-8 and decoded once. *)
Fixpoint utf8_decode (bs : list N) : str :=
  match bs with
  | [] => []
  | b :: rest =>
      if (b <? 128)%N then b :: utf8_decode rest
      else if (b <? 224)%N then
        match rest with
        | c1 :: rest' =>
            N.lor (N.shiftl (N.land b 31) 6) (N.land c1 63) :: utf8_decode rest'
        | _ => []
        end
      else if (b <? 240)%N then
        match rest with
        | c1 :: c2 :: rest' =>
            N.lor (N.shiftl (N.land b 15) 12)
              (N.lor (N.shiftl (N.land c1 63) 6) (N.land c2 63))
            :: utf8_decode rest'
        | _ => []
        end
      else
        match rest with
        | c1 :: c2 :: c3 :: rest' =>
            N.lor (N.shiftl (N.land b 7) 18)
              (N.lor (N.shiftl (N.land c1 63) 12)
                 (N.lor (N.shiftl (N.land c2 63) 6) (N.land c3 63)))
            :: utf8_decode rest'
        | _ => []
        end
  end.

Definition lit (s : string) : str :=
  utf8_decode (map N_of_ascii (list_ascii_of_string s)).

(** [range(n)] and [range(0, stop, step)] for a positive step. *)
Definition range (n : Z) : list Z := Z.of_nat <$> seq 0 (Z.to_nat n).

Definition range_step (stop step : nat) : list nat :=
  (λ k, k * step)%nat <$> seq 0 ((stop + step - 1) / step)%nat.

(** [s[i:j]] for [0 <= i <= j]. *)
Definition slice {A} (s : list A) (i j : nat) : list A := take (j - i) (drop i s).

(** [sep.join(parts)] with the empty separator. *)
Definition join0 (parts : list str) : str := concat parts.

(** The truth value of a string: empty is false. *)
Definition truthy {A} (s : list A) : bool :=
  match s with [] => false | _ => true end.

(** [needle in hay], and the prefix test behind it. *)
Fixpoint starts_with (p s : str) : bool :=
  match p, s with
  | [], _ => true
  | _ :: _, [] => false
  | a :: p', b :: s' => if decide (a = b) then starts_with p' s' else false
  end.

Fixpoint contains (needle hay : str) : bool :=
  starts_with needle hay
  || match hay with [] => false | _ :: hay' => contains needle hay' end.

(** [s.replace(old, new)] for a non-empty [old]: leftmost occurrences,
    not overlapping. The recursion is on a bound for the length of [s]. *)
Fixpoint replace_fuel (fuel : nat) (old new s : str) : str :=
  match fuel with
  | O => s
  | S fuel' =>
      match s with
      | [] => []
      | c :: s' =>
          if starts_with old s
          then new ++ replace_fuel fuel' old new (drop (length old) s)
          else c :: replace_fuel fuel' old new s'
      end
  end.

Definition replace (old new s : str) : str :=
  match old with
  | [] => s
  | _ => replace_fuel (length s) old new s
  end.

(** The characters [str.isspace] accepts, which [strip()] removes, and the
    decimal digits (the pattern class [\d], read on the ASCII digits). *)
Definition is_space (c : char) : bool :=
  bool_decide (c ∈ [9; 10; 11; 12; 13; 28; 29; 30; 31; 32; 133; 160; 5760;
                    8192; 8193; 8194; 8195; 8196; 8197; 8198; 8199; 8200;
                    8201; 8202; 8232; 8233; 8239; 8287; 12288]%N).

Definition is_digit (c : char) : bool := ((48 <=? c) && (c <=? 57))%N.

Definition digit_val (c : char) : Z := Z.of_N c - 48.

Fixpoint lstrip (s : str) : str :=
  match s with
  | c :: s' => if is_space c then lstrip s' else s
  | [] => []
  end.

Definition strip (s : str) : str := reverse (lstrip (reverse (lstrip s))).

(** [s.lower()] on the ASCII letters. *)
Definition lower_char (c : char) : char :=
  if ((65 <=? c) && (c <=? 90))%N then (c + 32)%N else c.

Definition lower (s : str) : str := lower_char <$> s.

(** The longest run of characters of a class at the head of a string. *)
Fixpoint span (p : char → bool) (s : str) : str * str :=
  match s with
  | c :: s' => if p c then let '(a, b) := span p s' in (c :: a, b) else ([], s)
  | [] => ([], [])
  end.

(** [int(digits)] for a run of decimal digits. *)
Definition int_of_digits (ds : str) : Z :=
  foldl (λ acc d, acc * 10 + digit_val d) 0 ds.

(** [s.endswith(suffix)] *)
Definition ends_with (suffix s : str) : bool := starts_with (reverse suffix) (reverse s).

(** The order of strings, code point by code point: [a < b] and [a <= b]. *)
Fixpoint str_ltb (a b : str) : bool :=
  match a, b with
  | _, [] => false
  | [], _ :: _ => true
  | x :: a', y :: b' =>
      if (x <? y)%N then true else if (y <? x)%N then false else str_ltb a' b'
  end.

Definition str_leb (a b : str) : bool := negb (str_ltb b a).

(** [max(items, key=key)]: the first of the items with the greatest key. *)
Definition max_by {A} (key : A → str) (items : list A) : option A :=
  match items with
  | [] => None
  | x :: rest => Some (foldl (λ best y, if str_ltb (key best) (key y) then y else best) x rest)
  end.

(** [sorted(items, reverse=True)] on strings: greatest first. *)
Definition str_ge (a b : str) : Prop := str_leb b a = true.

#[global] Instance str_ge_dec : RelDecision str_ge.
Proof. intros a b. unfold str_ge. apply _. Defined.


End Py.

Notation "'py' s" := (Py.lit s%string) (at level 1, s at level 0, only parsing).

(** ** Parsed documents

  What BeautifulSoup hands to the parser: a tree of tags and text nodes.
  Attributes are a dictionary. *)

Module Html.

Inductive node :=
| Text (s : str)
| Tag (name : str) (attrs : gmap str str) (children : list node).

(** All nodes below [n], in document order. *)
Fixpoint descendants (n : node) : list node :=
  match n with
  | Text _ => []
  | Tag _ _ children => flat_map (λ c, c :: descendants c) children
  end.

Definition is_tag (name : str) (n : node) : bool :=
  match n with
  | Tag name' _ _ => bool_decide (name' = name)
  | Text _ => false
  end.

(** [tag.get(key, '')] *)
Definition get (n : node) (key : str) : str :=
  match n with
  | Tag _ attrs _ => default [] (attrs !! key)
  | Text _ => []
  end.

Definition has_attr (key value : str) (n : node) : bool :=
  match n with
  | Tag _ attrs _ => bool_decide (attrs !! key = Some value)
  | Text _ => false
  end.

(** [tag.find_all(name)] and [tag.find_all(name, {key: value})] *)
Definition find_all (n : node) (name : str) : list node :=
  List.filter (is_tag name) (descendants n).

Definition find_all_attr (n : node) (name key value : str) : list node :=
  List.filter (λ d, is_tag name d && has_attr key value d) (descendants n).

Definition strings (n : node) : list str :=
  match n with
  | Text s => [s]
  | Tag _ _ _ =>
      flat_map (λ d, match d with Text s => [s] | Tag _ _ _ => [] end) (descendants n)
  end.

(** [tag.get_text(strip=True)]: every string stripped, the empty ones
    dropped, the rest joined without a separator. *)
Definition get_text_strip (n : node) : str :=
  Py.join0 (List.filter Py.truthy (Py.strip <$> strings n)).

End Html.

(** ** parser.py *)

Module Parser.

(** *** BankParser._remove_duplicates *)

Definition chunks_of (chunk_size : nat) (text : str) : list str :=
  (λ i, Py.slice text i (i + chunk_size)) <$> Py.range_step (length text) chunk_size.

(** The body of the [for divisor in [2, 3, 4]] loop: [Some] is the early
    [return chunks[0]], [None] lets the loop go on. *)
Definition try_divisor (text : str) (divisor : nat) : option str :=
  if decide (divisor ≤ length text ∧ length text `mod` divisor = 0)%nat then
    let chunk_size := (length text / divisor)%nat in
    let chunks := chunks_of chunk_size text in
    if decide (size (list_to_set chunks : gset str) = 1%nat)
    then head chunks
    else None
  else None.

Fixpoint _remove_duplicates_loop (text : str) (divisors : list nat) : str :=
  match divisors with
  | [] => text
  | divisor :: rest =>
      match try_divisor text divisor with
      | Some chunk => chunk
      | None => _remove_duplicates_loop text rest
      end
  end.

Definition _remove_duplicates (text : str) : str :=
  _remove_duplicates_loop text [2; 3; 4]%nat.


(** *** Regular expressions of [BankParser.extract_from_text] *)

Definition is_hangul (c : char) : bool := ((44032 <=? c) && (c <=? 55203))%N.

(** [re.search(pattern, s)] for a pattern given by its matcher at one
    position: the leftmost position where the matcher succeeds. *)
Fixpoint search {A} (match_at : str → option A) (s : str) : option A :=
  match match_at s with
  | Some m => Some m
  | None => match s with [] => None | _ :: s' => search match_at s' end
  end.

(** [\d{n}] at the head of [s]: the digits and what follows them. *)
Definition digits_exact (n : nat) (s : str) : option (str * str) :=
  let ds := take n s in
  if decide (length ds = n) then
    if forallb Py.is_digit ds then Some (ds, drop n s) else None
  else None.

Definition lit_at (c : char) (s : str) : option str :=
  match s with
  | c' :: s' => if decide (c' = c) then Some s' else None
  | [] => None
  end.

(** [^(\d{5})] *)
Definition code_match (full_text : str) : option str :=
  fst <$> digits_exact 5 full_text.

(** [^\d{5}([가-힣]+)], group 1 *)
Definition name_match (full_text : str) : option str :=
  '(_, rest) ← digits_exact 5 full_text;
  let '(name, _) := Py.span is_hangul rest in
  if Py.truthy name then Some name else None.

(** [\(([^)]+)\)], group 1 *)
Definition branch_at (s : str) : option str :=
  rest ← lit_at 40 s;
  let '(inner, rest') := Py.span (λ c, negb (bool_decide (c = 41%N))) rest in
  if Py.truthy inner then _ ← lit_at 41 rest'; Some inner else None.

(** [(0\d{1,2}-\d{3,4}-\d{4})]: the two counted repetitions are greedy and
    are backed off in order. *)
Definition phone_with (a b : nat) (s : str) : option str :=
  s1 ← lit_at 48 s;
  '(d1, s2) ← digits_exact a s1;
  s3 ← lit_at 45 s2;
  '(d2, s4) ← digits_exact b s3;
  s5 ← lit_at 45 s4;
  '(d3, _) ← digits_exact 4 s5;
  Some (48%N :: d1 ++ 45%N :: d2 ++ 45%N :: d3).

Definition phone_at (s : str) : option str :=
  head (omap (λ '(a, b), phone_with a b s) [(2, 4); (2, 3); (1, 4); (1, 3)]%nat).

Definition address_prefixes : list str :=
  Eval vm_compute in
    [py"서울"; py"인천"; py"경기"; py"부산"; py"대구"; py"광주"; py"대전";
     py"울산"; py"세종"; py"강원"; py"충북"; py"충남"; py"전북"; py"전남";
     py"경북"; py"경남"; py"제주"].

(** [(?=\d{5}|$)]: five digits ahead, or the end of the text (also just
    before a final newline). *)
Definition address_lookahead (s : str) : bool :=
  bool_decide (is_Some (digits_exact 5 s))
  || bool_decide (s = []) || bool_decide (s = [10%N]).

(** [[^\d]+?] followed by the lookahead: the shortest run that works. *)
Fixpoint address_run (s : str) : option str :=
  match s with
  | c :: s' =>
      if Py.is_digit c then None
      else if address_lookahead s' then Some [c]
      else (λ run, c :: run) <$> address_run s'
  | [] => None
  end.

Definition address_at (s : str) : option str :=
  head (omap (λ prefix,
                if Py.starts_with prefix s
                then (λ run, prefix ++ run) <$> address_run (drop (length prefix) s)
                else None)
             address_prefixes).

(** *** BankParser *)

Definition field_mapping : gmap str str :=
  list_to_map
    [(py"gmgoCd", py"gmgoCd"); (py"name", py"name"); (py"divNm", py"branch_name");
     (py"gmgoType", py"type"); (py"telephone", py"phone"); (py"addr", py"address")].

Definition hidden_spans_of (row : Html.node) : list Html.node :=
  Html.find_all_attr row (py"span") (py"style") (py"display: none;").

Definition collect_span (bank_data : gmap str str) (span : Html.node) : gmap str str :=
  let title := Html.get span (py"title") in
  let value := Html.get_text_strip span in
  match field_mapping !! title with
  | Some field => <[field := value]> bank_data
  | None => bank_data
  end.

Definition extract_from_hidden_spans (row : Html.node) : option (gmap str str) :=
  let hidden_spans := hidden_spans_of row in
  if decide (length hidden_spans < 5)%nat then None
  else
    let bank_data := foldl collect_span ∅ hidden_spans in
    match bank_data !! (py"gmgoCd"), bank_data !! (py"name") with
    | Some _, Some name =>
        let branch_name := default [] (bank_data !! (py"branch_name")) in
        if Py.truthy branch_name then
          Some (delete (py"branch_name")
                  (<[py"name" := name ++ py"(" ++ branch_name ++ py")"]> bank_data))
        else Some bank_data
    | _, _ => None
    end.

Definition type_keywords : list str := Eval vm_compute in [py"지역"; py"직장"].

Definition extract_from_text (row : Html.node) : option (gmap str str) :=
  let cells := Html.find_all row (py"td") in
  if decide (length cells < 6)%nat then None
  else
    let full_text := Html.get_text_strip row in
    match code_match full_text with
    | None => None
    | Some code =>
        let bank_data : gmap str str := {[ py"gmgoCd" := code ]} in
        match name_match full_text with
        | None => None
        | Some raw_name =>
            let bank_name := _remove_duplicates raw_name in
            let branch_name := default [] (search branch_at full_text) in
            let bank_data :=
              <[py"name" := if Py.truthy branch_name
                             then bank_name ++ py"(" ++ branch_name ++ py")"
                             else bank_name]> bank_data in
            let bank_data :=
              <[py"phone" := default [] (search phone_at full_text)]> bank_data in
            let bank_data :=
              <[py"address" := default [] (Py.strip <$> search address_at full_text)]>
                bank_data in
            let bank_data :=
              <[py"type" := default [] (head (List.filter (λ kw, Py.contains kw full_text)
                                                 type_keywords))]> bank_data in
            Some bank_data
        end
    end.

(** The truth value of what a strategy returned: [None] and the empty
    dictionary are false. *)
Definition found (bank_data : option (gmap str str)) : bool :=
  match bank_data with
  | Some d => bool_decide (d ≠ ∅)
  | None => false
  end.

(** One turn of the row loop of [parse_bank_list], before the common fields
    are added. *)
Definition parse_bank_row (row : Html.node) : option (gmap str str) :=
  let bank_data := extract_from_hidden_spans row in
  let bank_data := if found bank_data then bank_data else extract_from_text row in
  if found bank_data then bank_data else None.

Definition parse_bank_list (crawled_at : str) (soup : Html.node) (city district : str)
  : list (gmap str str) :=
  omap (λ row,
          (λ bank_data,
             <[py"crawled_at" := crawled_at]>
               (<[py"district" := district]> (<[py"city" := city]> bank_data)))
          <$> parse_bank_row row)
       (Html.find_all soup (py"tr")).

(** *** InterestRateParser *)

(** A [float] read from a decimal text is kept as the exact decimal; the
    parser only compares rates with zero and with each other. *)
Abbreviation float := Qc (only parsing).

Record product := Product {
  product_name : str;
  duration_months : Z;
  interest_rate : float;
  duration_text : str;
  rate_text : str;
  product_type : str
}.

Definition SIGHT : str := Eval vm_compute in py"요구불예탁금".
Definition TERM : str := Eval vm_compute in py"거치식예탁금".
Definition INSTALLMENT : str := Eval vm_compute in py"적립식예탁금".

Definition valid_products : gmap str (list str) :=
  list_to_map
    [(SIGHT, [py"온라인자립예탁금"; py"상상모바일통장"]);
     (TERM, [py"MG더뱅킹정기예금"]);
     (INSTALLMENT, [py"MG더뱅킹정기적금"; py"MG더뱅킹자유적금"])].

Definition _is_valid_product (product_name product_type : str) : bool :=
  match valid_products !! product_type with
  | None => false
  | Some names => existsb (λ name, Py.contains name product_name) names
  end.

(** [cells[-1]] and [cells[-2]] *)
Definition cell_text_from_end (cells : list Html.node) (k : nat) : option str :=
  Html.get_text_strip <$> reverse cells !! k.

Definition _extract_duration_and_rate (cells : list Html.node) (product_type : str)
  : str * str :=
  if decide (product_type = SIGHT) then
    let rate_text := default [] (cell_text_from_end cells 0) in
    ([], rate_text)
  else
    if decide (2 ≤ length cells)%nat then
      let duration_text := default [] (cell_text_from_end cells 1) in
      let rate_text := default [] (cell_text_from_end cells 0) in
      (duration_text, rate_text)
    else ([], []).

(** [(\d+)] *)
Definition digits_at (s : str) : option str :=
  let '(ds, _) := Py.span Py.is_digit s in
  if Py.truthy ds then Some ds else None.

Definition _parse_duration (text : str) : Z :=
  if Py.truthy text then
    match search digits_at (Py.replace (py"이상") [] (Py.replace (py"월") [] text)) with
    | Some ds => Py.int_of_digits ds
    | None => 0
    end
  else 0.

(** The rate pattern, [\d+] then an optional dot then [\d*]: the integer
    digits and the fraction digits; and [float] of the matched text. *)
Definition decimal_at (s : str) : option (str * str) :=
  let '(ds, rest) := Py.span Py.is_digit s in
  if Py.truthy ds then
    match lit_at 46 rest with
    | Some rest' => Some (ds, fst (Py.span Py.is_digit rest'))
    | None => Some (ds, [])
    end
  else None.

Definition float_of_decimal (d : str * str) : float :=
  Q2Qc (inject_Z (Py.int_of_digits (d.1 ++ d.2)) / inject_Z (10 ^ Z.of_nat (length d.2))).

Definition _parse_rate (text : str) : float :=
  if Py.truthy text then
    match search decimal_at (Py.replace (py"%") [] text) with
    | Some d => float_of_decimal d
    | None => 0%Qc
    end
  else 0%Qc.

Definition parse_product_row (cells : list Html.node) (product_type : str)
  : option product :=
  if decide (length cells < 2)%nat then None
  else
    let product_name := default [] (Html.get_text_strip <$> head cells) in
    if negb (_is_valid_product product_name product_type) then None
    else
      let '(duration_text, rate_text) := _extract_duration_and_rate cells product_type in
      let duration := _parse_duration duration_text in
      let rate := _parse_rate rate_text in
      if decide (product_type = SIGHT) then
        if decide (rate ≤ 0)%Qc then None
        else Some (Product product_name duration rate duration_text rate_text product_type)
      else if decide (duration ≤ 0 ∨ (rate ≤ 0)%Qc) then None
      else Some (Product product_name duration rate duration_text rate_text product_type).

(** *** remove_duplicate_products *)

(** The loop shared by the de-duplicators: [seen] is the set of keys met so
    far, [unique] the records kept, in order. *)
Section dedup.
Context {A K : Type} `{Countable K} (key_of : A → K).

Definition dedup_step (st : gset K * list A) (x : A) : gset K * list A :=
  let key := key_of x in
  if decide (key ∈ st.1) then st else ({[key]} ∪ st.1, st.2 ++ [x]).

Definition dedup_loop (xs : list A) : list A := (foldl dedup_step (∅, []) xs).2.

End dedup.

Definition product_key (p : product) : str * Z * float * str :=
  (product_name p, duration_months p, interest_rate p, product_type p).

Definition remove_duplicate_products (products : list product) : list product :=
  dedup_loop product_key products.

(** The row loop of [parse_interest_rates], on the rows the table selectors
    found. *)
Definition parse_rate_rows (rows : list Html.node) (product_type : str) : list product :=
  let products :=
    omap (λ row, parse_product_row (Html.find_all row (py"td")) product_type) rows in
  remove_duplicate_products products.

End Parser.

(** ** datetime

    A naive [datetime] is the number of microseconds since 0001-01-01
    00:00:00 in the proleptic Gregorian calendar; file modification times
    are read on the same axis. *)

Module Datetime.

Abbreviation datetime := Z (only parsing).

Definition us_per_second : Z := 1000000.
Definition us_per_day : Z := 86400 * us_per_second.

(** [timedelta(days=d)] *)
Definition timedelta_days (d : Z) : Z := d * us_per_day.

Definition is_leap (y : Z) : bool :=
  (y mod 4 =? 0) && (negb (y mod 100 =? 0) || (y mod 400 =? 0)).

Definition days_in_month (y m : Z) : Z :=
  if m =? 2 then (if is_leap y then 29 else 28)
  else if (m =? 4) || (m =? 6) || (m =? 9) || (m =? 11) then 30
  else 31.

Definition days_before_year (y : Z) : Z :=
  let y' := y - 1 in y' * 365 + y' / 4 - y' / 100 + y' / 400.

Definition days_before_month (y m : Z) : Z :=
  foldr Z.add 0 (days_in_month y <$> ((λ k, k + 1) <$> Py.range (m - 1))).

(** The ordinal of a date, 0001-01-01 being day 1, and its inverse. *)
Definition ymd2ord (y m d : Z) : Z := days_before_year y + days_before_month y m + d.

Definition ord2ymd (n : Z) : Z * Z * Z :=
  let n := n - 1 in
  let n400 := n / 146097 in let n := n mod 146097 in
  let n100 := n / 36524 in let n := n mod 36524 in
  let n4 := n / 1461 in let n := n mod 1461 in
  let n1 := n / 365 in let n := n mod 365 in
  let year := n400 * 400 + 1 + n100 * 100 + n4 * 4 + n1 in
  if (n1 =? 4) || (n100 =? 4) then (year - 1, 12, 31)
  else
    let month := (n + 50) / 32 in
    let preceding := days_before_month year month in
    if n <? preceding
    then (year, month - 1, n - (preceding - days_in_month year (month - 1)) + 1)
    else (year, month, n - preceding + 1).

Definition of_ymd (y m d : Z) : datetime := (ymd2ord y m d - 1) * us_per_day.

Definition year_of (t : datetime) : Z := (ord2ymd (t / us_per_day + 1)).1.1.
Definition month_of (t : datetime) : Z := (ord2ymd (t / us_per_day + 1)).1.2.
Definition day_of (t : datetime) : Z := (ord2ymd (t / us_per_day + 1)).2.
Definition hour_of (t : datetime) : Z := t mod us_per_day / (3600 * us_per_second).
Definition minute_of (t : datetime) : Z := t mod (3600 * us_per_second) / (60 * us_per_second).
Definition second_of (t : datetime) : Z := t mod (60 * us_per_second) / us_per_second.
Definition microsecond_of (t : datetime) : Z := t mod us_per_second.

(** Decimal output: [str(n)] and the zero-padded [{n:0wd}]. *)
Fixpoint digits_fuel (fuel : nat) (n : Z) (acc : str) : str :=
  match fuel with
  | O => acc
  | S fuel' =>
      let acc := Z.to_N (n mod 10 + 48) :: acc in
      if n <? 10 then acc else digits_fuel fuel' (n / 10) acc
  end.

Definition str_of_nonneg (n : Z) : str := digits_fuel (S (Z.to_nat (Z.log2 n))) n [].

Definition str_of_int (n : Z) : str :=
  if n <? 0 then 45%N :: str_of_nonneg (- n) else str_of_nonneg n.

Definition zero_pad (width : nat) (n : Z) : str :=
  let ds := str_of_int n in
  if n <? 0 then 45%N :: replicate (width - length ds) 48%N ++ drop 1 ds
  else replicate (width - length ds) 48%N ++ ds.

(** [strftime('%Y-%m-%d')], [strftime('%Y%m%d_%H%M%S')] and [isoformat()] *)
Definition strftime_date (t : datetime) : str :=
  zero_pad 4 (year_of t) ++ py"-" ++ zero_pad 2 (month_of t) ++ py"-" ++ zero_pad 2 (day_of t).

Definition strftime_stamp (t : datetime) : str :=
  zero_pad 4 (year_of t) ++ zero_pad 2 (month_of t) ++ zero_pad 2 (day_of t) ++ py"_"
  ++ zero_pad 2 (hour_of t) ++ zero_pad 2 (minute_of t) ++ zero_pad 2 (second_of t).

Definition isoformat (t : datetime) : str :=
  strftime_date t ++ py"T" ++ zero_pad 2 (hour_of t) ++ py":" ++ zero_pad 2 (minute_of t)
  ++ py":" ++ zero_pad 2 (second_of t)
  ++ (if microsecond_of t =? 0 then [] else py"." ++ zero_pad 6 (microsecond_of t)).

(** [datetime.strptime(s, '%Y-%m-%d')]. The format compiles to a pattern
    with four digits for [%Y], the alternatives [1[0-2]], [0[1-9]], [[1-9]]
    for [%m] and [3[01]], [[12]\d], [0[1-9]], [[1-9]], a space and [[1-9]]
    for [%d], tried in this order; text left over, and a date that does not
    exist, raise [ValueError] ([None]). *)
Definition in_range (lo hi : N) (c : char) : bool := ((lo <=? c) && (c <=? hi))%N.

Definition month_alternatives (s : str) : list (str * str) :=
  match s with
  | a :: b :: rest =>
      (if bool_decide (a = 49%N) && in_range 48 50 b then [([a; b], rest)] else [])
      ++ (if bool_decide (a = 48%N) && in_range 49 57 b then [([a; b], rest)] else [])
      ++ (if in_range 49 57 a then [([a], b :: rest)] else [])
  | [a] => if in_range 49 57 a then [([a], [])] else []
  | [] => []
  end.

Definition day_alternatives (s : str) : list (str * str) :=
  match s with
  | a :: b :: rest =>
      (if bool_decide (a = 51%N) && in_range 48 49 b then [([a; b], rest)] else [])
      ++ (if in_range 49 50 a && Py.is_digit b then [([a; b], rest)] else [])
      ++ (if bool_decide (a = 48%N) && in_range 49 57 b then [([a; b], rest)] else [])
      ++ (if in_range 49 57 a then [([a], b :: rest)] else [])
      ++ (if bool_decide (a = 32%N) && in_range 49 57 b then [([b], rest)] else [])
  | [a] => if in_range 49 57 a then [([a], [])] else []
  | [] => []
  end.

Definition strptime_date (s : str) : option datetime :=
  let year_digits := take 4 s in
  if bool_decide (length year_digits = 4%nat) && forallb Py.is_digit year_digits then
    match drop 4 s with
    | 45%N :: s1 =>
        (* the first month alternative that a dash follows *)
        '(month_digits, s2) ←
          head (List.filter (λ '(_, rest), bool_decide (head rest = Some 45%N))
                  (month_alternatives s1));
        '(day_digits, s3) ← head (day_alternatives (drop 1 s2));
        if bool_decide (s3 = []) then
          let y := Py.int_of_digits year_digits in
          let m := Py.int_of_digits month_digits in
          let d := Py.int_of_digits day_digits in
          if (1 <=? y) && (d <=? days_in_month y m) then Some (of_ymd y m d) else None
        else None
    | _ => None
    end
  else None.

End Datetime.

(** ** crawler.py *)

Module Crawler.

(** [CRAWLER_CONFIG], of the configuration module. *)
Record config := Config {
  timeout : Z;
  retry_count : Z;
  retry_delay : Z
}.

(** What one [session.get] does: it returns a response, or raises a
    [requests.exceptions.RequestException] (connection error, timeout, ...). *)
Inductive reply :=
| Responds (status_code : Z) (text : str)
| RaisesRequestException (message : str).

Record response := Response { status_code : Z; text : str }.

(** What [_make_request] does to the outside: requests and sleeps. *)
Inductive event :=
| Get (url : str) (params : gmap str str) (timeout : Z)
| Sleep (seconds : Z).

(** [response.raise_for_status()] raises [HTTPError], a
    [RequestException], on the client and server error statuses. *)
Definition raise_for_status (status_code : Z) : bool :=
  ((400 <=? status_code) && (status_code <? 500))
  || ((500 <=? status_code) && (status_code <? 600)).

(** The [try] block of one attempt: [None] is the [except] branch. *)
Definition try_get (r : reply) : option response :=
  match r with
  | Responds status_code text =>
      if raise_for_status status_code then None else Some (Response status_code text)
  | RaisesRequestException _ => None
  end.

Section make_request.
Context (cfg : config).
(** [net attempt] is what the transport does at the given attempt. *)
Context (net : Z → reply).

Fixpoint _make_request_loop (url : str) (params : gmap str str) (max_retries : Z)
    (attempts : list Z) : option response * list event :=
  match attempts with
  | [] => (None, [])
  | attempt :: rest =>
      let get := Get url params (timeout cfg) in
      match try_get (net attempt) with
      | Some response => (Some response, [get])
      | None =>
          if attempt <? max_retries - 1 then
            let '(r, events) := _make_request_loop url params max_retries rest in
            (r, get :: Sleep (retry_delay cfg * (attempt + 1)) :: events)
          else (None, [get])
      end
  end.

Definition _make_request (url : str) (params : gmap str str) (max_retries : Z)
  : option response * list event :=
  _make_request_loop url params max_retries (Py.range max_retries).

End make_request.

Definition product_key (p : Parser.product) : str * Z * Qc * str :=
  (Parser.product_name p, Parser.duration_months p, Parser.interest_rate p,
   Parser.product_type p).

Definition _remove_duplicate_products (products : list Parser.product)
  : list Parser.product :=
  Parser.dedup_loop product_key products.

(** The dictionary of an [InterestRate]. *)
Record rate := Rate {
  bank : gmap str str;
  base_date : str;
  products : list Parser.product;
  crawled_at : str;
  total_products : Z
}.

(** *** Fetching one region, one branch *)

(** [API_ENDPOINTS], of the configuration module. *)
Record endpoints := Endpoints {
  bank_list : str;
  interest_rates : str;
  grade_evaluation : str
}.

(** The crawler's [stats]. *)
Record stats := Stats {
  banks_fetched : Z;
  rates_fetched : Z;
  errors : list str
}.

Definition product_types : list (str * str) :=
  [(py"12", Parser.SIGHT); (py"13", Parser.TERM); (py"14", Parser.INSTALLMENT)].

Section fetch.
Context (cfg : config) (api : endpoints).
(** [REGIONS], of the configuration module: the districts of each city. *)
Context (REGIONS : gmap str (list str)).
(** BeautifulSoup: the document of a response text, and the rows the table
    selectors of [parse_interest_rates] find in a response text. *)
Context (soup_of : str → Html.node) (rate_rows_of : str → list Html.node).
(** The transport, by the parameters of the request and the attempt. *)
Context (transport : gmap str str → Z → reply).

Definition bank_list_params (city district : str) : gmap str str :=
  if bool_decide (REGIONS !! city = Some [city])
  then <[py"r2" := []]> {[ py"r1" := city ]}
  else <[py"r2" := district]> {[ py"r1" := city ]}.

Definition fetch_bank_list (now : Datetime.datetime) (st : stats) (city district : str)
  : list (gmap str str) * stats * list event :=
  let params := bank_list_params city district in
  let '(response, events) :=
    _make_request cfg (transport params) (bank_list api) params (retry_count cfg) in
  match response with
  | None => ([], st, events)
  | Some response =>
      let banks :=
        Parser.parse_bank_list (Datetime.isoformat now) (soup_of (text response))
          city district in
      (banks,
       Stats (banks_fetched st + Z.of_nat (length banks)) (rates_fetched st) (errors st),
       events)
  end.

(** One turn of the loop over the product types: the products read so far
    and the events so far. *)
Definition fetch_product_type (gmgoCd : str)
    (acc : list Parser.product * list event) (product_type : str * str)
  : list Parser.product * list event :=
  let params : gmap str str :=
    <[py"gubuncode" := product_type.1]> {[ py"OPEN_TRMID" := gmgoCd ]} in
  let '(response, events) :=
    _make_request cfg (transport params) (interest_rates api) params (retry_count cfg) in
  match response with
  | None => (acc.1, acc.2 ++ events)
  | Some response =>
      let products := Parser.parse_rate_rows (rate_rows_of (text response)) product_type.2 in
      (acc.1 ++ products, acc.2 ++ events)
  end.

(** Both ends of [fetch_interest_rates] write [bank['name']] to the log,
    outside any [try]: a bank with a code and no name makes it raise
    [KeyError] once the requests are made. The result is [inl] for an
    exception that leaves the function. *)
Definition fetch_interest_rates (now : Datetime.datetime) (st : stats) (bank : gmap str str)
  : (str + option rate) * stats * list event :=
  match bank !! (py"gmgoCd") with
  | None => (inr None, st, [])
  | Some gmgoCd =>
      let '(all_products, events) := foldl (fetch_product_type gmgoCd) ([], []) product_types in
      let unique_products := _remove_duplicate_products all_products in
      match bank !! (py"name") with
      | None => (inl (py"KeyError"), st, events)
      | Some _ =>
          match unique_products with
          | [] => (inr None, st, events)
          | _ =>
              (inr (Some (Rate bank [] unique_products (Datetime.isoformat now)
                            (Z.of_nat (length unique_products)))),
               Stats (banks_fetched st) (rates_fetched st + 1) (errors st),
               events)
          end
      end
  end.

End fetch.

(** *** get_region_stats *)

Definition region_step (stats : gmap str (gmap str Z)) (bank : gmap str str)
  : gmap str (gmap str Z) :=
  let city := default (py"Unknown") (bank !! (py"city")) in
  let district := default (py"Unknown") (bank !! (py"district")) in
  let of_city : gmap str Z := default ∅ (stats !! city) in
  <[city := <[district := default 0 (of_city !! district) + 1]> of_city]> stats.

Definition get_region_stats (banks : list (gmap str str)) : gmap str (gmap str Z) :=
  foldl region_step ∅ banks.

End Crawler.

(** ** grade_crawler.py *)

Module GradeCrawler.

(** [GRADE_CONFIG['collection_month']] is one month or a list of months. *)
Inductive months :=
| OneMonth (m : Z)
| MonthList (ms : list Z).

Record config := Config {
  enabled : bool;
  collection_month : months;
  evaluation_year : Z;
  evaluation_month : Z
}.

(** What the gate reads from outside the configuration. *)
Inductive read :=
| Getenv (name : str)
| Now.

(** [environ] is the process environment, [now] the clock; the result comes
    with the reads made, in order. *)
Definition should_collect_grades (cfg : config) (environ : gmap str str)
    (now : Datetime.datetime) : bool * list read :=
  if negb (enabled cfg) then (false, [])
  else
    let force := default [] (environ !! (py"FORCE_GRADE_COLLECTION")) in
    if bool_decide (Py.lower force = py"true") then (true, [Getenv (py"FORCE_GRADE_COLLECTION")])
    else
      let current_month := Datetime.month_of now in
      (match collection_month cfg with
       | MonthList collection_months => bool_decide (current_month ∈ collection_months)
       | OneMonth collection_months => bool_decide (current_month = collection_months)
       end,
       [Getenv (py"FORCE_GRADE_COLLECTION"); Now]).

Record grade := Grade {
  gmgo_cd : str;
  bank_name : str;
  city : str;
  district : str;
  evaluation_agency : str;
  evaluation_date : str;
  grade_code : str;
  grade_name : str;
  grade_description : str;
  collected_at : str;
  grade_evaluation_year : Z;
  grade_evaluation_month : Z
}.

(** *** Fetching and reading one grade *)

(** The other keys of [GRADE_CONFIG]. *)
Record request_config := RequestConfig {
  retry_count : Z;
  retry_delay : Z;
  timeout : Z
}.

Inductive event :=
| Post (url : str) (data : gmap str str) (timeout : Z)
| Sleep (seconds : Z).

(** The pattern of [parse_grade_data]: [31000001], a run that has no bar,
    a bar, eight digits 0-9, a bar, one digit 0-9. The run is greedy, and
    only the longest run is followed by a bar. *)
Definition is_ascii_digit (c : char) : bool := ((48 <=? c) && (c <=? 57))%N.

Definition ascii_digits_exact (n : nat) (s : str) : option (str * str) :=
  let ds := take n s in
  if bool_decide (length ds = n) && forallb is_ascii_digit ds then Some (ds, drop n s)
  else None.

Definition grade_at (s : str) : option (str * str * str) :=
  if Py.starts_with (py"31000001") s then
    let '(agency, rest) :=
      Py.span (λ c, negb (bool_decide (c = 124%N))) (drop 8 s) in
    if Py.truthy agency then
      rest ← Parser.lit_at 124 rest;
      '(date, rest) ← ascii_digits_exact 8 rest;
      rest ← Parser.lit_at 124 rest;
      '(code, _) ← ascii_digits_exact 1 rest;
      Some (agency, date, code)
    else None
  else None.

Section grades.
Context (cfg : config) (req : request_config).
(** [GRADE_MAP], of the configuration module: name and description of a
    grade code; and [API_ENDPOINTS['grade_evaluation']]. *)
Context (GRADE_MAP : gmap str (str * str)) (url : str).
(** BeautifulSoup: the document of a response text. *)
Context (soup_of : str → Html.node).
(** The transport, by the form data of the request and the attempt. *)
Context (transport : gmap str str → Z → Crawler.reply).

Definition parse_grade_data (now : Datetime.datetime) (soup : Html.node)
    (gmgo_cd bank_name city district : str) : option grade :=
  match head (Html.find_all_attr soup (py"input") (py"id") (py"contentsdata")) with
  | None => None
  | Some contents_input =>
      match contents_input with
      | Html.Tag _ attrs _ =>
          match attrs !! (py"value") with
          | None => None
          | Some data_str =>
              if Py.truthy data_str then
                match Parser.search grade_at data_str with
                | None => None
                | Some (agency, date, code) =>
                    let grade_info :=
                      default (py"알수없음", py"등급 정보 없음") (GRADE_MAP !! code) in
                    Some (Grade gmgo_cd bank_name city district (Py.strip agency) date code
                            grade_info.1 grade_info.2 (Datetime.isoformat now)
                            (evaluation_year cfg) (evaluation_month cfg))
                end
              else None
          end
      | Html.Text _ => None
      end
  end.

Definition grade_payload (gmgo_cd : str) : gmap str str :=
  list_to_map
    [(py"procGbcd", py"1"); (py"pageNo", []); (py"gongsiGmgoid", []);
     (py"gmgocd", gmgo_cd); (py"hpageBrwsUm", py"1"); (py"gongsiDate", []);
     (py"strd_yymm",
      Datetime.str_of_int (evaluation_year cfg) ++ Datetime.zero_pad 2 (evaluation_month cfg));
     (py"gmgoNm", []); (py"gonsiYear", []); (py"gonsiMonth", [])].

Fixpoint fetch_grade_loop (now : Datetime.datetime) (gmgo_cd bank_name city district : str)
    (attempts : list Z) : option grade * list event :=
  match attempts with
  | [] => (None, [])
  | attempt :: rest =>
      let payload := grade_payload gmgo_cd in
      let post := Post url payload (timeout req) in
      match Crawler.try_get (transport payload attempt) with
      | Some response =>
          (parse_grade_data now (soup_of (Crawler.text response))
             gmgo_cd bank_name city district,
           [post])
      | None =>
          if attempt <? retry_count req - 1 then
            let '(r, events) := fetch_grade_loop now gmgo_cd bank_name city district rest in
            (r, post :: Sleep (retry_delay req) :: events)
          else (None, [post])
      end
  end.

Definition fetch_grade_for_bank (now : Datetime.datetime)
    (gmgo_cd bank_name city district : str) : option grade * list event :=
  fetch_grade_loop now gmgo_cd bank_name city district (Py.range (retry_count req)).




End grades.

End GradeCrawler.

(** ** storage.py *)

Module Storage.

(** *** Paths *)

(** A path is its list of components; the last one is the file name. *)
Abbreviation path := (list (list N)) (only parsing).

Definition path_name (p : path) : str := default [] (last p).
Definition path_parent (p : path) : path := take (length p - 1) p.

(** [Path.stem] and [Path.suffix]: the name is cut at its last dot, unless
    that dot is the first or the last character. *)
Definition split_suffix (name : str) : str * str :=
  let '(after, before) := Py.span (λ c, negb (bool_decide (c = 46%N))) (reverse name) in
  match before with
  | _ :: stem_rev =>
      if Py.truthy stem_rev && Py.truthy after
      then (reverse stem_rev, 46%N :: reverse after)
      else (name, [])
  | [] => (name, [])
  end.

Definition stem (name : str) : str := (split_suffix name).1.
Definition suffix (name : str) : str := (split_suffix name).2.

Definition with_suffix (p : path) (new_suffix : str) : path :=
  path_parent p ++ [stem (path_name p) ++ new_suffix].

(** *** Stored documents *)

(** The statistics of [parse_summary_data] are floating-point arithmetic;
    a summary is kept as the call that made it. *)
Inductive summary :=
| SummaryOf (rates : list Crawler.rate) (crawled_at : str).

Definition parse_summary_data (now : Datetime.datetime) (rates : list Crawler.rate)
  : summary :=
  SummaryOf rates (Datetime.isoformat now).

(** What [json.dump] writes and [json.load] reads back. The schema version
    of the bank list and of the daily rates is the constant ['1.1']. *)
Inductive doc :=
| BankListDoc (total_count unique_count : nat) (crawled_at : str)
    (banks : list (gmap str str))
| RatesDoc (date : str) (total_banks successful_banks : nat) (crawled_at : str)
    (summary_block : summary) (rates : list Crawler.rate)
| SummaryDoc (by_date : gmap str summary)
| GradesDoc (collected_at : str) (total_banks : nat)
    (evaluation_year evaluation_month : option Z) (grades : list GradeCrawler.grade)
| NotJson (bytes : str).

Record file := File {
  contents : doc;
  gzipped : bool;
  mtime : Z
}.

(** The files of the file system, by path. *)
Abbreviation fs := (gmap (list (list N)) file) (only parsing).

(** [dir.glob(pattern)], for a pattern on the name: the entries of [dir]. *)
Definition in_dir (dir p : path) : bool :=
  bool_decide (p ≠ [] ∧ path_parent p = dir).

Definition glob (dir : path) (pattern : str → bool) (s : fs) : list path :=
  List.filter (λ p, in_dir dir p && pattern (path_name p)) (map_to_list s).*1.

(** The result of an operation that may raise. *)
Inductive outcome (A : Type) :=
| Returns (a : A)
| Raises (exception : str).
Arguments Returns {A} a.
Arguments Raises {A} exception.

(** *** StorageManager *)

Record StorageManager := Manager {
  data_dir : path;
  bank_list_file : path
}.

Section manager.
Context (self : StorageManager).

Definition rates_dir : path := data_dir self ++ [py"rates"].
Definition backup_dir : path := data_dir self ++ [py"backups"].
Definition grades_dir : path := data_dir self ++ [py"grades"].
Definition summary_file : path := data_dir self ++ [py"summary.json"].

Definition save_json (now : Datetime.datetime) (data : doc) (filepath : path)
    (compress : bool) (s : fs) : bool * fs :=
  if compress then
    let filepath := with_suffix filepath (py".json.gz") in
    (true, <[filepath := File data true now]> s)
  else (true, <[filepath := File data false now]> s).

Definition load_json (filepath : path) (s : fs) : option doc :=
  let filepath :=
    if bool_decide (s !! filepath = None)
       && bool_decide (is_Some (s !! with_suffix filepath (py".json.gz")))
    then with_suffix filepath (py".json.gz") else filepath in
  match s !! filepath with
  | None => None
  | Some f =>
      match contents f with
      | NotJson _ => None
      | d =>
          if bool_decide (gzipped f = bool_decide (suffix (path_name filepath) = py".gz"))
          then Some d else None
      end
  end.

Definition _cleanup_old_backups (now : Datetime.datetime) (days_to_keep : Z) (s : fs) : fs :=
  let cutoff_time := now - Datetime.timedelta_days days_to_keep in
  foldl (λ s backup_file,
           match s !! backup_file with
           | Some f => if mtime f <? cutoff_time then delete backup_file s else s
           | None => s
           end)
        s (glob backup_dir (λ _, true) s).

(** [shutil.copy2] keeps the modification time of the source. *)
Definition _create_backup (now : Datetime.datetime) (filepath : path) (s : fs) : bool * fs :=
  match s !! filepath with
  | None => (false, s)
  | Some f =>
      let timestamp := Datetime.strftime_stamp now in
      let backup_name :=
        stem (path_name filepath) ++ py"_" ++ timestamp ++ suffix (path_name filepath) in
      let backup_path := backup_dir ++ [backup_name] in
      let s := <[backup_path := f]> s in
      (true, _cleanup_old_backups now 7 s)
  end.

Definition bank_step (st : gset str * list (gmap str str)) (bank : gmap str str)
  : gset str * list (gmap str str) :=
  match bank !! (py"gmgoCd") with
  | Some key =>
      if Py.truthy key && bool_decide (key ∉ st.1)
      then ({[key]} ∪ st.1, st.2 ++ [bank]) else st
  | None => st
  end.

Definition _remove_duplicate_banks (banks : list (gmap str str)) : list (gmap str str) :=
  (foldl bank_step (∅, []) banks).2.

Definition save_bank_list (now : Datetime.datetime) (banks : list (gmap str str)) (s : fs)
  : bool * fs :=
  match banks with
  | [] => (false, s)
  | _ =>
      let '(_, s) := _create_backup now (bank_list_file self) s in
      let unique_banks := _remove_duplicate_banks banks in
      let bank_data :=
        BankListDoc (length unique_banks)
          (size (list_to_set (omap (λ b, b !! (py"gmgoCd")) unique_banks) : gset str))
          (Datetime.isoformat now) unique_banks in
      save_json now bank_data (bank_list_file self) false s
  end.

Definition save_daily_rates (now : Datetime.datetime) (rates : list Crawler.rate)
    (date_str : option str) (s : fs) : bool * fs :=
  match rates with
  | [] => (false, s)
  | _ =>
      let date_str := default (Datetime.strftime_date now) date_str in
      let filepath := rates_dir ++ [date_str ++ py".json"] in
      let '(_, s) := _create_backup now filepath s in
      let summary := parse_summary_data now rates in
      let rates_data :=
        RatesDoc date_str (length rates)
          (length (List.filter (λ r, 0 <? Crawler.total_products r) rates))
          (Datetime.isoformat now) summary rates in
      let compress := bool_decide (100 < length rates)%nat in
      save_json now rates_data filepath compress s
  end.

Definition not_before (cutoff_date : Datetime.datetime) (date : str) : bool :=
  match Datetime.strptime_date date with
  | Some d => cutoff_date <=? d
  | None => false
  end.

(** [save_summary] has no [try]: what [strptime] raises on a key that is
    not a date leaves the function. *)
Definition save_summary (now : Datetime.datetime) (summary_data : summary)
    (date_str : option str) (s : fs) : outcome bool * fs :=
  let date_str := default (Datetime.strftime_date now) date_str in
  match
    match load_json summary_file s with
    | None => Some ∅
    | Some (SummaryDoc by_date) => Some by_date
    | Some _ => None
    end
  with
  | None => (Raises (py"ValueError"), s)
  | Some existing_summary =>
      let existing_summary := <[date_str := summary_data]> existing_summary in
      let cutoff_date := now - Datetime.timedelta_days 90 in
      if bool_decide (map_Forall (λ date _, is_Some (Datetime.strptime_date date))
                        existing_summary)
      then
        let existing_summary :=
          filter (λ entry, not_before cutoff_date entry.1 = true) existing_summary in
        let '(success, s) := save_json now (SummaryDoc existing_summary) summary_file false s in
        (Returns success, s)
      else (Raises (py"ValueError"), s)
  end.

Definition save_grades (now : Datetime.datetime) (grades_data : list GradeCrawler.grade)
    (s : fs) : bool * fs :=
  let filename :=
    match grades_data with
    | first :: _ =>
        py"grades_" ++ Datetime.str_of_int (GradeCrawler.grade_evaluation_year first)
        ++ py"_" ++ Datetime.zero_pad 2 (GradeCrawler.grade_evaluation_month first)
        ++ py".json"
    | [] =>
        py"grades_" ++ Datetime.str_of_int (Datetime.year_of now)
        ++ py"_" ++ Datetime.zero_pad 2 (Datetime.month_of now) ++ py".json"
    end in
  let filepath := grades_dir ++ [filename] in
  let data :=
    GradesDoc (Datetime.isoformat now) (length grades_data)
      (GradeCrawler.grade_evaluation_year <$> head grades_data)
      (GradeCrawler.grade_evaluation_month <$> head grades_data)
      grades_data in
  (true, <[filepath := File data false now]> s).

(** The body of the loop of [cleanup_old_data]; a name that is not a date
    makes [strptime] raise [ValueError], which is logged. *)
Definition date_str_of (file : path) : str :=
  Py.replace (py".json") [] (stem (path_name file)).



(** *** Reading back *)

(** A file opened as plain text and given to [json.load]: a compressed
    file, and a file that is not JSON, make it raise. *)
Definition read_plain (filepath : path) (s : fs) : option doc :=
  match s !! filepath with
  | None => None
  | Some f =>
      match contents f with
      | NotJson _ => None
      | d => if gzipped f then None else Some d
      end
  end.

Definition load_banks (s : fs) : option doc := read_plain (bank_list_file self) s.

Definition get_latest_rates (s : fs) : option doc :=
  let rate_files :=
    glob rates_dir (Py.ends_with (py".json")) s
    ++ glob rates_dir (Py.ends_with (py".json.gz")) s in
  match Py.max_by date_str_of rate_files with
  | None => None
  | Some latest_file => load_json latest_file s
  end.

Definition get_rates_by_date (date_str : str) (s : fs) : option doc :=
  load_json (rates_dir ++ [date_str ++ py".json"]) s.


Definition grades_file (year month : Z) : path :=
  grades_dir
  ++ [py"grades_" ++ Datetime.str_of_int year ++ py"_" ++ Datetime.zero_pad 2 month
      ++ py".json"].

Definition load_grades (now : Datetime.datetime) (year month : option Z) (s : fs)
  : option doc :=
  let year := default (Datetime.year_of now) year in
  let month := default (Datetime.month_of now) month in
  read_plain (grades_file year month) s.

(** The loop over [grades_data.get('grades', [])]. A summary stored under
    the key ['grades'] is a dictionary, and its keys have no [get]. *)
Definition get_grade_by_gmgo_cd (now : Datetime.datetime) (gmgo_cd : str)
    (year month : option Z) (s : fs) : outcome (option GradeCrawler.grade) :=
  match load_grades now year month s with
  | Some (GradesDoc _ _ _ _ grades) =>
      Returns (head (List.filter (λ grade, bool_decide (GradeCrawler.gmgo_cd grade = gmgo_cd))
                       grades))
  | Some (SummaryDoc by_date) =>
      match by_date !! (py"grades") with
      | Some _ => Raises (py"AttributeError")
      | None => Returns None
      end
  | _ => Returns None
  end.

(** *** save_all *)

Definition save_all (now : Datetime.datetime) (banks : list (gmap str str))
    (rates : list Crawler.rate) (date_str : option str) (s : fs) : bool * fs :=
  let date_str := default (Datetime.strftime_date now) date_str in
  let success := true in
  let '(success, s) :=
    match banks with
    | [] => (success, s)
    | _ => let '(ok, s) := save_bank_list now banks s in (success && ok, s)
    end in
  match rates with
  | [] => (success, s)
  | _ =>
      let '(ok, s) := save_daily_rates now rates (Some date_str) s in
      let success := success && ok in
      let summary := parse_summary_data now rates in
      match save_summary now summary (Some date_str) s with
      | (Returns ok, s) => (success && ok, s)
      | (Raises _, s) => (false, s)
      end
  end.

End manager.

End Storage.

(** ** main.py *)

Module Main.

Section collect_grades.
Context (self : Storage.StorageManager).
Context (cfg : GradeCrawler.config) (req : GradeCrawler.request_config).
Context (GRADE_MAP : gmap str (str * str)) (url : str) (soup_of : str → Html.node).
Context (transport : gmap str str → Z → Crawler.reply).



End collect_grades.

End Main.


(** * Vocabulary of the specification, and sample data

    The notions the claims are worded in, written after the
    specification, and the concrete rows and stores used as instances. *)

(** [power n chunk] is [chunk] written [n] times. *)
Definition power (n : nat) (chunk : str) : str := concat (replicate n chunk).


(** The validity policy in the words of the specification. *)
Definition passes_validity (product_type : str) (duration : Z) (rate : Qc) : Prop :=
  if decide (product_type = Parser.SIGHT) then (0 < rate)%Qc
  else 0 < duration ∧ (0 < rate)%Qc.

Definition td (s : str) : Html.node := Html.Tag (py"td") ∅ [Html.Text s].








(** The failures of a request: the transport raised, or the response has a
    client or server error status. In the words of the specification a
    failure is any response that is not 2xx. *)
Definition request_fails (r : Crawler.reply) : Prop :=
  match r with
  | Crawler.RaisesRequestException _ => True
  | Crawler.Responds status_code _ => 400 ≤ status_code < 600
  end.

Definition non_2xx_failure (r : Crawler.reply) : Prop :=
  match r with
  | Crawler.RaisesRequestException _ => True
  | Crawler.Responds status_code _ => ¬ (200 ≤ status_code < 300)
  end.

(** What [max_retries] failed attempts look like from outside: every
    attempt but the last is followed by a sleep of [retry_delay] times its
    number, counted from 1. *)
Definition failed_attempts (cfg : Crawler.config) (url : str) (params : gmap str str)
    (max_retries : Z) : list Crawler.event :=
  flat_map (λ attempt,
              Crawler.Get url params (Crawler.timeout cfg)
              :: (if attempt <? max_retries - 1
                  then [Crawler.Sleep (Crawler.retry_delay cfg * (attempt + 1))]
                  else []))
           (Py.range max_retries).

Definition is_get (e : Crawler.event) : bool :=
  match e with Crawler.Get _ _ _ => true | Crawler.Sleep _ => false end.

Definition sample_config : Crawler.config := Crawler.Config 10 3 2.




(** What the pruning of the backups leaves of a file. *)
Definition unless_older (cutoff_time : Z) (f : Storage.file) : option Storage.file :=
  if Storage.mtime f <? cutoff_time then None else Some f.

(** The name of the copy [_create_backup] makes of a file. *)
Definition backup_path_of (self : Storage.StorageManager) (now : Z) (filepath : list (list N))
  : list (list N) :=
  Storage.backup_dir self
  ++ [Storage.stem (Storage.path_name filepath) ++ py"_" ++ Datetime.strftime_stamp now
      ++ Storage.suffix (Storage.path_name filepath)].

(** Sample stores. *)
Definition sample_manager : Storage.StorageManager :=
  Storage.Manager [py"data"] [py"data"; py"banks.json"].

(** 2026-07-01, 12:00:00. *)
Definition sample_now : Z := Datetime.of_ymd 2026 7 1 + 12 * 3600 * Datetime.us_per_second.

Definition days_ago (k : Z) : str :=
  Datetime.strftime_date (sample_now - Datetime.timedelta_days k).

Definition rates_path (name : str) : list (list N) :=
  Storage.rates_dir sample_manager ++ [name].

Definition snapshot (date : str) : Storage.file :=
  Storage.File
    (Storage.RatesDoc date 0 0 (date ++ py"T03:00:00")
       (Storage.SummaryOf [] (date ++ py"T03:00:00")) [])
    false sample_now.

(** Snapshots dated today, 10 days ago and 40 days ago. *)
Definition three_snapshots : gmap (list (list N)) Storage.file :=
  <[rates_path (days_ago 0 ++ py".json") := snapshot (days_ago 0)]>
    (<[rates_path (days_ago 10 ++ py".json") := snapshot (days_ago 10)]>
       {[ rates_path (days_ago 40 ++ py".json") := snapshot (days_ago 40) ]}).


Definition sample_grade (grade_code : str) : GradeCrawler.grade :=
  GradeCrawler.Grade (py"12345") (py"한빛새마을금고") (py"서울") (py"종로구")
    (py"새마을금고중앙회") (py"20251231") grade_code (py"등급") (py"설명")
    (py"2026-06-30T09:00:00") 2026 6.

Definition grades_path : list (list N) :=
  Storage.grades_dir sample_manager ++ [py"grades_2026_06.json"].

Definition old_grades_file : Storage.file :=
  Storage.File
    (Storage.GradesDoc (py"2026-06-30T09:00:00") 1 (Some 2026) (Some 6) [sample_grade (py"2")])
    false (sample_now - Datetime.us_per_day).

(** A store that already holds the grades of 2026-06, and one that already
    holds a summary for 2026-06-30. *)
Definition store_with_grades : gmap (list (list N)) Storage.file :=
  {[ grades_path := old_grades_file ]}.

Definition old_summary : Storage.summary := Storage.SummaryOf [] (py"2026-06-30T03:00:00").
Definition new_summary : Storage.summary := Storage.SummaryOf [] (py"2026-07-01T12:00:00").

Definition store_with_summary : gmap (list (list N)) Storage.file :=
  {[ Storage.summary_file sample_manager :=
       Storage.File (Storage.SummaryDoc {[ py"2026-06-30" := old_summary ]}) false
         (sample_now - Datetime.us_per_day) ]}.

Definition summary_entry (s : gmap (list (list N)) Storage.file) (date : str)
  : option Storage.summary :=
  match Storage.load_json (Storage.summary_file sample_manager) s with
  | Some (Storage.SummaryDoc by_date) => by_date !! date
  | _ => None
  end.

(** ** Further vocabulary

    The notions the further properties at the end of the file are worded
    in. *)

(** The files [get_latest_rates] chooses from. *)
Definition is_rate_file (self : Storage.StorageManager)
    (s : gmap (list (list N)) Storage.file) (p : list (list N)) : Prop :=
  is_Some (s !! p)
  ∧ Storage.in_dir (Storage.rates_dir self) p = true
  ∧ (Py.ends_with (py".json") (Storage.path_name p) = true
     ∨ Py.ends_with (py".json.gz") (Storage.path_name p) = true).

(** The path of the snapshot of a date, plain and compressed. *)
Definition plain_path (self : Storage.StorageManager) (date_str : str) : list (list N) :=
  Storage.rates_dir self ++ [date_str ++ py".json"].

Definition gz_path (self : Storage.StorageManager) (date_str : str) : list (list N) :=
  Storage.with_suffix (plain_path self date_str) (py".json.gz").

(** The document [save_daily_rates] writes. *)
Definition rates_doc (now : Z) (date_str : str) (rates : list Crawler.rate) : Storage.doc :=
  Storage.RatesDoc date_str (length rates)
    (length (List.filter (λ r, 0 <? Crawler.total_products r) rates))
    (Datetime.isoformat now) (Storage.parse_summary_data now rates) rates.

(** The summary [save_summary] starts from: [load_json(summary_file) or {}],
    when it is a summary. *)
Definition existing_summary_of (self : Storage.StorageManager)
    (s : gmap (list (list N)) Storage.file) : option (gmap str Storage.summary) :=
  match Storage.load_json (Storage.summary_file self) s with
  | None => Some ∅
  | Some (Storage.SummaryDoc by_date) => Some by_date
  | Some _ => None
  end.

(** The fields a record of [BankParser] can have, and the three
    [parse_bank_list] adds. *)
Definition parsed_fields : list str :=
  [py"gmgoCd"; py"name"; py"branch_name"; py"type"; py"phone"; py"address"].

Definition common_fields : list str := [py"city"; py"district"; py"crawled_at"].

(** The events of [k] failed attempts that are each followed by another
    attempt, and the time slept in a run of events. *)
Definition retried_attempts (cfg : Crawler.config) (url : str) (params : gmap str str)
    (k : Z) : list Crawler.event :=
  flat_map (λ attempt,
              [Crawler.Get url params (Crawler.timeout cfg);
               Crawler.Sleep (Crawler.retry_delay cfg * (attempt + 1))])
           (Py.range k).

Definition slept (events : list Crawler.event) : Z :=
  foldr (λ e total, match e with Crawler.Sleep seconds => seconds + total | _ => total end)
        0 events.

(** The city and the district a bank is counted under, and the count of a
    city and a district in the statistics. *)
Definition region_of (bank : gmap str str) : str * str :=
  (default (py"Unknown") (bank !! py"city"), default (py"Unknown") (bank !! py"district")).

Definition region_count (stats : gmap str (gmap str Z)) (city district : str) : option Z :=
  stats !! city ≫= λ of_city, of_city !! district.

(** The requests among the events of the grade crawler, and the events of
    [k] failed attempts that are each followed by another attempt. *)
Definition is_post (e : GradeCrawler.event) : bool :=
  match e with GradeCrawler.Post _ _ _ => true | GradeCrawler.Sleep _ => false end.

Definition retried_posts (req : GradeCrawler.request_config) (url : str)
    (payload : gmap str str) (k : Z) : list GradeCrawler.event :=
  flat_map (λ _, [GradeCrawler.Post url payload (GradeCrawler.timeout req);
                  GradeCrawler.Sleep (GradeCrawler.retry_delay req)])
           (Py.range k).

(** A page whose [contentsdata] field holds the given text. *)
Definition grade_page (data_str : str) : Html.node :=
  Html.Tag (py"html") ∅
    [Html.Tag (py"input") {[ py"id" := py"contentsdata"; py"value" := data_str ]} []].



(** * Properties *)

(** ** The library functions on sample inputs *)

Example search_address_stops_before_code :
  Parser.search Parser.address_at (py"12345금고서울 종로구 세종대로 지역12345")
  = Some (py"서울 종로구 세종대로 지역").
Proof. vm_compute. reflexivity. Qed.

Example search_address_skips_street_number :
  Parser.search Parser.address_at (py"x서울 1 세종 b") = Some (py"세종 b").
Proof. vm_compute. reflexivity. Qed.

Example search_phone_backs_off :
  Parser.search Parser.phone_at (py"01-1234-56789") = Some (py"01-1234-5678")
  ∧ Parser.search Parser.phone_at (py"0123-456-78901") = None.
Proof. vm_compute. done. Qed.

Example search_branch_needs_content :
  Parser.search Parser.branch_at (py"()(a)(b") = Some (py"a").
Proof. vm_compute. reflexivity. Qed.

Example strptime_accepts :
  Datetime.strptime_date (py"2026-07-01") = Some (Datetime.of_ymd 2026 7 1)
  ∧ Datetime.strptime_date (py"2026-7-1") = Some (Datetime.of_ymd 2026 7 1)
  ∧ Datetime.strptime_date (py"2026-07- 1") = Some (Datetime.of_ymd 2026 7 1).
Proof. vm_compute. done. Qed.

Example strptime_raises :
  Datetime.strptime_date (py"2026-13-01") = None
  ∧ Datetime.strptime_date (py"2026-02-30") = None
  ∧ Datetime.strptime_date (py"0000-01-01") = None
  ∧ Datetime.strptime_date (py"2026-1-32") = None
  ∧ Datetime.strptime_date (py"2026-07-1 ") = None
  ∧ Datetime.strptime_date (py"notes") = None.
Proof. vm_compute. done. Qed.

Example strftime_formats :
  Datetime.strftime_stamp (Datetime.of_ymd 2024 2 29 + 86399 * Datetime.us_per_second)
  = py"20240229_235959"
  ∧ Datetime.strftime_date (Datetime.of_ymd 2023 3 1 - 1) = py"2023-02-28"
  ∧ Datetime.isoformat (Datetime.of_ymd 2026 7 1 + 3723 * Datetime.us_per_second + 5)
    = py"2026-07-01T01:02:03.000005".
Proof. vm_compute. done. Qed.

Example stem_and_suffix :
  Storage.split_suffix (py"2026-07-01.json") = (py"2026-07-01", py".json")
  ∧ Storage.split_suffix (py"2026-07-01.json.gz") = (py"2026-07-01.json", py".gz")
  ∧ Storage.split_suffix (py".json") = (py".json", [])
  ∧ Storage.split_suffix (py"a.") = (py"a.", []).
Proof. vm_compute. done. Qed.

(** The examples of the specification for the parser. *)
Example remove_duplicates_spec_examples :
  Parser._remove_duplicates (py"새마을금고새마을금고") = py"새마을금고"
  ∧ Parser._remove_duplicates (py"대한새마을금고") = py"대한새마을금고".
Proof. vm_compute. done. Qed.

Example parse_term_deposit_row :
  Parser.parse_product_row
    [td (py"MG더뱅킹정기예금"); td (py"12개월이상"); td (py"3.25%")] Parser.TERM
  = Some (Parser.Product (py"MG더뱅킹정기예금") 12 (Q2Qc (325 # 100))
            (py"12개월이상") (py"3.25%") Parser.TERM).
Proof.
  assert (Parser._parse_rate (py"3.25%") = Q2Qc (325 # 100)) as Hrate
    by (apply Qc_is_canon; vm_compute; reflexivity).
  unfold Parser.parse_product_row.
  replace (Parser._extract_duration_and_rate _ _) with (py"12개월이상", py"3.25%")
    by (vm_compute; reflexivity).
  rewrite Hrate.
  replace (Parser._parse_duration (py"12개월이상")) with 12 by (vm_compute; reflexivity).
  replace (default [] (Html.get_text_strip <$> head _)) with (py"MG더뱅킹정기예금")
    by (vm_compute; reflexivity).
  vm_compute. reflexivity.
Qed.

(** ** Name de-duplication ([BankParser._remove_duplicates]) *)

Section remove_duplicates.
Import Parser.

Lemma length_power n (chunk : str) : length (power n chunk) = (n * length chunk)%nat.
Proof.
  unfold power. induction n as [|n IH]; simpl; [done|].
  rewrite length_app, IH. done.
Qed.

Lemma range_step_exact (n c : nat) :
  (0 < c)%nat → Py.range_step (n * c) c = (λ k, k * c)%nat <$> seq 0 n.
Proof.
  intros Hc. unfold Py.range_step. f_equal. f_equal.
  replace (n * c + c - 1)%nat with (c - 1 + n * c)%nat by lia.
  rewrite Nat.div_add by lia. rewrite Nat.div_small by lia. done.
Qed.

Lemma chunks_of_exact (n c : nat) (text : str) :
  (0 < c)%nat → length text = (n * c)%nat →
  chunks_of c text = (λ k, take c (drop (k * c) text)) <$> seq 0 n.
Proof.
  intros Hc Hlen. unfold chunks_of. rewrite Hlen, range_step_exact by done.
  rewrite <- list_fmap_compose. apply list_fmap_ext. intros _ k _. simpl.
  unfold Py.slice. f_equal. lia.
Qed.

Lemma chunks_exact_cons (n c : nat) (text : str) :
  (λ k, take c (drop (k * c) text)) <$> seq 0 (S n)
  = take c text :: ((λ k, take c (drop (k * c) (drop c text))) <$> seq 0 n).
Proof.
  simpl. f_equal. rewrite <- fmap_S_seq, <- list_fmap_compose.
  apply list_fmap_ext. intros _ k _. simpl. rewrite drop_drop. done.
Qed.

Lemma concat_chunks (n c : nat) (text : str) :
  length text = (n * c)%nat →
  concat ((λ k, take c (drop (k * c) text)) <$> seq 0 n) = text.
Proof.
  revert text. induction n as [|n IH]; intros text Hlen.
  - destruct text; [done | simpl in Hlen; lia].
  - rewrite chunks_exact_cons. simpl. rewrite IH.
    + apply take_drop.
    + rewrite length_drop. lia.
Qed.

Lemma chunks_of_power (n : nat) (chunk : str) :
  chunk ≠ [] → chunks_of (length chunk) (power n chunk) = replicate n chunk.
Proof.
  intros Hne.
  assert (0 < length chunk)%nat by (destruct chunk; [done | simpl; lia]).
  rewrite (chunks_of_exact n) by (done || apply length_power).
  induction n as [|n IH]; [done|].
  rewrite chunks_exact_cons. unfold power in *. simpl.
  rewrite take_app_length, drop_app_length. by rewrite IH.
Qed.

Lemma size_list_to_set_replicate (n : nat) (chunk : str) :
  size (list_to_set (replicate (S n) chunk) : gset str) = 1%nat.
Proof.
  assert (list_to_set (replicate (S n) chunk) = ({[chunk]} : gset str)) as ->.
  { induction n as [|n IH]; simpl in *; [apply (right_id_L ∅ (∪)) | rewrite IH; apply (idemp_L (∪))]. }
  apply size_singleton.
Qed.

(** A divisor that splits the text into identical chunks returns the chunk. *)
Lemma try_divisor_power (n : nat) (chunk : str) :
  chunk ≠ [] → try_divisor (power (S n) chunk) (S n) = Some chunk.
Proof.
  intros Hne.
  assert (0 < length chunk)%nat by (destruct chunk; [done | simpl; lia]).
  unfold try_divisor. rewrite length_power.
  rewrite decide_True; last first.
  { split; [nia|]. rewrite Nat.mul_comm. apply Nat.Div0.mod_mul. }
  rewrite (Nat.mul_comm (S n)), Nat.div_mul by lia. simpl.
  rewrite chunks_of_power by done.
  rewrite decide_True by apply size_list_to_set_replicate. done.
Qed.

(** Conversely, a divisor returns a chunk only when the text is that chunk
    written [divisor] times. *)
Lemma try_divisor_Some (text chunk : str) (divisor : nat) :
  try_divisor text divisor = Some chunk →
  (0 < divisor)%nat ∧ chunk ≠ [] ∧ text = power divisor chunk.
Proof.
  unfold try_divisor. case_decide as Hd; [|done]. destruct Hd as [Hle Hmod].
  simpl. case_decide as Hsize; [|done]. intros Hhead.
  destruct (decide (divisor = 0%nat)) as [->|Hd0].
  { rewrite Nat.mod_0_r in Hmod. destruct text; [done | simpl in Hmod; lia]. }
  assert (length text = divisor * (length text / divisor))%nat as Hlen.
  { apply Nat.Div0.div_exact. done. }
  set (c := (length text / divisor)%nat) in *.
  assert (0 < c)%nat by nia.
  rewrite (chunks_of_exact divisor) in Hsize, Hhead by (done || lia).
  apply size_1_elem_of in Hsize as [x Hx].
  set (chunks := (λ k, take c (drop (k * c) text)) <$> seq 0 divisor) in *.
  assert (∀ y, y ∈ chunks → y = x) as Hall.
  { intros y Hy. assert (y ∈ (list_to_set chunks : gset str)) by set_solver. set_solver. }
  assert (chunks = replicate divisor chunk) as Hrep.
  { assert (x = chunk) as ->.
    { symmetry. apply Hall. destruct chunks eqn:E; [done|]. simpl in Hhead. set_solver. }
    replace divisor with (length chunks) by (unfold chunks; by rewrite length_fmap, length_seq).
    symmetry. apply replicate_as_elem_of. split; [done|]. intros y Hy. by apply Hall. }
  assert (text = power divisor chunk) as Htext.
  { unfold power. rewrite <- Hrep. symmetry. apply concat_chunks. lia. }
  split_and!; [lia| |done].
  intros ->. rewrite Htext, length_power in Hlen. simpl in *. nia.
Qed.

(** A chunk written twice collapses to the chunk. *)
Lemma remove_duplicates_twice (chunk : str) :
  _remove_duplicates (chunk ++ chunk) = chunk.
Proof.
  destruct (decide (chunk = [])) as [->|Hne]; [done|].
  unfold _remove_duplicates. simpl.
  replace (chunk ++ chunk) with (power 2 chunk) by (unfold power; simpl; by rewrite app_nil_r).
  by rewrite try_divisor_power.
Qed.


(** A chunk written four times is two copies of the doubled chunk: the
    divisor 2 comes first and returns half of the text. *)
Lemma remove_duplicates_four_times (chunk : str) :
  _remove_duplicates (chunk ++ chunk ++ chunk ++ chunk) = chunk ++ chunk.
Proof.
  rewrite (assoc_L (++) chunk chunk). apply remove_duplicates_twice.
Qed.


(** What comes back is always the text or one chunk of a split of it. *)
Lemma remove_duplicates_cases (text : str) :
  _remove_duplicates text = text
  ∨ ∃ n, n ∈ [2; 3; 4]%nat ∧ text = power n (_remove_duplicates text).
Proof.
  unfold _remove_duplicates. simpl.
  destruct (try_divisor text 2) eqn:E2.
  { right. exists 2%nat. apply try_divisor_Some in E2 as (_ & _ & E). split; [set_solver|done]. }
  destruct (try_divisor text 3) eqn:E3.
  { right. exists 3%nat. apply try_divisor_Some in E3 as (_ & _ & E). split; [set_solver|done]. }
  destruct (try_divisor text 4) eqn:E4.
  { right. exists 4%nat. apply try_divisor_Some in E4 as (_ & _ & E). split; [set_solver|done]. }
  by left.
Qed.

End remove_duplicates.




(** ** Rate rows ([InterestRateParser.parse_product_row]) *)

Section parse_product_row.
Import Parser.


Lemma Qc_not_le_0 (q : Qc) : ¬ (q ≤ 0)%Qc ↔ (0 < q)%Qc.
Proof. split; [apply Qcnot_le_lt | apply Qclt_not_le]. Qed.

(** What a row yields, case by case. *)
Lemma parse_product_row_Some cells product_type q :
  parse_product_row cells product_type = Some q ↔
    (2 ≤ length cells)%nat
    ∧ _is_valid_product (product_name q) product_type = true
    ∧ head cells ≫= (λ c, Some (Html.get_text_strip c)) = Some (product_name q)
    ∧ (duration_text q, rate_text q) = _extract_duration_and_rate cells product_type
    ∧ duration_months q = _parse_duration (duration_text q)
    ∧ interest_rate q = _parse_rate (rate_text q)
    ∧ Parser.product_type q = product_type
    ∧ passes_validity product_type (duration_months q) (interest_rate q).
Proof.
  unfold parse_product_row, passes_validity.
  destruct q as [qn qd qr qdt qrt qt]. simpl.
  destruct (_extract_duration_and_rate cells product_type) as [d r] eqn:E.
  destruct cells as [|c0 cells']; [simpl; split; [done | intros [? _]; simpl in *; lia]|].
  set (cells := c0 :: cells') in *.
  case_decide as Hlen.
  { split; [done | intros [? _]; lia]. }
  simpl head. simpl default.
  destruct (_is_valid_product (Html.get_text_strip c0) product_type) eqn:Hvalid;
    simpl negb; cbv iota.
  2:{ split; [done|]. intros (_ & Hv & [= <-] & _). congruence. }
  destruct (decide (product_type = SIGHT)) as [Hs|Hs].
  - case_decide as Hr.
    + split; [done|]. intros (_ & _ & _ & [= -> ->] & _ & -> & _ & Hpos).
      by apply Qc_not_le_0 in Hpos.
    + split.
      * intros [= <- <- <- <- <- <-]. apply Qc_not_le_0 in Hr. split_and!; (done || lia).
      * intros (_ & _ & [= <-] & [= -> ->] & -> & -> & -> & _). done.
  - case_decide as Hr.
    + split; [done|]. intros (_ & _ & _ & [= -> ->] & -> & -> & _ & Hd & Hpos).
      destruct Hr as [?|Hr]; [lia | by apply Qc_not_le_0 in Hpos].
    + split.
      * intros [= <- <- <- <- <- <-]. split_and!; try (done || lia).
        apply Qc_not_le_0. tauto.
      * intros (_ & _ & [= <-] & [= -> ->] & -> & -> & -> & _). done.
Qed.

End parse_product_row.



(** C7. Every quote of the sight-deposit category has [duration_months]
    0: the extraction step gives that category the empty duration text,
    and the empty duration text parses to 0. *)
Theorem C7_sight_deposit_duration_zero (cells : list Html.node) (product_type : str)
    (q : Parser.product) :
  Parser.parse_product_row cells product_type = Some q →
  Parser.product_type q = Parser.SIGHT →
  (Parser._extract_duration_and_rate cells product_type).1 = []
  ∧ Parser._parse_duration [] = 0
  ∧ Parser.duration_text q = []
  ∧ Parser.duration_months q = 0.
Proof.
  intros Hq Hsight.
  apply parse_product_row_Some in Hq as (_ & _ & _ & Hdr & Hdur & _ & Hty & _).
  rewrite Hty in Hsight. subst product_type.
  unfold Parser._extract_duration_and_rate in *. rewrite decide_True in * by done.
  injection Hdr as Hd Hr. rewrite Hdur, Hd. done.
Qed.

Lemma C7_witness :
  Parser.duration_months
    (Parser.Product (py"온라인자립예탁금") 0 (Q2Qc (1 # 10)) [] (py"0.1%") Parser.SIGHT) = 0.
Proof.
  refine (proj2 (proj2 (proj2
    (C7_sight_deposit_duration_zero
       [td (py"온라인자립예탁금"); td (py"0.1%")] Parser.SIGHT
       (Parser.Product (py"온라인자립예탁금") 0 (Q2Qc (1 # 10)) [] (py"0.1%") Parser.SIGHT)
       _ _)))).
  - vm_compute. reflexivity.
  - reflexivity.
Defined.

(** ** De-duplication ([remove_duplicate_products]) *)

Section dedup_facts.
Context {A K : Type} `{Countable K} (key_of : A → K).
Implicit Types (xs : list A) (x : A).

Let step := Parser.dedup_step key_of.
Let run xs := foldl step (∅, []) xs.

Lemma dedup_run_snoc xs x : run (xs ++ [x]) = step (run xs) x.
Proof. unfold run. by rewrite foldl_app. Qed.

(** The set [seen] holds exactly the keys of the records read so far. *)
Lemma dedup_seen xs : (run xs).1 = list_to_set (key_of <$> xs).
Proof.
  induction xs as [|x xs IH] using rev_ind; [done|].
  rewrite dedup_run_snoc, fmap_app, list_to_set_app_L. simpl.
  unfold step, Parser.dedup_step. rewrite IH.
  case_decide; simpl; set_solver.
Qed.

(** A record is kept exactly when no earlier record has its key. *)
Lemma dedup_loop_snoc xs x :
  Parser.dedup_loop key_of (xs ++ [x])
  = Parser.dedup_loop key_of xs ++ (if decide (key_of x ∈ key_of <$> xs) then [] else [x]).
Proof.
  unfold Parser.dedup_loop. fold (run (xs ++ [x])) (run xs).
  rewrite dedup_run_snoc. unfold step, Parser.dedup_step. rewrite dedup_seen.
  destruct (decide (key_of x ∈ key_of <$> xs)) as [Hin|Hin].
  - rewrite decide_True by set_solver. by rewrite app_nil_r.
  - rewrite decide_False by set_solver. done.
Qed.

Lemma dedup_loop_sublist xs : Parser.dedup_loop key_of xs `sublist_of` xs.
Proof.
  induction xs as [|x xs IH] using rev_ind; [done|].
  rewrite dedup_loop_snoc. case_decide.
  - rewrite app_nil_r. by apply sublist_inserts_r.
  - by apply sublist_app.
Qed.

Lemma dedup_loop_keys xs k :
  k ∈ key_of <$> Parser.dedup_loop key_of xs ↔ k ∈ key_of <$> xs.
Proof.
  induction xs as [|x xs IH] using rev_ind; [done|].
  rewrite dedup_loop_snoc, !fmap_app, !elem_of_app, IH. case_decide; simpl.
  - split; (intros [?|Hk]; [tauto|]).
    + by apply elem_of_nil in Hk.
    + apply list_elem_of_singleton in Hk as ->. tauto.
  - done.
Qed.

Lemma dedup_loop_NoDup xs : NoDup (key_of <$> Parser.dedup_loop key_of xs).
Proof.
  induction xs as [|x xs IH] using rev_ind; [constructor|].
  rewrite dedup_loop_snoc. case_decide as Hin.
  - by rewrite app_nil_r.
  - rewrite fmap_app. apply NoDup_app. split_and!; [done| |apply NoDup_singleton].
    intros k Hk Hx. simpl in Hx. apply list_elem_of_singleton in Hx as ->.
    apply Hin. by apply dedup_loop_keys.
Qed.

(** Records with pairwise distinct keys all stay. *)
Lemma dedup_loop_id xs : NoDup (key_of <$> xs) → Parser.dedup_loop key_of xs = xs.
Proof.
  induction xs as [|x xs IH] using rev_ind; [done|].
  rewrite fmap_app. intros (Hxs & Hx & _)%NoDup_app.
  rewrite dedup_loop_snoc, IH by done.
  rewrite decide_False; [done|]. intros Hin. apply (Hx _ Hin). simpl. left.
Qed.

Lemma dedup_loop_idemp xs :
  Parser.dedup_loop key_of (Parser.dedup_loop key_of xs) = Parser.dedup_loop key_of xs.
Proof. apply dedup_loop_id, dedup_loop_NoDup. Qed.

End dedup_facts.

(** C6. The de-duplicator of the parser, and the identical one of the
    crawler, keep a record exactly when no earlier record has its key
    (name, duration, rate, category), in input order; the keys of the
    output are pairwise distinct and cover the keys of the input; a second
    pass changes nothing. *)
Theorem C6_remove_duplicate_products (products : list Parser.product) :
  let unique := Parser.remove_duplicate_products products in
  Crawler._remove_duplicate_products products = unique
  ∧ Parser.remove_duplicate_products [] = []
  ∧ (∀ earlier p,
       Parser.remove_duplicate_products (earlier ++ [p])
       = Parser.remove_duplicate_products earlier
         ++ (if decide (Parser.product_key p ∈ Parser.product_key <$> earlier)
             then [] else [p]))
  ∧ unique `sublist_of` products
  ∧ (∀ k, k ∈ Parser.product_key <$> unique ↔ k ∈ Parser.product_key <$> products)
  ∧ NoDup (Parser.product_key <$> unique)
  ∧ Parser.remove_duplicate_products unique = unique
  ∧ Crawler._remove_duplicate_products unique = unique.
Proof.
  simpl. unfold Crawler._remove_duplicate_products, Parser.remove_duplicate_products.
  change Crawler.product_key with Parser.product_key.
  split_and!.
  - done.
  - done.
  - apply dedup_loop_snoc.
  - apply dedup_loop_sublist.
  - apply dedup_loop_keys.
  - apply dedup_loop_NoDup.
  - apply dedup_loop_idemp.
  - apply dedup_loop_idemp.
Qed.

(** ** Branch rows ([BankParser], [parse_bank_list]) *)

Section bank_rows.
Import Parser.

Lemma digits_exact_Some n s ds rest :
  digits_exact n s = Some (ds, rest) ↔
    s = ds ++ rest ∧ length ds = n ∧ Forall (λ c, Py.is_digit c = true) ds.
Proof.
  unfold digits_exact. split.
  - case_decide as Hlen; [|done].
    destruct (forallb Py.is_digit (take n s)) eqn:Hall; [|done].
    intros [= <- <-]. split_and!; [by rewrite take_drop | done |].
    apply Forall_forall. intros c Hc. rewrite forallb_forall in Hall.
    by apply Hall, list_elem_of_In.
  - intros (-> & Hlen & Hall).
    rewrite take_app_length', drop_app_length' by done.
    rewrite decide_True by done.
    replace (forallb Py.is_digit ds) with true; [done|].
    symmetry. apply forallb_forall. intros c Hc%list_elem_of_In.
    rewrite Forall_forall in Hall. by apply Hall.
Qed.

Lemma span_spec (p : char → bool) s :
  let '(a, b) := Py.span p s in
  s = a ++ b ∧ Forall (λ c, p c = true) a ∧ (∀ c b', b = c :: b' → p c = false).
Proof.
  induction s as [|c s IH]; simpl; [by split_and!|].
  destruct (p c) eqn:Hc.
  - destruct (Py.span p s) as [a b]. destruct IH as (-> & Ha & Hb).
    split_and!; [done | by constructor | done].
  - split_and!; [done | constructor |]. by intros ? ? [= <- <-].
Qed.






End bank_rows.




(** ** The fetch client ([KFCCCrawler._make_request]) *)

Section make_request_facts.
Import Crawler.
Context (cfg : config) (net : Z → reply) (url : str) (params : gmap str str).

Lemma try_get_None r : try_get r = None ↔ request_fails r.
Proof.
  destruct r as [status_code body|]; simpl; [|done].
  unfold raise_for_status.
  destruct (400 <=? status_code) eqn:E1, (status_code <? 500) eqn:E2,
    (500 <=? status_code) eqn:E3, (status_code <? 600) eqn:E4; simpl; split; try done; lia.
Qed.

Lemma make_request_loop_all_fail (max_retries : Z) (n a : nat) :
  Z.of_nat a + Z.of_nat n = max_retries →
  (∀ attempt, Z.of_nat a ≤ attempt < max_retries → request_fails (net attempt)) →
  _make_request_loop cfg net url params max_retries (Z.of_nat <$> seq a n)
  = (None,
     flat_map (λ attempt,
                 Get url params (timeout cfg)
                 :: (if attempt <? max_retries - 1
                     then [Sleep (retry_delay cfg * (attempt + 1))] else []))
              (Z.of_nat <$> seq a n)).
Proof.
  revert a. induction n as [|n IH]; intros a Hsum Hfail; [done|].
  simpl. rewrite (proj2 (try_get_None _)) by (apply Hfail; lia).
  destruct (Z.of_nat a <? max_retries - 1) eqn:Hlast.
  - rewrite IH; [done | lia | intros; apply Hfail; lia].
  - destruct n; [done | lia].
Qed.

Lemma make_request_all_fail (max_retries : Z) :
  (∀ attempt, 0 ≤ attempt < max_retries → request_fails (net attempt)) →
  _make_request cfg net url params max_retries
  = (None, failed_attempts cfg url params max_retries).
Proof.
  intros Hfail. unfold _make_request, failed_attempts, Py.range.
  destruct (decide (0 ≤ max_retries)).
  - apply make_request_loop_all_fail; [lia|]. intros; apply Hfail; lia.
  - by replace (Z.to_nat max_retries) with 0%nat by lia.
Qed.

(** Whatever the transport does, there are at most [max_retries] requests. *)
Lemma make_request_loop_bound (max_retries : Z) (attempts : list Z) :
  (length (List.filter is_get (_make_request_loop cfg net url params max_retries attempts).2)
   ≤ length attempts)%nat.
Proof.
  induction attempts as [|attempt rest IH]; simpl; [done|].
  destruct (try_get (net attempt)); simpl; [lia|].
  destruct (attempt <? max_retries - 1); simpl; [|lia].
  destruct (_make_request_loop cfg net url params max_retries rest). simpl in *. lia.
Qed.

Lemma length_failed_attempts (max_retries : Z) :
  length (List.filter is_get (failed_attempts cfg url params max_retries))
  = Z.to_nat max_retries.
Proof.
  unfold failed_attempts, Py.range.
  generalize 0%nat. induction (Z.to_nat max_retries) as [|n IH]; intros a; [done|].
  simpl. rewrite List.filter_app, length_app, IH.
  by destruct (_ <? _).
Qed.

End make_request_facts.

(** C3, as stated, fails: a response that is not 2xx but is no error status
    (here 304) is returned at once, without any retry; so it is not true
    that the operation ends in a failure value whenever every attempt meets
    a transport-level or non-2xx failure. *)
Lemma C3_counterexample :
  let net := λ _ : Z, Crawler.Responds 304 [] in
  non_2xx_failure (net 0)
  ∧ Crawler._make_request sample_config net (py"https://www.kfcc.co.kr") ∅ 3
    = (Some (Crawler.Response 304 []),
       [Crawler.Get (py"https://www.kfcc.co.kr") ∅ 10])
  ∧ ¬ (∀ net : Z → Crawler.reply,
         (∀ attempt, 0 ≤ attempt < 3 → non_2xx_failure (net attempt)) →
         Crawler._make_request sample_config net (py"https://www.kfcc.co.kr") ∅ 3
         = (None, failed_attempts sample_config (py"https://www.kfcc.co.kr") ∅ 3)).
Proof.
  split_and!; [simpl; lia | reflexivity |].
  intros Hclaim. specialize (Hclaim (λ _, Crawler.Responds 304 [])).
  assert (∀ attempt : Z, 0 ≤ attempt < 3 →
          non_2xx_failure ((λ _ : Z, Crawler.Responds 304 []) attempt)) as Hfail
    by (intros; simpl; lia).
  specialize (Hclaim Hfail). discriminate Hclaim.
Qed.

(** C3, amended. When every attempt fails, by an exception of the transport
    or by a 4xx or 5xx status, [_make_request] makes [max_retries] requests,
    sleeps [retry_delay] times the attempt number after each of them but the
    last, and returns [None]; nothing is raised. Whatever happens, it makes
    at most [max_retries] requests. A first response with any other status
    is returned at once. *)
Theorem C3_make_request_retries (cfg : Crawler.config) (net : Z → Crawler.reply)
    (url : str) (params : gmap str str) (max_retries : Z) :
  (length (List.filter is_get (Crawler._make_request cfg net url params max_retries).2)
   ≤ Z.to_nat max_retries)%nat
  ∧ ((∀ attempt, 0 ≤ attempt < max_retries → request_fails (net attempt)) →
     Crawler._make_request cfg net url params max_retries
     = (None, failed_attempts cfg url params max_retries)
     ∧ length (List.filter is_get (failed_attempts cfg url params max_retries))
       = Z.to_nat max_retries)
  ∧ (∀ status_code text,
       0 < max_retries →
       net 0 = Crawler.Responds status_code text →
       ¬ (400 ≤ status_code < 600) →
       Crawler._make_request cfg net url params max_retries
       = (Some (Crawler.Response status_code text),
          [Crawler.Get url params (Crawler.timeout cfg)])).
Proof.
  split_and!.
  - unfold Crawler._make_request.
    etrans; [apply make_request_loop_bound|].
    unfold Py.range. by rewrite length_fmap, length_seq.
  - intros Hfail. split; [by apply make_request_all_fail | apply length_failed_attempts].
  - intros status_code text Hpos Hnet Hok.
    unfold Crawler._make_request, Py.range.
    destruct (Z.to_nat max_retries) as [|n] eqn:Hn; [lia|]. simpl.
    change (Z.of_nat 0) with 0.
    destruct (Crawler.try_get (net 0)) as [response|] eqn:Hget.
    + rewrite Hnet in Hget. simpl in Hget.
      destruct (Crawler.raise_for_status status_code); [done|].
      injection Hget as Hget. by rewrite Hget.
    + apply try_get_None in Hget. rewrite Hnet in Hget. done.
Qed.

Lemma C3_witness :
  Crawler._make_request sample_config (λ attempt, if attempt =? 1 then Crawler.Responds 503 []
                                          else Crawler.RaisesRequestException (py"timeout"))
    (py"https://www.kfcc.co.kr") ∅ 3
  = (None,
     [Crawler.Get (py"https://www.kfcc.co.kr") ∅ 10; Crawler.Sleep 2;
      Crawler.Get (py"https://www.kfcc.co.kr") ∅ 10; Crawler.Sleep 4;
      Crawler.Get (py"https://www.kfcc.co.kr") ∅ 10]).
Proof.
  refine (proj1 (proj1 (proj2 (C3_make_request_retries sample_config _ _ ∅ 3)) _)).
  intros attempt Hattempt. destruct (attempt =? 1) eqn:E; simpl; [lia | exact I].
Defined.

(** ** The grade gate ([GradeCrawler.should_collect_grades]) *)

(** C10. With [GRADE_CONFIG['enabled']] false the gate answers [False]
    whatever the environment and the month are, and reads neither; with
    the flag true the first thing read is the override variable. *)
Theorem C10_grade_gate_disabled (cfg : GradeCrawler.config) (environ : gmap str str)
    (now : Z) :
  (GradeCrawler.enabled cfg = false →
   GradeCrawler.should_collect_grades cfg environ now = (false, []))
  ∧ (GradeCrawler.enabled cfg = true →
     head (GradeCrawler.should_collect_grades cfg environ now).2
     = Some (GradeCrawler.Getenv (py"FORCE_GRADE_COLLECTION"))).
Proof.
  unfold GradeCrawler.should_collect_grades. split; intros ->; simpl; [done|].
  by case_bool_decide.
Qed.

Lemma C10_witness :
  GradeCrawler.should_collect_grades
    (GradeCrawler.Config false (GradeCrawler.OneMonth 7) 2026 6)
    {[ py"FORCE_GRADE_COLLECTION" := py"TRUE" ]}
    (Datetime.of_ymd 2026 7 15)
  = (false, []).
Proof.
  exact (proj1 (C10_grade_gate_disabled
                  (GradeCrawler.Config false (GradeCrawler.OneMonth 7) 2026 6)
                  {[ py"FORCE_GRADE_COLLECTION" := py"TRUE" ]}
                  (Datetime.of_ymd 2026 7 15)) eq_refl).
Defined.

Example gate_forced :
  (GradeCrawler.should_collect_grades
     (GradeCrawler.Config true (GradeCrawler.OneMonth 7) 2026 6)
     {[ py"FORCE_GRADE_COLLECTION" := py"TRUE" ]}
     (Datetime.of_ymd 2026 3 15)).1 = true.
Proof. vm_compute. reflexivity. Qed.

Example gate_month_list :
  (GradeCrawler.should_collect_grades
     (GradeCrawler.Config true (GradeCrawler.MonthList [1; 7]) 2026 6) ∅
     (Datetime.of_ymd 2026 7 15)).1 = true
  ∧ (GradeCrawler.should_collect_grades
       (GradeCrawler.Config true (GradeCrawler.MonthList [1; 7]) 2026 6) ∅
       (Datetime.of_ymd 2026 8 15)).1 = false.
Proof. vm_compute. done. Qed.

(** ** The snapshot store ([StorageManager]) *)

(** C9. [save_bank_list] and [save_daily_rates] with an empty list return
    [False] and leave every file as it was: nothing is written, nothing is
    backed up. *)
Theorem C9_save_empty_list (self : Storage.StorageManager) (now : Z)
    (date_str : option str) (s : gmap (list (list N)) Storage.file) :
  Storage.save_bank_list self now [] s = (false, s)
  ∧ Storage.save_daily_rates self now [] date_str s = (false, s).
Proof. split; reflexivity. Qed.

(** ** Files, retention and backups *)

Section storage_facts.
Import Storage.
Context (self : StorageManager).
Implicit Types (s : gmap (list (list N)) file) (p q : list (list N)).

Lemma path_parent_app (dir : list (list N)) (name : str) : path_parent (dir ++ [name]) = dir.
Proof. unfold path_parent. rewrite length_app. simpl. by rewrite take_app_length' by lia. Qed.

Lemma path_name_app (dir : list (list N)) (name : str) : path_name (dir ++ [name]) = name.
Proof. unfold path_name. by rewrite last_snoc. Qed.

Lemma in_dir_app (dir dir' : list (list N)) (name : str) :
  in_dir dir (dir' ++ [name]) = bool_decide (dir' = dir).
Proof.
  unfold in_dir. rewrite path_parent_app. apply bool_decide_ext.
  split; [tauto|]. intros ->. split; [by destruct dir|done].
Qed.

Lemma elem_of_glob dir (pattern : str → bool) s p :
  p ∈ glob dir pattern s ↔
    is_Some (s !! p) ∧ in_dir dir p = true ∧ pattern (path_name p) = true.
Proof.
  unfold glob. rewrite list_elem_of_In, filter_In, <- list_elem_of_In.
  rewrite andb_true_iff, list_elem_of_fmap. split.
  - intros [([q f] & -> & Hq%elem_of_map_to_list) [? ?]]. simpl in *. eauto.
  - intros ([f Hf] & ? & ?). split; [|done].
    exists (p, f). split; [done|]. by apply elem_of_map_to_list.
Qed.






End storage_facts.

(** ** Retention ([StorageManager.cleanup_old_data]) *)




Section backup_facts.
Import Storage.
Context (self : StorageManager).
Implicit Types (s : gmap (list (list N)) file) (p q : list (list N)).

Lemma cleanup_backups_fold cutoff_time (ps : list (list (list N))) s q :
  foldl (λ s backup_file,
           match s !! backup_file with
           | Some f => if mtime f <? cutoff_time then delete backup_file s else s
           | None => s
           end) s ps !! q
  = if bool_decide (q ∈ ps) then s !! q ≫= unless_older cutoff_time else s !! q.
Proof.
  revert s. induction ps as [|p ps IH]; intros s; simpl; [done|].
  rewrite IH. clear IH.
  destruct (decide (q = p)) as [->|Hne].
  - rewrite (bool_decide_true (p ∈ p :: ps)) by left.
    assert (match s !! p with
            | Some f => if mtime f <? cutoff_time then delete p s else s
            | None => s
            end !! p = s !! p ≫= unless_older cutoff_time) as ->.
    { destruct (s !! p) as [f|] eqn:Hp; simpl; [|done]. unfold unless_older.
      destruct (mtime f <? cutoff_time); [apply lookup_delete_eq | done]. }
    case_bool_decide; [|done].
    destruct (s !! p) as [f|]; simpl; [|done]. unfold unless_older.
    destruct (mtime f <? cutoff_time) eqn:E; simpl; [done|]. by rewrite E.
  - rewrite (bool_decide_ext (q ∈ p :: ps) (q ∈ ps)) by (rewrite elem_of_cons; naive_solver).
    assert (match s !! p with
            | Some f => if mtime f <? cutoff_time then delete p s else s
            | None => s
            end !! q = s !! q) as ->; [|done].
    destruct (s !! p) as [f|]; [|done].
    destruct (mtime f <? cutoff_time); [by apply lookup_delete_ne | done].
Qed.

Lemma cleanup_old_backups_lookup now days s q :
  _cleanup_old_backups self now days s !! q
  = if in_dir (backup_dir self) q
    then s !! q ≫= unless_older (now - Datetime.timedelta_days days)
    else s !! q.
Proof.
  unfold _cleanup_old_backups. rewrite cleanup_backups_fold.
  case_bool_decide as Hin.
  - apply elem_of_glob in Hin as (_ & -> & _). done.
  - destruct (in_dir (backup_dir self) q) eqn:Hdir; [|done].
    destruct (s !! q) eqn:Hq; [|done]. exfalso. apply Hin, elem_of_glob. eauto.
Qed.

(** [_create_backup] on a file that exists: the copy is made, with the
    modification time of the original, and the pruning that follows keeps
    it only if that time is within the last 7 days. Files outside the
    backup directory are not touched. *)
Lemma create_backup_exists now filepath s f :
  s !! filepath = Some f →
  (_create_backup self now filepath s).1 = true
  ∧ (_create_backup self now filepath s).2 !! backup_path_of self now filepath
    = unless_older (now - Datetime.timedelta_days 7) f
  ∧ (∀ q, in_dir (backup_dir self) q = false →
          (_create_backup self now filepath s).2 !! q = s !! q).
Proof.
  intros Hf. unfold _create_backup. rewrite Hf. simpl. split_and!; [done| |].
  - rewrite cleanup_old_backups_lookup. fold (backup_path_of self now filepath).
    unfold backup_path_of at 1. rewrite in_dir_app, bool_decide_true by done.
    by rewrite lookup_insert_eq.
  - intros q Hq. rewrite cleanup_old_backups_lookup, Hq.
    apply lookup_insert_ne. intros <-. by rewrite in_dir_app, bool_decide_true in Hq.
Qed.

Lemma create_backup_missing now filepath s :
  s !! filepath = None → _create_backup self now filepath s = (false, s).
Proof. intros Hf. unfold _create_backup. by rewrite Hf. Qed.

(** [save_bank_list] and [save_daily_rates] do make the copy first. *)
Lemma save_bank_list_backup now banks s f :
  banks ≠ [] →
  s !! bank_list_file self = Some f →
  in_dir (backup_dir self) (bank_list_file self) = false →
  (save_bank_list self now banks s).2 !! backup_path_of self now (bank_list_file self)
  = unless_older (now - Datetime.timedelta_days 7) f.
Proof.
  intros Hbanks Hf Hout. unfold save_bank_list. destruct banks as [|bank banks]; [done|].
  destruct (create_backup_exists now _ s f Hf) as (_ & Hcopy & _).
  destruct (_create_backup self now (bank_list_file self) s) as [ok s1]. simpl in *.
  rewrite lookup_insert_ne; [done|].
  intros Heq. rewrite Heq in Hout. unfold backup_path_of in Hout.
  by rewrite in_dir_app, bool_decide_true in Hout.
Qed.

Lemma save_daily_rates_backup now rates date_str s f :
  rates ≠ [] →
  s !! (rates_dir self ++ [default (Datetime.strftime_date now) date_str ++ py".json"])
  = Some f →
  (save_daily_rates self now rates date_str s).2
    !! backup_path_of self now
         (rates_dir self ++ [default (Datetime.strftime_date now) date_str ++ py".json"])
  = unless_older (now - Datetime.timedelta_days 7) f.
Proof.
  intros Hrates Hf. unfold save_daily_rates. destruct rates as [|rate rates]; [done|].
  destruct (create_backup_exists now _ s f Hf) as (_ & Hcopy & _).
  destruct (_create_backup self now _ s) as [ok s1]. simpl in *.
  unfold save_json.
  assert (∀ name name', rates_dir self ++ [name] ≠ backup_path_of self now name') as Hne.
  { intros name name' Heq. unfold backup_path_of, rates_dir, backup_dir in Heq.
    apply app_inj_2 in Heq as [Heq _]; [|done].
    apply app_inj_1 in Heq as [_ Heq]; [|done]. vm_compute in Heq. discriminate. }
  case_bool_decide; cbn [snd].
  - unfold with_suffix. rewrite path_parent_app. by rewrite lookup_insert_ne by apply Hne.
  - by rewrite lookup_insert_ne by apply Hne.
Qed.

(** [save_grades] and [save_summary] write their file and nothing else:
    whatever the backup directory holds afterwards, it held before. *)
Lemma save_grades_lookup now grades s q :
  in_dir (grades_dir self) q = false →
  (save_grades self now grades s).2 !! q = s !! q.
Proof.
  intros Hq. unfold save_grades. simpl. apply lookup_insert_ne.
  intros <-. by rewrite in_dir_app, bool_decide_true in Hq.
Qed.

Lemma backup_dir_not_grades_dir q :
  in_dir (backup_dir self) q = true → in_dir (grades_dir self) q = false.
Proof.
  unfold in_dir. intros [_ Hq]%bool_decide_eq_true. apply bool_decide_false.
  intros [_ Hq']. rewrite Hq in Hq'. unfold backup_dir, grades_dir in Hq'.
  apply app_inj_1 in Hq' as [_ Hq']; [|done]. vm_compute in Hq'. discriminate.
Qed.

Lemma save_summary_lookup now summary_data date_str s q :
  q ≠ summary_file self →
  (save_summary self now summary_data date_str s).2 !! q = s !! q.
Proof.
  intros Hq. unfold save_summary.
  destruct (load_json (summary_file self) s) as [d|]; [destruct d|]; try done;
    (case_bool_decide; [|done]; simpl; by apply lookup_insert_ne).
Qed.

Lemma backup_dir_not_summary_file q :
  in_dir (backup_dir self) q = true → q ≠ summary_file self.
Proof.
  unfold in_dir. intros [_ Hq]%bool_decide_eq_true ->.
  unfold summary_file in Hq. rewrite path_parent_app in Hq. unfold backup_dir in Hq.
  apply (f_equal length) in Hq. rewrite length_app in Hq. simpl in Hq. lia.
Qed.

End backup_facts.

(** ** Backups before overwriting *)

(** C1. [save_grades] and [save_summary] never write to the backup
    directory, whatever they overwrite. On a store that already holds the
    grades of 2026-06, [save_grades] succeeds, replaces the file, and leaves
    no copy of the old one: the store still has one file and no backup. On
    a store with a summary for 2026-06-30, [save_summary] replaces that
    entry and leaves no backup either. *)
Theorem C1_summary_and_grades_skip_backup :
  (∀ self now grades s p,
     Storage.in_dir (Storage.backup_dir self) p = true →
     (Storage.save_grades self now grades s).2 !! p = s !! p)
  ∧ (∀ self now summary_data date_str s p,
       Storage.in_dir (Storage.backup_dir self) p = true →
       (Storage.save_summary self now summary_data date_str s).2 !! p = s !! p)
  ∧ (let r := Storage.save_grades sample_manager sample_now [sample_grade (py"3")]
                store_with_grades in
     store_with_grades !! grades_path = Some old_grades_file
     ∧ r.1 = true
     ∧ r.2 !! grades_path
       = Some (Storage.File
                 (Storage.GradesDoc (py"2026-07-01T12:00:00") 1 (Some 2026) (Some 6)
                    [sample_grade (py"3")])
                 false sample_now)
     ∧ size r.2 = 1%nat
     ∧ Storage.glob (Storage.backup_dir sample_manager) (λ _, true) r.2 = [])
  ∧ (let r := Storage.save_summary sample_manager sample_now new_summary
                (Some (py"2026-06-30")) store_with_summary in
     summary_entry store_with_summary (py"2026-06-30") = Some old_summary
     ∧ r.1 = Storage.Returns true
     ∧ summary_entry r.2 (py"2026-06-30") = Some new_summary
     ∧ size r.2 = 1%nat
     ∧ Storage.glob (Storage.backup_dir sample_manager) (λ _, true) r.2 = []).
Proof.
  cbv zeta. split_and!.
  - intros self now grades s p Hp. by apply save_grades_lookup, backup_dir_not_grades_dir.
  - intros self now summary_data date_str s p Hp.
    by apply save_summary_lookup, backup_dir_not_summary_file.
  - vm_compute; reflexivity.
  - vm_compute; reflexivity.
  - vm_compute; reflexivity.
  - vm_compute; reflexivity.
  - vm_compute; reflexivity.
  - vm_compute; reflexivity.
  - vm_compute; reflexivity.
  - vm_compute; reflexivity.
  - vm_compute; reflexivity.
  - vm_compute; reflexivity.
Qed.

(** The sibling operations do make the copy: on a bank list written one day
    ago, [save_bank_list] leaves the old file in the backup directory. *)
Example save_bank_list_keeps_copy :
  let old := Storage.File (Storage.BankListDoc 0 0 (py"2026-06-30T03:00:00") []) false
               (sample_now - Datetime.us_per_day) in
  let s : gmap (list (list N)) Storage.file := {[ Storage.bank_list_file sample_manager := old ]} in
  let r := Storage.save_bank_list sample_manager sample_now [{[ py"gmgoCd" := py"12345" ]}] s in
  r.1 = true
  ∧ r.2 !! (Storage.backup_dir sample_manager ++ [py"banks_20260701_120000.json"]) = Some old.
Proof. cbv zeta. split; vm_compute; reflexivity. Qed.

(** [shutil.copy2] keeps the modification time, so the copy of a file last
    written more than 7 days ago is pruned as soon as it is made. *)
Example save_bank_list_prunes_stale_copy :
  let old := Storage.File (Storage.BankListDoc 0 0 (py"2026-06-20T03:00:00") []) false
               (sample_now - 8 * Datetime.us_per_day) in
  let s : gmap (list (list N)) Storage.file := {[ Storage.bank_list_file sample_manager := old ]} in
  let r := Storage.save_bank_list sample_manager sample_now [{[ py"gmgoCd" := py"12345" ]}] s in
  r.1 = true
  ∧ Storage.glob (Storage.backup_dir sample_manager) (λ _, true) r.2 = []
  ∧ size r.2 = 1%nat.
Proof. cbv zeta. split_and!; vm_compute; reflexivity. Qed.

(** * Further properties *)

(** ** The order of strings *)

Section string_order.

Lemma str_ltb_irrefl (a : str) : Py.str_ltb a a = false.
Proof. induction a as [|x a IH]; simpl; [done|]. by rewrite N.ltb_irrefl. Qed.

Lemma str_ltb_trans (a b c : str) :
  Py.str_ltb a b = true → Py.str_ltb b c = true → Py.str_ltb a c = true.
Proof.
  revert b c. induction a as [|x a IH]; intros [|y b] [|z c]; simpl; try done.
  destruct (N.ltb_spec x y), (N.ltb_spec y x), (N.ltb_spec y z), (N.ltb_spec z y),
    (N.ltb_spec x z), (N.ltb_spec z x); try done; try lia.
  apply IH.
Qed.

Lemma str_ltb_total (a b : str) :
  Py.str_ltb a b = false → Py.str_ltb b a = false → a = b.
Proof.
  revert b. induction a as [|x a IH]; intros [|y b]; simpl; try done.
  destruct (N.ltb_spec x y), (N.ltb_spec y x); try done.
  intros Hab Hba. assert (x = y) as -> by lia. f_equal. by apply IH.
Qed.

Lemma str_ltb_asym (a b : str) : Py.str_ltb a b = true → Py.str_ltb b a = false.
Proof.
  intros Hab. destruct (Py.str_ltb b a) eqn:Hba; [|done].
  pose proof (str_ltb_trans _ _ _ Hab Hba) as Haa. by rewrite str_ltb_irrefl in Haa.
Qed.

Lemma str_leb_trans (a b c : str) :
  Py.str_leb a b = true → Py.str_leb b c = true → Py.str_leb a c = true.
Proof.
  unfold Py.str_leb. rewrite !negb_true_iff. intros Hba Hcb.
  destruct (Py.str_ltb c a) eqn:Hca; [|done].
  destruct (Py.str_ltb b c) eqn:Hbc.
  - by rewrite (str_ltb_trans _ _ _ Hbc Hca) in Hba.
  - rewrite (str_ltb_total _ _ Hbc Hcb) in Hba. congruence.
Qed.



(** [max] with a key returns an item of the list that no item exceeds. *)
Lemma max_by_spec {A} (key : A → str) (items : list A) (m : A) :
  Py.max_by key items = Some m →
  m ∈ items ∧ ∀ y, y ∈ items → Py.str_leb (key y) (key m) = true.
Proof.
  destruct items as [|x rest]; [done|]. simpl. intros [= <-].
  assert (∀ best : A,
            let m := foldl (λ best y, if Py.str_ltb (key best) (key y) then y else best)
                       best rest in
            (m = best ∨ m ∈ rest)
            ∧ Py.str_leb (key best) (key m) = true
            ∧ ∀ y, y ∈ rest → Py.str_leb (key y) (key m) = true) as Hfold.
  { induction rest as [|z rest IH]; intros best; simpl.
    - split_and!; [by left | unfold Py.str_leb; by rewrite str_ltb_irrefl |].
      intros y Hy. by apply elem_of_nil in Hy.
    - destruct (Py.str_ltb (key best) (key z)) eqn:Hlt.
      + destruct (IH z) as (Hin & Hle & Hall). split_and!.
        * right. destruct Hin as [->|?]; [left | by right].
        * eapply str_leb_trans; [|exact Hle]. unfold Py.str_leb.
          by rewrite (str_ltb_asym _ _ Hlt).
        * intros y [->|Hy]%elem_of_cons; [done | by apply Hall].
      + destruct (IH best) as (Hin & Hle & Hall). split_and!.
        * destruct Hin as [?|?]; [by left | right; by right].
        * done.
        * intros y [->|Hy]%elem_of_cons; [|by apply Hall].
          eapply str_leb_trans; [|exact Hle]. unfold Py.str_leb. by rewrite Hlt. }
  destruct (Hfold x) as (Hin & Hle & Hall). split.
  - destruct Hin as [->|?]; [left | by right].
  - intros y [->|Hy]%elem_of_cons; [done | by apply Hall].
Qed.

End string_order.

(** ** Branch lists ([_remove_duplicate_banks], [save_bank_list], [load_banks]) *)

Section bank_list_facts.
Import Storage.
Implicit Types (bank : gmap str str) (banks : list (gmap str str)).

Let run banks := foldl bank_step (∅, []) banks.

Lemma bank_run_snoc banks bank : run (banks ++ [bank]) = bank_step (run banks) bank.
Proof. unfold run. by rewrite foldl_app. Qed.

(** [seen] holds the non-empty codes read so far. *)
Lemma bank_seen banks (k : str) :
  k ∈ (run banks).1 ↔ k ≠ [] ∧ Some k ∈ (λ bank, bank !! py"gmgoCd") <$> banks.
Proof.
  induction banks as [|bank banks IH] using rev_ind.
  { simpl. split; [set_solver | intros [_ H]; by apply elem_of_nil in H]. }
  rewrite bank_run_snoc, fmap_app, elem_of_app. simpl. unfold bank_step.
  rewrite list_elem_of_singleton.
  destruct (bank !! py"gmgoCd") as [key|] eqn:Hkey.
  - destruct (Py.truthy key && bool_decide (key ∉ (run banks).1)) eqn:Hnew; simpl.
    + apply andb_true_iff in Hnew as [Htruthy _].
      rewrite elem_of_union, elem_of_singleton, IH.
      split; [intros [->|[? ?]] | intros [? [?|[= ->]]]]; try tauto.
      split; [by destruct key | tauto].
    + rewrite IH. split; [tauto|]. intros [Hk [?|[= ->]]]; [tauto|].
      apply andb_false_iff in Hnew as [Hempty|Hseen].
      * by destruct key.
      * apply bool_decide_eq_false in Hseen. apply dec_stable in Hseen.
        by apply IH in Hseen.
  - rewrite IH. split; [tauto|]. intros [? [?|?]]; [tauto | done].
Qed.

(** A bank is kept exactly when its code is there, is not empty, and is
    the code of no earlier bank. *)
Lemma remove_duplicate_banks_snoc banks bank :
  _remove_duplicate_banks (banks ++ [bank])
  = _remove_duplicate_banks banks
    ++ match bank !! py"gmgoCd" with
       | Some key =>
           if bool_decide (key ≠ [] ∧ Some key ∉ (λ b, b !! py"gmgoCd") <$> banks)
           then [bank] else []
       | None => []
       end.
Proof.
  unfold _remove_duplicate_banks. fold (run (banks ++ [bank])) (run banks).
  rewrite bank_run_snoc. unfold bank_step.
  destruct (bank !! py"gmgoCd") as [key|]; [|by rewrite app_nil_r].
  destruct (decide (key = [])) as [->|Hne].
  { rewrite (bool_decide_false (_ ∧ _)) by tauto. simpl. by rewrite app_nil_r. }
  replace (Py.truthy key) with true by by destruct key.
  pose proof (bank_seen banks key) as Hseen.
  repeat case_bool_decide; simpl; try done; try (by rewrite app_nil_r); exfalso; tauto.
Qed.

Lemma remove_duplicate_banks_sublist banks : _remove_duplicate_banks banks `sublist_of` banks.
Proof.
  induction banks as [|bank banks IH] using rev_ind; [done|].
  rewrite remove_duplicate_banks_snoc.
  destruct (bank !! py"gmgoCd"); [case_bool_decide|];
    rewrite ?app_nil_r; (by apply sublist_app) || by apply sublist_inserts_r.
Qed.

(** Every bank kept has a code, and the codes kept are those of the input
    that are not empty. *)
Lemma remove_duplicate_banks_codes banks (o : option str) :
  o ∈ (λ b, b !! py"gmgoCd") <$> _remove_duplicate_banks banks ↔
    o ∈ (λ b, b !! py"gmgoCd") <$> banks ∧ ∃ key, o = Some key ∧ key ≠ [].
Proof.
  induction banks as [|bank banks IH] using rev_ind.
  { simpl. split; [by intros ?%elem_of_nil | by intros [?%elem_of_nil _]]. }
  rewrite remove_duplicate_banks_snoc, !fmap_app, !elem_of_app, IH. simpl.
  destruct (bank !! py"gmgoCd") as [key|] eqn:Hkey.
  - case_bool_decide as Hnew; simpl.
    + rewrite !list_elem_of_singleton, Hkey. split; [|tauto].
      intros [?| ->]; [tauto|]. split; [tauto | exists key; tauto].
    + rewrite list_elem_of_singleton. split.
      * intros [?|?%elem_of_nil]; tauto.
      * intros [[?|Ho] Hex]; [tauto|]. destruct Hex as (key' & Hk & Hne).
        subst o. simplify_eq. left. split; [|eauto]. apply dec_stable. tauto.
  - rewrite list_elem_of_singleton. split.
    + intros [?|?%elem_of_nil]; tauto.
    + intros [[?|Ho] Hex]; [tauto|]. destruct Hex as (key' & Hk & ?). subst o. done.
Qed.

Lemma remove_duplicate_banks_NoDup banks :
  NoDup ((λ b, b !! py"gmgoCd") <$> _remove_duplicate_banks banks).
Proof.
  induction banks as [|bank banks IH] using rev_ind; [constructor|].
  rewrite remove_duplicate_banks_snoc.
  destruct (bank !! py"gmgoCd") as [key|] eqn:Hkey; [|by rewrite app_nil_r].
  case_bool_decide as Hnew; [|by rewrite app_nil_r].
  rewrite fmap_app. apply NoDup_app. split_and!; [done| |apply NoDup_singleton].
  intros o Ho Hin. simpl in Hin. apply list_elem_of_singleton in Hin as ->.
  apply remove_duplicate_banks_codes in Ho as [Ho _]. rewrite Hkey in Ho. tauto.
Qed.

Lemma remove_duplicate_banks_id banks :
  NoDup ((λ b, b !! py"gmgoCd") <$> banks) →
  Forall (λ b, ∃ key, b !! py"gmgoCd" = Some key ∧ key ≠ []) banks →
  _remove_duplicate_banks banks = banks.
Proof.
  induction banks as [|bank banks IH] using rev_ind; [done|].
  rewrite fmap_app. intros (Hnd & Hnew & _)%NoDup_app [Hall Hbank]%Forall_app.
  apply Forall_singleton in Hbank as (key & Hkey & Hne).
  rewrite remove_duplicate_banks_snoc, IH, Hkey by done.
  rewrite bool_decide_true; [done|]. split; [done|].
  intros Hin. apply (Hnew _ Hin). simpl. rewrite Hkey. left.
Qed.

End bank_list_facts.

(** X1. [_remove_duplicate_banks] keeps a bank exactly when it has a
    non-empty code that no earlier bank has, in input order: the banks kept
    all have a code, the codes are pairwise distinct and are the non-empty
    codes of the input, and a second pass changes nothing. *)
Theorem X1_remove_duplicate_banks (banks : list (gmap str str)) :
  let code := λ bank : gmap str str, bank !! py"gmgoCd" in
  let unique := Storage._remove_duplicate_banks banks in
  unique `sublist_of` banks
  ∧ (∀ earlier bank,
       Storage._remove_duplicate_banks (earlier ++ [bank])
       = Storage._remove_duplicate_banks earlier
         ++ match code bank with
            | Some key =>
                if bool_decide (key ≠ [] ∧ Some key ∉ code <$> earlier) then [bank] else []
            | None => []
            end)
  ∧ NoDup (code <$> unique)
  ∧ (∀ o, o ∈ code <$> unique ↔ o ∈ code <$> banks ∧ ∃ key, o = Some key ∧ key ≠ [])
  ∧ Storage._remove_duplicate_banks unique = unique.
Proof.
  cbv zeta. split_and!.
  - apply remove_duplicate_banks_sublist.
  - apply remove_duplicate_banks_snoc.
  - apply remove_duplicate_banks_NoDup.
  - apply remove_duplicate_banks_codes.
  - apply remove_duplicate_banks_id; [apply remove_duplicate_banks_NoDup|].
    apply Forall_forall. intros bank Hbank.
    assert (bank !! py"gmgoCd" ∈ (λ b : gmap str str, b !! py"gmgoCd")
                                   <$> Storage._remove_duplicate_banks banks) as Hin
      by (apply list_elem_of_fmap; eauto).
    apply remove_duplicate_banks_codes in Hin as (_ & key & ? & ?). eauto.
Qed.

Section read_back_facts.
Import Storage.
Context (self : StorageManager).
Implicit Types (s : gmap (list (list N)) file) (p q filepath : list (list N)).

Lemma omap_all_Some {A B} (f : A → option B) (l : list A) :
  Forall (λ x, is_Some (f x)) l → Some <$> omap f l = f <$> l.
Proof.
  induction 1 as [|x l [y Hy] _ IH]; simpl; [done|]. rewrite Hy. simpl. f_equal. exact IH.
Qed.

(** The two counts of the bank list are the same number. *)
Lemma unique_count_is_total_count (banks : list (gmap str str)) :
  size (list_to_set (omap (λ b : gmap str str, b !! py"gmgoCd")
                       (_remove_duplicate_banks banks)) : gset str)
  = length (_remove_duplicate_banks banks).
Proof.
  set (unique := _remove_duplicate_banks banks).
  assert (Some <$> omap (λ b : gmap str str, b !! py"gmgoCd") unique
          = (λ b : gmap str str, b !! py"gmgoCd") <$> unique) as Hcodes.
  { apply omap_all_Some, Forall_forall. intros bank Hbank.
    assert (bank !! py"gmgoCd" ∈ (λ b : gmap str str, b !! py"gmgoCd") <$> unique) as Hin
      by (apply list_elem_of_fmap; eauto).
    apply remove_duplicate_banks_codes in Hin as (_ & key & -> & _). eauto. }
  rewrite size_list_to_set.
  - rewrite <- (length_fmap Some), Hcodes. by rewrite length_fmap.
  - apply (NoDup_fmap_1 Some). rewrite Hcodes. apply remove_duplicate_banks_NoDup.
Qed.

Lemma split_suffix_json_gz (x : str) :
  split_suffix (x ++ py".json.gz") = (x ++ py".json", py".gz").
Proof.
  unfold split_suffix. rewrite reverse_app.
  change (reverse (py".json.gz")) with ([122; 103; 46; 110; 111; 115; 106; 46]%N : str).
  simpl. f_equal.
  change (110 :: 111 :: 115 :: 106 :: 46 :: reverse x)%N
    with (reverse (py".json") ++ reverse x).
  by rewrite <- reverse_app, reverse_involutive.
Qed.

Lemma suffix_json_not_gz (x : str) : suffix (x ++ py".json") ≠ py".gz".
Proof.
  unfold suffix, split_suffix. rewrite reverse_app.
  change (reverse (py".json")) with ([110; 111; 115; 106; 46]%N : str).
  simpl. destruct (reverse x); simpl; [|vm_compute]; discriminate.
Qed.

Lemma load_json_plain now data filepath s :
  (∀ bytes, data ≠ NotJson bytes) →
  suffix (path_name filepath) ≠ py".gz" →
  load_json filepath (<[filepath := File data false now]> s) = Some data.
Proof.
  intros Hjson Hsuffix. unfold load_json.
  rewrite lookup_insert_eq. rewrite (bool_decide_false (Some _ = None)) by done. simpl.
  rewrite lookup_insert_eq. simpl.
  rewrite (bool_decide_false (suffix _ = _)) by done. simpl.
  destruct data; try done. by destruct (Hjson bytes).
Qed.

Lemma load_json_compressed now data filepath s :
  (∀ bytes, data ≠ NotJson bytes) →
  s !! filepath = None →
  load_json filepath (<[with_suffix filepath (py".json.gz") := File data true now]> s)
  = Some data.
Proof.
  intros Hjson Hnone. unfold load_json.
  set (gz := with_suffix filepath (py".json.gz")).
  assert (suffix (path_name gz) = py".gz") as Hgz.
  { unfold gz, with_suffix. rewrite path_name_app. unfold suffix.
    by rewrite split_suffix_json_gz. }
  assert ((if bool_decide (<[gz := File data true now]> s !! filepath = None)
              && bool_decide (is_Some (<[gz := File data true now]> s !! gz))
           then gz else filepath) = gz) as ->.
  { destruct (decide (gz = filepath)) as [Heq|Hne].
    - by destruct (_ && _).
    - rewrite lookup_insert_ne, Hnone, lookup_insert_eq by done.
      rewrite bool_decide_true by done. by rewrite bool_decide_true by eauto. }
  rewrite lookup_insert_eq. simpl. rewrite Hgz. simpl.
  destruct data; try done. by destruct (Hjson bytes).
Qed.

(** A plain file hides the compressed one from [load_json]. *)
Lemma load_json_prefers_plain filepath s s' f :
  s !! filepath = Some f → s' !! filepath = Some f →
  load_json filepath s' = load_json filepath s.
Proof.
  intros Hs Hs'. unfold load_json. rewrite Hs, Hs'.
  rewrite !(bool_decide_false (Some _ = None)) by done. simpl. by rewrite Hs, Hs'.
Qed.

Lemma read_plain_insert now data filepath s :
  (∀ bytes, data ≠ NotJson bytes) →
  read_plain filepath (<[filepath := File data false now]> s) = Some data.
Proof.
  intros Hjson. unfold read_plain. rewrite lookup_insert_eq. simpl.
  destruct data; try done. by destruct (Hjson bytes).
Qed.

Lemma rates_path_not_in_backup_dir (name : str) :
  in_dir (backup_dir self) (rates_dir self ++ [name]) = false.
Proof.
  rewrite in_dir_app. apply bool_decide_false. unfold rates_dir, backup_dir.
  intros Heq. apply app_inj_1 in Heq as [_ Heq]; [|done]. vm_compute in Heq. discriminate.
Qed.

Lemma gz_path_not_plain (date_str : str) :
  with_suffix (rates_dir self ++ [date_str ++ py".json"]) (py".json.gz")
  ≠ rates_dir self ++ [date_str ++ py".json"].
Proof.
  unfold with_suffix. rewrite path_parent_app, path_name_app.
  intros Heq. apply app_inj_1 in Heq as [_ Heq]; [|done].
  injection Heq as Heq. apply (f_equal length) in Heq.
  assert (length (date_str ++ py".json") ≤ length (stem (date_str ++ py".json")
                                              ++ py".json"))%nat.
  { unfold stem, split_suffix. rewrite reverse_app.
    change (reverse (py".json")) with ([110; 111; 115; 106; 46]%N : str). simpl.
    destruct (reverse date_str) eqn:Hrev; simpl.
    - apply (f_equal reverse) in Hrev. rewrite reverse_involutive in Hrev. subst.
      vm_compute. lia.
    - rewrite <- Hrev. rewrite !length_app, length_reverse, length_reverse. simpl. lia. }
  rewrite !length_app in *. change (length (py".json.gz")) with 8%nat in Heq.
  change (length (py".json")) with 5%nat in *. lia.
Qed.

End read_back_facts.

(** X2. [save_bank_list] with a non-empty list succeeds, and [load_banks]
    then returns the list without duplicates, with [total_count] and
    [unique_count] both equal to its length. *)
Theorem X2_save_bank_list_load_banks (self : Storage.StorageManager) (now : Z)
    (banks : list (gmap str str)) (s : gmap (list (list N)) Storage.file) :
  banks ≠ [] →
  let unique := Storage._remove_duplicate_banks banks in
  let r := Storage.save_bank_list self now banks s in
  r.1 = true
  ∧ Storage.load_banks self r.2
    = Some (Storage.BankListDoc (length unique) (length unique) (Datetime.isoformat now)
              unique).
Proof.
  intros Hbanks. cbv zeta. unfold Storage.save_bank_list, Storage.load_banks.
  destruct banks as [|bank banks]; [done|].
  destruct (Storage._create_backup self now (Storage.bank_list_file self) s) as [ok s1].
  unfold Storage.save_json. cbn [fst snd]. split; [done|].
  rewrite read_plain_insert by done. by rewrite unique_count_is_total_count.
Qed.

Lemma X2_witness :
  Storage.load_banks sample_manager
    (Storage.save_bank_list sample_manager sample_now
       [{[ py"gmgoCd" := py"12345" ]}; {[ py"gmgoCd" := py"12345" ]}; {[ py"name" := py"x" ]}]
       ∅).2
  = Some (Storage.BankListDoc 1 1 (py"2026-07-01T12:00:00") [{[ py"gmgoCd" := py"12345" ]}]).
Proof.
  refine (eq_trans (proj2 (X2_save_bank_list_load_banks sample_manager sample_now
            [{[ py"gmgoCd" := py"12345" ]}; {[ py"gmgoCd" := py"12345" ]}; {[ py"name" := py"x" ]}]
            ∅ _)) _).
  - discriminate.
  - vm_compute. reflexivity.
Defined.

(** X3. What [save_json] writes, [load_json] reads back from the same
    path: for a plain file, unless the path itself ends in [.gz]; for a
    compressed file, which goes to the path with the suffix [.json.gz], when
    no plain file is at the path. *)
Theorem X3_save_json_load_json (now : Z) (data : Storage.doc) (filepath : list (list N))
    (compress : bool) (s : gmap (list (list N)) Storage.file) :
  (∀ bytes, data ≠ Storage.NotJson bytes) →
  (if compress then s !! filepath = None
   else Storage.suffix (Storage.path_name filepath) ≠ py".gz") →
  (Storage.save_json now data filepath compress s).1 = true
  ∧ Storage.load_json filepath (Storage.save_json now data filepath compress s).2 = Some data.
Proof.
  intros Hjson Hpath. unfold Storage.save_json. destruct compress; cbn [fst snd].
  - split; [done|]. by apply load_json_compressed.
  - split; [done|]. by apply load_json_plain.
Qed.

Lemma X3_witness :
  Storage.load_json (rates_path (py"2026-07-01.json"))
    (Storage.save_json sample_now (Storage.SummaryDoc ∅) (rates_path (py"2026-07-01.json"))
       true ∅).2
  = Some (Storage.SummaryDoc ∅).
Proof.
  refine (proj2 (X3_save_json_load_json sample_now (Storage.SummaryDoc ∅)
                   (rates_path (py"2026-07-01.json")) true ∅ _ _)).
  - discriminate.
  - reflexivity.
Defined.

(** ** Daily snapshots ([save_daily_rates], [get_rates_by_date],
    [list_available_dates], [get_latest_rates]) *)

Section snapshot_facts.
Import Storage.
Context (self : StorageManager).
Implicit Types (s : gmap (list (list N)) file) (p q filepath : list (list N)).

Lemma create_backup_outside now filepath s q :
  in_dir (backup_dir self) q = false →
  (_create_backup self now filepath s).2 !! q = s !! q.
Proof.
  intros Hq. destruct (s !! filepath) as [f|] eqn:Hf.
  - by apply (create_backup_exists self now filepath s f Hf).
  - by rewrite create_backup_missing.
Qed.

Lemma save_daily_rates_unfold now rate rates date_str s :
  save_daily_rates self now (rate :: rates) (Some date_str) s
  = save_json now (rates_doc now date_str (rate :: rates)) (plain_path self date_str)
      (bool_decide (100 < length (rate :: rates))%nat)
      (_create_backup self now (plain_path self date_str) s).2.
Proof.
  unfold save_daily_rates. simpl default.
  fold (plain_path self date_str).
  by destruct (_create_backup self now (plain_path self date_str) s).
Qed.


End snapshot_facts.

(** X4. A snapshot of more than 100 records is written compressed, beside
    a plain file of that date if there is one: the plain file stays as it
    was, and [get_rates_by_date] goes on returning what it returned before
    the save. *)
Theorem X4_large_snapshot_hidden_by_plain_file (self : Storage.StorageManager) (now : Z)
    (rates : list Crawler.rate) (date_str : str)
    (s : gmap (list (list N)) Storage.file) (f : Storage.file) :
  (100 < length rates)%nat →
  s !! plain_path self date_str = Some f →
  let r := Storage.save_daily_rates self now rates (Some date_str) s in
  r.1 = true
  ∧ r.2 !! gz_path self date_str
    = Some (Storage.File (rates_doc now date_str rates) true now)
  ∧ r.2 !! plain_path self date_str = Some f
  ∧ Storage.get_rates_by_date self date_str r.2 = Storage.get_rates_by_date self date_str s.
Proof.
  intros Hlarge Hf. cbv zeta.
  destruct rates as [|rate rates]; [simpl in Hlarge; lia|].
  rewrite save_daily_rates_unfold. rewrite bool_decide_true by done.
  unfold Storage.save_json. cbn [fst snd]. fold (gz_path self date_str).
  assert ((<[gz_path self date_str :=
               Storage.File (rates_doc now date_str (rate :: rates)) true now]>
             (Storage._create_backup self now (plain_path self date_str) s).2)
            !! plain_path self date_str = Some f) as Hplain.
  { rewrite lookup_insert_ne by apply gz_path_not_plain.
    rewrite create_backup_outside by apply rates_path_not_in_backup_dir. done. }
  split_and!; [done | by rewrite lookup_insert_eq | done |].
  unfold Storage.get_rates_by_date. fold (plain_path self date_str).
  by apply load_json_prefers_plain with f.
Qed.

Lemma X4_witness :
  Storage.get_rates_by_date sample_manager (py"2026-07-01")
    (Storage.save_daily_rates sample_manager sample_now
       (replicate 101 (Crawler.Rate ∅ [] [] [] 0)) (Some (py"2026-07-01"))
       {[ plain_path sample_manager (py"2026-07-01") := snapshot (py"2026-07-01") ]}).2
  = Storage.get_rates_by_date sample_manager (py"2026-07-01")
      {[ plain_path sample_manager (py"2026-07-01") := snapshot (py"2026-07-01") ]}.
Proof.
  refine (proj2 (proj2 (proj2 (X4_large_snapshot_hidden_by_plain_file sample_manager
            sample_now (replicate 101 (Crawler.Rate ∅ [] [] [] 0)) (py"2026-07-01")
            {[ plain_path sample_manager (py"2026-07-01") := snapshot (py"2026-07-01") ]}
            (snapshot (py"2026-07-01")) _ _)))).
  - rewrite length_replicate. lia.
  - apply lookup_singleton_eq.
Defined.

(** X5. After [save_daily_rates] for a date, [get_rates_by_date] of that
    date returns the document just written, with the date, the number of
    records and the records, provided the snapshot is written plain (at
    most 100 records) or no plain file of that date was there. *)
Theorem X5_save_daily_rates_get_rates_by_date (self : Storage.StorageManager) (now : Z)
    (rates : list Crawler.rate) (date_str : str) (s : gmap (list (list N)) Storage.file) :
  rates ≠ [] →
  (length rates ≤ 100)%nat ∨ s !! plain_path self date_str = None →
  let r := Storage.save_daily_rates self now rates (Some date_str) s in
  r.1 = true
  ∧ Storage.get_rates_by_date self date_str r.2 = Some (rates_doc now date_str rates).
Proof.
  intros Hrates Hplain. cbv zeta.
  destruct rates as [|rate rates]; [done|].
  rewrite save_daily_rates_unfold. unfold Storage.get_rates_by_date.
  fold (plain_path self date_str).
  case_bool_decide as Hlarge.
  - destruct Hplain as [?|Hnone]; [lia|].
    rewrite create_backup_missing by done.
    unfold Storage.save_json. cbn [fst snd]. split; [done|].
    by apply load_json_compressed.
  - unfold Storage.save_json. cbn [fst snd]. split; [done|].
    apply load_json_plain; [done|].
    unfold plain_path. rewrite path_name_app. apply suffix_json_not_gz.
Qed.

Lemma X5_witness :
  Storage.get_rates_by_date sample_manager (py"2026-07-01")
    (Storage.save_daily_rates sample_manager sample_now [Crawler.Rate ∅ [] [] [] 0]
       (Some (py"2026-07-01")) three_snapshots).2
  = Some (rates_doc sample_now (py"2026-07-01") [Crawler.Rate ∅ [] [] [] 0]).
Proof.
  refine (proj2 (X5_save_daily_rates_get_rates_by_date sample_manager sample_now
            [Crawler.Rate ∅ [] [] [] 0] (py"2026-07-01") three_snapshots _ _)).
  - discriminate.
  - left. simpl. lia.
Defined.


(** X7. [get_latest_rates] returns [None] when the rates directory has no
    file ending in [.json] or [.json.gz]; otherwise it loads one of these
    files, one whose date component no other exceeds in the order of
    strings. *)
Theorem X7_get_latest_rates (self : Storage.StorageManager)
    (s : gmap (list (list N)) Storage.file) :
  ((∀ p, ¬ is_rate_file self s p) → Storage.get_latest_rates self s = None)
  ∧ (∀ p, is_rate_file self s p →
       ∃ latest,
         is_rate_file self s latest
         ∧ Storage.get_latest_rates self s = Storage.load_json latest s
         ∧ ∀ q, is_rate_file self s q →
                Py.str_leb (Storage.date_str_of q) (Storage.date_str_of latest) = true).
Proof.
  set (rate_files :=
         Storage.glob (Storage.rates_dir self) (Py.ends_with (py".json")) s
         ++ Storage.glob (Storage.rates_dir self) (Py.ends_with (py".json.gz")) s).
  assert (∀ p, p ∈ rate_files ↔ is_rate_file self s p) as Hfiles.
  { intros p. unfold rate_files, is_rate_file. rewrite elem_of_app, !elem_of_glob. tauto. }
  unfold Storage.get_latest_rates. fold rate_files. split.
  - intros Hnone. destruct rate_files as [|p rest] eqn:E; [done|].
    exfalso. apply (Hnone p), Hfiles. left.
  - intros p Hp. apply Hfiles in Hp.
    destruct (Py.max_by Storage.date_str_of rate_files) as [latest|] eqn:Hmax.
    + apply max_by_spec in Hmax as [Hin Hall].
      exists latest. split_and!; [by apply Hfiles | done |].
      intros q Hq. by apply Hall, Hfiles.
    + destruct rate_files; [by apply elem_of_nil in Hp | done].
Qed.

Lemma X7_witness :
  ∃ latest,
    is_rate_file sample_manager three_snapshots latest
    ∧ Storage.get_latest_rates sample_manager three_snapshots
      = Storage.load_json latest three_snapshots.
Proof.
  destruct (proj2 (X7_get_latest_rates sample_manager three_snapshots)
              (rates_path (py"2026-07-01.json"))) as (latest & Hfile & Hload & _).
  - split_and!; [apply (bool_decide_unpack _); vm_compute; exact I
                | vm_compute; reflexivity | left; vm_compute; reflexivity].
  - exact (ex_intro _ latest (conj Hfile Hload)).
Defined.

Example get_latest_rates_of_three :
  Storage.get_latest_rates sample_manager three_snapshots
  = Some (Storage.contents (snapshot (py"2026-07-01"))).
Proof. vm_compute. reflexivity. Qed.

(** ** The summary, the grades and the backups *)

Section summary_facts.
Import Storage.
Context (self : StorageManager).
Implicit Types (s : gmap (list (list N)) file) (p q filepath : list (list N)).

Lemma save_summary_cases now summary_data date_str s :
  save_summary self now summary_data (Some date_str) s
  = match existing_summary_of self s with
    | None => (Raises (py"ValueError"), s)
    | Some existing =>
        let updated := <[date_str := summary_data]> existing in
        if bool_decide (map_Forall (λ date _, is_Some (Datetime.strptime_date date)) updated)
        then (Returns true,
              <[summary_file self :=
                  File (SummaryDoc
                          (filter (λ entry, not_before (now - Datetime.timedelta_days 90)
                                              entry.1 = true) updated))
                       false now]> s)
        else (Raises (py"ValueError"), s)
    end.
Proof.
  unfold save_summary, existing_summary_of. simpl default.
  destruct (load_json (summary_file self) s) as [[]|]; try done.
Qed.


Lemma head_filter_found {A} (key : A → str) (x : A) (l : list A) :
  x ∈ l →
  ∃ found, head (List.filter (λ y, bool_decide (key y = key x)) l) = Some found
           ∧ key found = key x ∧ found ∈ l.
Proof.
  induction l as [|y l IH]; intros Hx; [by apply elem_of_nil in Hx|]. simpl.
  case_bool_decide as Hy.
  - exists y. split_and!; [done | done | left].
  - apply elem_of_cons in Hx as [->|Hx]; [done|].
    destruct (IH Hx) as (found & ? & ? & ?). exists found. split_and!; [done | done | by right].
Qed.

End summary_facts.





(** X10. [save_grades] writes one file, named after the evaluation year
    and month of the first record, or after the current year and month
    when the list is empty. [load_grades] of that year and month returns
    the list as it was saved, and [get_grade_by_gmgo_cd] finds, for every
    record of the list, a record of the list with its code. *)
Theorem X10_save_grades_load_grades (self : Storage.StorageManager) (now : Z)
    (grades_data : list GradeCrawler.grade) (s : gmap (list (list N)) Storage.file) :
  let evaluation_year := GradeCrawler.grade_evaluation_year <$> head grades_data in
  let evaluation_month := GradeCrawler.grade_evaluation_month <$> head grades_data in
  let r := Storage.save_grades self now grades_data s in
  r.1 = true
  ∧ (∀ q, q ≠ Storage.grades_file self (default (Datetime.year_of now) evaluation_year)
                 (default (Datetime.month_of now) evaluation_month) →
          r.2 !! q = s !! q)
  ∧ Storage.load_grades self now evaluation_year evaluation_month r.2
    = Some (Storage.GradesDoc (Datetime.isoformat now) (length grades_data)
              evaluation_year evaluation_month grades_data)
  ∧ (∀ grade, grade ∈ grades_data →
       ∃ found,
         Storage.get_grade_by_gmgo_cd self now (GradeCrawler.gmgo_cd grade)
           evaluation_year evaluation_month r.2
         = Storage.Returns (Some found)
         ∧ GradeCrawler.gmgo_cd found = GradeCrawler.gmgo_cd grade
         ∧ found ∈ grades_data).
Proof.
  cbv zeta.
  assert (Storage.load_grades self now
            (GradeCrawler.grade_evaluation_year <$> head grades_data)
            (GradeCrawler.grade_evaluation_month <$> head grades_data)
            (Storage.save_grades self now grades_data s).2
          = Some (Storage.GradesDoc (Datetime.isoformat now) (length grades_data)
                    (GradeCrawler.grade_evaluation_year <$> head grades_data)
                    (GradeCrawler.grade_evaluation_month <$> head grades_data)
                    grades_data)) as Hload.
  { unfold Storage.load_grades, Storage.save_grades, Storage.grades_file. cbn [snd].
    destruct grades_data as [|first rest]; simpl; by apply read_plain_insert. }
  split_and!; [done | | done |].
  - intros q Hq. unfold Storage.save_grades. cbn [snd]. apply lookup_insert_ne.
    intros <-. apply Hq. unfold Storage.grades_file. by destruct grades_data.
  - intros grade Hgrade. unfold Storage.get_grade_by_gmgo_cd. rewrite Hload.
    destruct (head_filter_found GradeCrawler.gmgo_cd grade grades_data Hgrade)
      as (found & Hhead & Hcode & Hin).
    exists found. by rewrite Hhead.
Qed.

(** X11. [_create_backup] of a file that is not there returns [False] and
    changes nothing. Of a file that is there it returns [True]; the copy,
    which keeps the modification time of the original, is in the backup
    directory afterwards exactly when that time is within the last 7
    days; every other file of the backup directory stays exactly when its
    time is within the last 7 days, and no file outside it changes. *)
Theorem X11_create_backup (self : Storage.StorageManager) (now : Z)
    (filepath : list (list N)) (s : gmap (list (list N)) Storage.file) :
  let r := Storage._create_backup self now filepath s in
  let cutoff_time := now - Datetime.timedelta_days 7 in
  (s !! filepath = None → r = (false, s))
  ∧ (∀ f, s !! filepath = Some f →
       r.1 = true
       ∧ r.2 !! backup_path_of self now filepath = unless_older cutoff_time f
       ∧ ∀ q, q ≠ backup_path_of self now filepath →
              r.2 !! q
              = if Storage.in_dir (Storage.backup_dir self) q
                then s !! q ≫= unless_older cutoff_time else s !! q).
Proof.
  cbv zeta. split; [apply create_backup_missing|].
  intros f Hf. destruct (create_backup_exists self now filepath s f Hf) as (Hok & Hcopy & _).
  split_and!; [done | done |].
  intros q Hq. unfold Storage._create_backup. rewrite Hf. cbn [snd].
  rewrite cleanup_old_backups_lookup. fold (backup_path_of self now filepath).
  by rewrite lookup_insert_ne.
Qed.

Lemma X11_witness :
  (Storage._create_backup sample_manager sample_now (rates_path (py"2026-07-01.json"))
     three_snapshots).1 = true.
Proof.
  refine (proj1 (proj2 (X11_create_backup sample_manager sample_now
                          (rates_path (py"2026-07-01.json")) three_snapshots)
                   (snapshot (py"2026-07-01")) _)).
  vm_compute. reflexivity.
Defined.

(** ** Retention and the list of dates *)


(** ** Saving everything ([save_all]) *)

Section save_all_facts.
Import Storage.
Context (self : StorageManager).
Implicit Types (s : gmap (list (list N)) file) (p q filepath : list (list N)).

Lemma data_dir_not_subdir (name : str) : data_dir self ≠ data_dir self ++ [name].
Proof. intros Heq. apply (f_equal length) in Heq. rewrite length_app in Heq. simpl in Heq. lia. Qed.

(** A file directly in the data directory is no backup and no snapshot. *)
Lemma top_file_not_backup (name : str) :
  in_dir (backup_dir self) (data_dir self ++ [name]) = false.
Proof. rewrite in_dir_app. apply bool_decide_false. apply data_dir_not_subdir. Qed.

Lemma top_file_not_snapshot (name x : str) : data_dir self ++ [name] ≠ rates_dir self ++ [x].
Proof.
  intros Heq. apply app_inj_2 in Heq as [Heq _]; [|done].
  by apply data_dir_not_subdir in Heq.
Qed.

Lemma top_file_inj (name name' : str) :
  name ≠ name' → data_dir self ++ [name] ≠ data_dir self ++ [name'].
Proof. intros Hne Heq. apply app_inv_head in Heq. congruence. Qed.

Lemma load_json_agree filepath s s' :
  s' !! filepath = s !! filepath →
  s' !! with_suffix filepath (py".json.gz") = s !! with_suffix filepath (py".json.gz") →
  load_json filepath s' = load_json filepath s.
Proof.
  intros H1 H2. unfold load_json. rewrite H1, H2.
  destruct (bool_decide (s !! filepath = None) && _); by rewrite ?H1, ?H2.
Qed.

Lemma read_plain_agree filepath s s' :
  s' !! filepath = s !! filepath → read_plain filepath s' = read_plain filepath s.
Proof. intros H1. unfold read_plain. by rewrite H1. Qed.

Lemma save_bank_list_unfold now bank banks s :
  save_bank_list self now (bank :: banks) s
  = (true,
     <[bank_list_file self :=
         File (BankListDoc (length (_remove_duplicate_banks (bank :: banks)))
                 (length (_remove_duplicate_banks (bank :: banks)))
                 (Datetime.isoformat now) (_remove_duplicate_banks (bank :: banks)))
              false now]> (_create_backup self now (bank_list_file self) s).2).
Proof.
  unfold save_bank_list.
  destruct (_create_backup self now (bank_list_file self) s) as [ok s1].
  unfold save_json. cbn [snd]. by rewrite unique_count_is_total_count.
Qed.

(** What [save_daily_rates] leaves at a file directly in the data
    directory. *)
Lemma save_daily_rates_top_file now rates date_str s (name : str) :
  (save_daily_rates self now rates (Some date_str) s).2 !! (data_dir self ++ [name])
  = s !! (data_dir self ++ [name]).
Proof.
  destruct rates as [|rate rates]; [done|]. rewrite save_daily_rates_unfold.
  unfold save_json. case_bool_decide; cbn [snd].
  - unfold with_suffix, plain_path. rewrite path_parent_app.
    rewrite lookup_insert_ne by (symmetry; apply top_file_not_snapshot).
    apply create_backup_outside, top_file_not_backup.
  - unfold plain_path.
    rewrite lookup_insert_ne by (symmetry; apply top_file_not_snapshot).
    apply create_backup_outside, top_file_not_backup.
Qed.

Lemma save_bank_list_snapshot now banks s (x : str) (name : str) :
  bank_list_file self = data_dir self ++ [name] →
  (save_bank_list self now banks s).2 !! (rates_dir self ++ [x]) = s !! (rates_dir self ++ [x]).
Proof.
  intros Hfile. destruct banks as [|bank banks]; [done|]. rewrite save_bank_list_unfold.
  cbn [snd]. rewrite Hfile.
  rewrite lookup_insert_ne by apply top_file_not_snapshot.
  apply create_backup_outside, rates_path_not_in_backup_dir.
Qed.

Lemma save_bank_list_top_file now banks s (name name' : str) :
  bank_list_file self = data_dir self ++ [name] → name' ≠ name →
  (save_bank_list self now banks s).2 !! (data_dir self ++ [name'])
  = s !! (data_dir self ++ [name']).
Proof.
  intros Hfile Hne. destruct banks as [|bank banks]; [done|]. rewrite save_bank_list_unfold.
  cbn [snd]. rewrite Hfile.
  rewrite lookup_insert_ne by (by apply top_file_inj).
  apply create_backup_outside, top_file_not_backup.
Qed.

Lemma summary_gz_path :
  with_suffix (summary_file self) (py".json.gz") = data_dir self ++ [py"summary.json.gz"].
Proof.
  unfold with_suffix, summary_file. rewrite path_parent_app, path_name_app.
  f_equal; vm_compute; reflexivity.
Qed.

End save_all_facts.

(** X13. [save_all] with banks and rates, for a date string that is a
    calendar date, on a store whose summary can be read and has only dates
    for keys, with the bank list kept directly in the data directory:
    it returns [True], and afterwards [load_banks] returns the banks
    without duplicates, [get_rates_by_date] of that date returns the
    snapshot of the rates (when it was written plain, or no plain file of
    that date was there), and the summary has the entry of that date when
    the date is within the last 90 days. *)
Theorem X13_save_all_round_trip (self : Storage.StorageManager) (now : Z)
    (banks : list (gmap str str)) (rates : list Crawler.rate) (date_str name : str)
    (s : gmap (list (list N)) Storage.file) (old : gmap str Storage.summary) :
  banks ≠ [] → rates ≠ [] →
  Storage.bank_list_file self = Storage.data_dir self ++ [name] →
  name ≠ py"summary.json" → name ≠ py"summary.json.gz" →
  is_Some (Datetime.strptime_date date_str) →
  existing_summary_of self s = Some old →
  map_Forall (λ date _, is_Some (Datetime.strptime_date date)) old →
  (length rates ≤ 100)%nat ∨ s !! plain_path self date_str = None →
  let r := Storage.save_all self now banks rates (Some date_str) s in
  let unique := Storage._remove_duplicate_banks banks in
  r.1 = true
  ∧ Storage.load_banks self r.2
    = Some (Storage.BankListDoc (length unique) (length unique) (Datetime.isoformat now)
              unique)
  ∧ Storage.get_rates_by_date self date_str r.2 = Some (rates_doc now date_str rates)
  ∧ ∃ kept,
      Storage.load_json (Storage.summary_file self) r.2 = Some (Storage.SummaryDoc kept)
      ∧ kept !! date_str
        = if Storage.not_before (now - Datetime.timedelta_days 90) date_str
          then Some (Storage.parse_summary_data now rates) else None.
Proof.
  intros Hbanks Hrates Hfile Hname Hname_gz Hdate Hold Hkeys Hplain. cbv zeta.
  unfold Storage.save_all. simpl default.
  destruct banks as [|bank banks]; [done|]. destruct rates as [|rate rates]; [done|].
  set (banks' := bank :: banks) in *. set (rates' := rate :: rates) in *.
  set (s1 := (Storage.save_bank_list self now banks' s).2).
  assert (Storage.save_bank_list self now banks' s = (true, s1)) as ->.
  { unfold s1, banks'. by rewrite save_bank_list_unfold. }
  set (s2 := (Storage.save_daily_rates self now rates' (Some date_str) s1).2).
  assert (Storage.save_daily_rates self now rates' (Some date_str) s1 = (true, s2)) as ->.
  { unfold s2, rates'. rewrite save_daily_rates_unfold. unfold Storage.save_json.
    by case_bool_decide. }
  (* the summary read after the two writes is the summary read before *)
  assert (existing_summary_of self s2 = Some old) as Hold2.
  { rewrite <- Hold. unfold existing_summary_of.
    rewrite (load_json_agree (Storage.summary_file self) s s2); [done| |].
    - unfold s2, s1, Storage.summary_file. rewrite save_daily_rates_top_file.
      by apply save_bank_list_top_file with name.
    - rewrite summary_gz_path. unfold s2, s1. rewrite save_daily_rates_top_file.
      by apply save_bank_list_top_file with name. }
  rewrite save_summary_cases, Hold2. cbv zeta.
  rewrite bool_decide_true by (by apply map_Forall_insert_2).
  cbn [fst snd andb].
  set (kept := filter _ _).
  set (s3 := <[Storage.summary_file self := Storage.File (Storage.SummaryDoc kept) false now]> s2).
  split_and!; [done | | |].
  - unfold Storage.load_banks.
    rewrite (read_plain_agree (Storage.bank_list_file self) s1 s3).
    + unfold s1, banks'. rewrite save_bank_list_unfold. cbn [snd].
      by apply read_plain_insert.
    + unfold s3. rewrite lookup_insert_ne
        by (rewrite Hfile; unfold Storage.summary_file; by apply top_file_inj).
      unfold s2. rewrite Hfile. apply save_daily_rates_top_file.
  - unfold Storage.get_rates_by_date. fold (plain_path self date_str).
    rewrite (load_json_agree (plain_path self date_str) s2 s3).
    + assert (s1 !! plain_path self date_str = s !! plain_path self date_str) as Hs1
        by (by apply save_bank_list_snapshot with name).
      unfold s2, rates'. rewrite save_daily_rates_unfold. fold rates'.
      case_bool_decide as Hlarge.
      * destruct Hplain as [?|Hnone]; [unfold rates' in *; simpl in *; lia|].
        rewrite create_backup_missing by (by rewrite Hs1).
        unfold Storage.save_json. cbn [snd]. apply load_json_compressed; [done|].
        by rewrite Hs1.
      * unfold Storage.save_json. cbn [snd]. apply load_json_plain; [done|].
        unfold plain_path. rewrite path_name_app. apply suffix_json_not_gz.
    + unfold s3. apply lookup_insert_ne. unfold Storage.summary_file, plain_path.
      apply top_file_not_snapshot.
    + unfold s3. apply lookup_insert_ne. unfold Storage.summary_file, plain_path,
        Storage.with_suffix. rewrite path_parent_app. apply top_file_not_snapshot.
  - exists kept. split.
    + unfold s3. apply load_json_plain; [done|].
      unfold Storage.summary_file. rewrite path_name_app.
      change (py"summary.json") with (py"summary" ++ py".json"). apply suffix_json_not_gz.
    + unfold kept. destruct (Storage.not_before _ date_str) eqn:Hkeep.
      * apply map_lookup_filter_Some. split; [apply lookup_insert_eq | done].
      * apply map_lookup_filter_None. right. intros entry _. simpl. by rewrite Hkeep.
Qed.

Lemma X13_witness :
  (Storage.save_all sample_manager sample_now [{[ py"gmgoCd" := py"12345" ]}]
     [Crawler.Rate ∅ [] [] [] 0] (Some (py"2026-07-01")) ∅).1 = true.
Proof.
  refine (proj1 (X13_save_all_round_trip sample_manager sample_now
                   [{[ py"gmgoCd" := py"12345" ]}] [Crawler.Rate ∅ [] [] [] 0]
                   (py"2026-07-01") (py"banks.json") ∅ ∅ _ _ _ _ _ _ _ _ _)).
  - discriminate.
  - discriminate.
  - reflexivity.
  - vm_compute. discriminate.
  - vm_compute. discriminate.
  - apply (bool_decide_unpack _). vm_compute. exact I.
  - vm_compute. reflexivity.
  - apply map_Forall_empty.
  - left. simpl. lia.
Defined.

(** ** Parsed lists ([parse_bank_list], [parse_interest_rates]) *)

Section parsed_lists.
Import Parser.

Ltac distinct_keys := vm_compute; discriminate.
Ltac listed := apply (bool_decide_unpack _); vm_compute; exact I.

Lemma length_omap_le {A B} (f : A → option B) (l : list A) :
  (length (omap f l) ≤ length l)%nat.
Proof.
  induction l as [|x l IH]; [done|]. change (omap f (x :: l)) with
    (match f x with Some y => y :: omap f l | None => omap f l end).
  destruct (f x); simpl; lia.
Qed.

Lemma field_mapping_fields title field :
  field_mapping !! title = Some field → field ∈ parsed_fields.
Proof.
  unfold field_mapping. intros Hin%elem_of_list_to_map_2.
  repeat (apply elem_of_cons in Hin as [Heq|Hin];
          [injection Heq as _ ->; listed|]).
  by apply elem_of_nil in Hin.
Qed.

Lemma collect_spans_fields (spans : list Html.node) (bank_data : gmap str str) :
  (∀ key, is_Some (bank_data !! key) → key ∈ parsed_fields) →
  ∀ key, is_Some (foldl collect_span bank_data spans !! key) → key ∈ parsed_fields.
Proof.
  revert bank_data. induction spans as [|span spans IH]; intros bank_data Hdata; [done|].
  simpl. apply IH. intros key. unfold collect_span.
  destruct (field_mapping !! Html.get span (py"title")) as [field|] eqn:Hfield; [|apply Hdata].
  destruct (decide (key = field)) as [->|Hne].
  - intros _. by apply field_mapping_fields in Hfield.
  - rewrite lookup_insert_ne by done. apply Hdata.
Qed.

(** A record of the structured strategy: the code and the name are there,
    every key is one of the six fields, and a branch name that stays is
    empty. *)
Lemma extract_from_hidden_spans_fields row d :
  extract_from_hidden_spans row = Some d →
  is_Some (d !! py"gmgoCd") ∧ is_Some (d !! py"name")
  ∧ (∀ key, is_Some (d !! key) → key ∈ parsed_fields)
  ∧ (∀ branch_name, d !! py"branch_name" = Some branch_name → branch_name = []).
Proof.
  unfold extract_from_hidden_spans. case_decide; [done|].
  set (bank_data := foldl collect_span ∅ (hidden_spans_of row)).
  assert (∀ key, is_Some (bank_data !! key) → key ∈ parsed_fields) as Hfields.
  { apply collect_spans_fields. intros key. rewrite lookup_empty. by intros [? ?]. }
  destruct (bank_data !! py"gmgoCd") as [code|] eqn:Hcode; [|done].
  destruct (bank_data !! py"name") as [name|] eqn:Hname; [|done].
  destruct (bank_data !! py"branch_name") as [branch_name|] eqn:Hbranch; simpl.
  - destruct branch_name as [|c branch_name]; simpl.
    + intros [= <-]. rewrite Hcode, Hname. split_and!; [eauto | eauto | done |].
      intros ? Hb. rewrite Hbranch in Hb. by injection Hb as <-.
    + intros [= <-]. split_and!.
      * rewrite lookup_delete_ne, lookup_insert_ne by distinct_keys. by rewrite Hcode.
      * rewrite lookup_delete_ne, lookup_insert_eq by distinct_keys. eauto.
      * intros key [value Hkey]. apply lookup_delete_Some in Hkey as [_ Hkey].
        destruct (decide (key = py"name")) as [->|Hne]; [listed|].
        rewrite lookup_insert_ne in Hkey by done. apply Hfields. eauto.
      * intros ?. by rewrite lookup_delete_eq.
  - intros [= <-]. rewrite Hcode, Hname. split_and!; [eauto | eauto | done |].
    intros ?. by rewrite Hbranch.
Qed.

(** A record of the fallback has exactly five fields; its code is the
    first five characters of the row text, all digits. *)
Lemma extract_from_text_fields row d :
  extract_from_text row = Some d →
  (∃ code, d !! py"gmgoCd" = Some code
           ∧ code = take 5 (Html.get_text_strip row)
           ∧ length code = 5%nat ∧ Forall (λ c, Py.is_digit c = true) code)
  ∧ is_Some (d !! py"name")
  ∧ dom d = list_to_set [py"gmgoCd"; py"name"; py"phone"; py"address"; py"type"].
Proof.
  unfold extract_from_text. case_decide; [done|].
  destruct (code_match (Html.get_text_strip row)) as [code|] eqn:Hcode; [|done].
  destruct (name_match (Html.get_text_strip row)) as [raw_name|]; [|done].
  intros [= <-]. split_and!.
  - exists code. rewrite !lookup_insert_ne by distinct_keys. rewrite lookup_singleton_eq.
    split; [done|]. unfold code_match in Hcode.
    destruct (digits_exact 5 (Html.get_text_strip row)) as [[ds rest]|] eqn:Hds; [|done].
    injection Hcode as <-. apply digits_exact_Some in Hds as (Htext & Hlen & Hdigits).
    split_and!; [|done|done]. by rewrite Htext, take_app_length'.
  - rewrite !lookup_insert_ne by distinct_keys. rewrite lookup_insert_eq. eauto.
  - rewrite !dom_insert_L, dom_singleton_L. simpl. set_solver.
Qed.

Lemma parse_bank_row_fields row d :
  parse_bank_row row = Some d →
  is_Some (d !! py"gmgoCd") ∧ is_Some (d !! py"name")
  ∧ (∀ key, is_Some (d !! key) → key ∈ parsed_fields)
  ∧ (∀ branch_name, d !! py"branch_name" = Some branch_name → branch_name = []).
Proof.
  unfold parse_bank_row.
  destruct (found (extract_from_hidden_spans row)) eqn:Hhidden.
  - rewrite Hhidden. apply extract_from_hidden_spans_fields.
  - destruct (found (extract_from_text row)); [|done].
    intros Htext. destruct (extract_from_text_fields row d Htext) as ((code & Hc & _) & Hn & Hdom).
    split_and!; [by rewrite Hc | done | |].
    + intros key Hkey%elem_of_dom. rewrite Hdom in Hkey.
      apply elem_of_list_to_set in Hkey.
      repeat (apply elem_of_cons in Hkey as [->|Hkey]; [listed|]).
      by apply elem_of_nil in Hkey.
    + intros branch_name Hb. assert (py"branch_name" ∈ dom d) as Hin by (apply elem_of_dom; eauto).
      rewrite Hdom in Hin. apply elem_of_list_to_set in Hin.
      exfalso. revert Hin. apply (bool_decide_unpack _). vm_compute. exact I.
Qed.

Lemma parse_rate_rows_from rows product_type p :
  p ∈ parse_rate_rows rows product_type →
  ∃ row, row ∈ rows ∧ parse_product_row (Html.find_all row (py"td")) product_type = Some p.
Proof.
  unfold parse_rate_rows, remove_duplicate_products. intros Hp.
  eapply elem_of_sublist in Hp; [|apply dedup_loop_sublist].
  by apply list_elem_of_omap in Hp.
Qed.

Lemma parse_rate_rows_valid rows product_type p :
  p ∈ parse_rate_rows rows product_type →
  Parser.product_type p = product_type
  ∧ _is_valid_product (product_name p) product_type = true
  ∧ passes_validity product_type (duration_months p) (interest_rate p).
Proof.
  intros (row & _ & Hparse)%parse_rate_rows_from.
  by apply parse_product_row_Some in Hparse as (_ & ? & _ & _ & _ & _ & ? & ?).
Qed.

End parsed_lists.

(** X14. [parse_bank_list] yields at most one record by table row. Every
    record has a code and a name, and carries the city, the district and
    the time of the call it was made by; each of its keys is one of the
    six parsed fields or one of these three; a branch name is left in a
    record only when it is empty. *)
Theorem X14_parse_bank_list (crawled_at : str) (soup : Html.node) (city district : str) :
  let banks := Parser.parse_bank_list crawled_at soup city district in
  (length banks ≤ length (Html.find_all soup (py"tr")))%nat
  ∧ ∀ bank, bank ∈ banks →
      is_Some (bank !! py"gmgoCd") ∧ is_Some (bank !! py"name")
      ∧ bank !! py"city" = Some city
      ∧ bank !! py"district" = Some district
      ∧ bank !! py"crawled_at" = Some crawled_at
      ∧ (∀ key, is_Some (bank !! key) → key ∈ parsed_fields ++ common_fields)
      ∧ (∀ branch_name, bank !! py"branch_name" = Some branch_name → branch_name = []).
Proof.
  cbv zeta. unfold Parser.parse_bank_list. split; [apply length_omap_le|].
  intros bank (row & _ & Hrow)%list_elem_of_omap.
  destruct (Parser.parse_bank_row row) as [d|] eqn:Hd; [|done].
  injection Hrow as <-.
  destruct (parse_bank_row_fields row d Hd) as (Hcode & Hname & Hkeys & Hbranch).
  split_and!.
  - by rewrite !lookup_insert_ne by (vm_compute; discriminate).
  - by rewrite !lookup_insert_ne by (vm_compute; discriminate).
  - rewrite !lookup_insert_ne by (vm_compute; discriminate). apply lookup_insert_eq.
  - rewrite lookup_insert_ne by (vm_compute; discriminate). apply lookup_insert_eq.
  - apply lookup_insert_eq.
  - intros key Hkey. apply elem_of_app.
    destruct (decide (key ∈ common_fields)) as [?|Hne]; [by right|]. left.
    apply Hkeys. rewrite !lookup_insert_ne in Hkey; [done|..];
      intros <-; apply Hne; apply (bool_decide_unpack _); vm_compute; exact I.
  - intros branch_name. rewrite !lookup_insert_ne by (vm_compute; discriminate). apply Hbranch.
Qed.


(** ** The fallback strategy ([BankParser.extract_from_text]) *)

Section text_strategy.
Import Parser.

Lemma lit_at_inv c s rest : lit_at c s = Some rest → s = c :: rest.
Proof. destruct s as [|c' s]; simpl; [done|]. case_decide; [|done]. by intros [= <-]; subst. Qed.

Lemma search_inv {A} (match_at : str → option A) (s : str) (m : A) :
  search match_at s = Some m → ∃ before rest, s = before ++ rest ∧ match_at rest = Some m.
Proof.
  induction s as [|c s IH]; simpl.
  - destruct (match_at []) eqn:E; [|done]. intros [= <-]. by exists [], [].
  - destruct (match_at (c :: s)) eqn:E.
    + intros [= <-]. by exists [], (c :: s).
    + intros (before & rest & -> & Hrest)%IH. by exists (c :: before), rest.
Qed.





End text_strategy.



(** ** Duration and rate texts ([_parse_duration], [_parse_rate]) *)

Section number_texts.
Import Parser.









End number_texts.



(** ** The crawler ([_make_request], [fetch_interest_rates], [get_region_stats]) *)

Section crawler_facts.
Import Crawler.
Context (cfg : config) (api : endpoints).
Context (rate_rows_of : str → list Html.node).
Context (transport : gmap str str → Z → reply).

Lemma slept_app events events' : slept (events ++ events') = slept events + slept events'.
Proof.
  induction events as [|e events IH]; simpl; [done|]. rewrite IH. destruct e; lia.
Qed.

Lemma slept_retried_attempts url params (k : nat) :
  2 * slept (retried_attempts cfg url params (Z.of_nat k))
  = retry_delay cfg * Z.of_nat k * (Z.of_nat k + 1).
Proof.
  unfold retried_attempts, Py.range. rewrite Nat2Z.id.
  induction k as [|k IH]; [simpl; lia|].
  rewrite seq_S, fmap_app, flat_map_app, slept_app. simpl. lia.
Qed.

Lemma gets_retried_attempts url params (k : nat) :
  length (List.filter is_get (retried_attempts cfg url params (Z.of_nat k))) = k.
Proof.
  unfold retried_attempts, Py.range. rewrite Nat2Z.id.
  generalize 0%nat. induction k as [|k IH]; intros a; [done|]. simpl. by rewrite IH.
Qed.

Lemma make_request_loop_first_success net url params (max_retries : Z) (j n a : nat)
    (response : Crawler.response) :
  (j < n)%nat →
  Z.of_nat (a + j) < max_retries →
  (∀ attempt, Z.of_nat a ≤ attempt < Z.of_nat (a + j) → request_fails (net attempt)) →
  try_get (net (Z.of_nat (a + j))) = Some response →
  _make_request_loop cfg net url params max_retries (Z.of_nat <$> seq a n)
  = (Some response,
     flat_map (λ attempt,
                 [Get url params (timeout cfg); Sleep (retry_delay cfg * (attempt + 1))])
              (Z.of_nat <$> seq a j)
     ++ [Get url params (timeout cfg)]).
Proof.
  revert n a. induction j as [|j IH]; intros n a Hn Hmax Hfail Hget.
  - destruct n as [|n]; [lia|]. simpl. rewrite Nat.add_0_r in Hget. by rewrite Hget.
  - destruct n as [|n]; [lia|]. simpl.
    rewrite (proj2 (try_get_None _)) by (apply Hfail; lia).
    replace (Z.of_nat a <? max_retries - 1) with true by (symmetry; apply Z.ltb_lt; lia).
    rewrite IH;
      [done | lia | lia | intros; apply Hfail; lia |].
    by replace (S a + j)%nat with (a + S j)%nat by lia.
Qed.

Lemma make_request_bound net url params (max_retries : Z) :
  (length (List.filter is_get (_make_request cfg net url params max_retries).2)
   ≤ Z.to_nat max_retries)%nat.
Proof.
  unfold _make_request. etrans; [apply make_request_loop_bound|].
  unfold Py.range. by rewrite length_fmap, length_seq.
Qed.

(** One turn of the loop of [fetch_interest_rates], and the loop. *)
Lemma fetch_product_type_spec gmgoCd (acc : list Parser.product * list event)
    (product_type : str * str) :
  let r := fetch_product_type cfg api rate_rows_of transport gmgoCd acc product_type in
  (∀ p, p ∈ r.1 → p ∈ acc.1 ∨ ∃ rows, p ∈ Parser.parse_rate_rows rows product_type.2)
  ∧ (length (List.filter is_get r.2)
     ≤ length (List.filter is_get acc.2) + Z.to_nat (Crawler.retry_count cfg))%nat.
Proof.
  cbv zeta. unfold fetch_product_type.
  set (params := <[py"gubuncode" := product_type.1]> {[ py"OPEN_TRMID" := gmgoCd ]}
                 : gmap str str).
  pose proof (make_request_bound (transport params) (interest_rates api) params
                (Crawler.retry_count cfg)) as Hbound.
  destruct (_make_request cfg (transport params) (interest_rates api) params
              (Crawler.retry_count cfg)) as [[response|] events]; cbn [fst snd] in *.
  - split.
    + intros p [?|?]%elem_of_app; [by left | right; eauto].
    + rewrite List.filter_app, length_app. lia.
  - split; [by left|]. rewrite List.filter_app, length_app. lia.
Qed.

Lemma fetch_product_types_spec gmgoCd (product_types : list (str * str))
    (acc : list Parser.product * list event) :
  let r := foldl (fetch_product_type cfg api rate_rows_of transport gmgoCd) acc product_types in
  (∀ p, p ∈ r.1 →
        p ∈ acc.1
        ∨ ∃ product_type rows,
            product_type ∈ product_types ∧ p ∈ Parser.parse_rate_rows rows product_type.2)
  ∧ (length (List.filter is_get r.2)
     ≤ length (List.filter is_get acc.2)
       + length product_types * Z.to_nat (Crawler.retry_count cfg))%nat.
Proof.
  revert acc. induction product_types as [|product_type rest IH]; intros acc; simpl.
  { split; [by left | lia]. }
  destruct (IH (fetch_product_type cfg api rate_rows_of transport gmgoCd acc product_type))
    as [Hproducts Hgets].
  destruct (fetch_product_type_spec gmgoCd acc product_type) as [Hstep Hstep_gets].
  split; [|lia].
  intros p Hp. destruct (Hproducts p Hp) as [Hin|(pt & rows & Hpt & Hin)].
  - destruct (Hstep p Hin) as [?|[rows ?]]; [by left|].
    right. exists product_type, rows. split; [left | done].
  - right. exists pt, rows. split; [by right | done].
Qed.

(** One more bank under a city and a district adds one to that count and
    leaves the other counts. *)
Lemma region_step_count (stats : gmap str (gmap str Z)) (bank : gmap str str) city district :
  region_count (region_step stats bank) city district
  = if decide (region_of bank = (city, district))
    then Some (default 0 (region_count stats city district) + 1)
    else region_count stats city district.
Proof.
  unfold region_count, region_step, region_of.
  set (bank_city := default (py"Unknown") (bank !! py"city")).
  set (bank_district := default (py"Unknown") (bank !! py"district")).
  destruct (decide (bank_city = city)) as [<-|Hcity].
  - rewrite lookup_insert_eq. simpl.
    destruct (decide (bank_district = district)) as [<-|Hdistrict].
    + rewrite decide_True by done. rewrite lookup_insert_eq.
      by destruct (stats !! bank_city).
    + rewrite decide_False by congruence. rewrite lookup_insert_ne by done.
      by destruct (stats !! bank_city).
  - rewrite decide_False by congruence. by rewrite lookup_insert_ne.
Qed.

End crawler_facts.

(** X18. When the first attempts of [_make_request] fail and attempt [k]
    is answered with a status that is no error, the response of attempt
    [k] is returned after [k + 1] requests; the sleeps between them are
    [retry_delay] times 1, 2, ..., [k], that is [retry_delay * k * (k + 1) / 2]
    seconds in all; nothing is requested after the answer. *)
Theorem X18_make_request_first_success (cfg : Crawler.config) (net : Z → Crawler.reply)
    (url : str) (params : gmap str str) (max_retries k : Z) (response : Crawler.response) :
  0 ≤ k < max_retries →
  (∀ attempt, 0 ≤ attempt < k → request_fails (net attempt)) →
  Crawler.try_get (net k) = Some response →
  let r := Crawler._make_request cfg net url params max_retries in
  r = (Some response,
       retried_attempts cfg url params k ++ [Crawler.Get url params (Crawler.timeout cfg)])
  ∧ 2 * slept r.2 = Crawler.retry_delay cfg * k * (k + 1)
  ∧ length (List.filter is_get r.2) = Z.to_nat (k + 1).
Proof.
  intros Hk Hfail Hget. cbv zeta.
  destruct (Z_of_nat_complete k) as [j ->]; [lia|].
  assert (Crawler._make_request cfg net url params max_retries
          = (Some response,
             retried_attempts cfg url params (Z.of_nat j)
             ++ [Crawler.Get url params (Crawler.timeout cfg)])) as ->.
  { unfold Crawler._make_request, retried_attempts, Py.range. rewrite Nat2Z.id.
    apply (make_request_loop_first_success cfg net url params max_retries
             j (Z.to_nat max_retries) 0 response); [lia | lia | | done].
    intros attempt Hattempt. apply Hfail. lia. }
  split; [done|]. cbn [snd]. split.
  - rewrite slept_app, Z.mul_add_distr_l, slept_retried_attempts. simpl. lia.
  - rewrite List.filter_app, length_app, gets_retried_attempts. simpl. lia.
Qed.

Lemma X18_witness :
  Crawler._make_request sample_config
    (λ attempt, if attempt <? 2 then Crawler.RaisesRequestException (py"timeout")
                else Crawler.Responds 200 (py"ok"))
    (py"https://www.kfcc.co.kr") ∅ 3
  = (Some (Crawler.Response 200 (py"ok")),
     retried_attempts sample_config (py"https://www.kfcc.co.kr") ∅ 2
     ++ [Crawler.Get (py"https://www.kfcc.co.kr") ∅ 10]).
Proof.
  refine (proj1 (X18_make_request_first_success sample_config _ (py"https://www.kfcc.co.kr")
                   ∅ 3 2 (Crawler.Response 200 (py"ok")) _ _ _)).
  - lia.
  - intros attempt Hattempt. destruct (attempt <? 2) eqn:E; [exact I | lia].
  - reflexivity.
Defined.

(** X19. [fetch_interest_rates] makes no request for a bank without a
    code, and at most three times [retry_count] requests otherwise. For a
    bank with a code and no name it raises [KeyError], after the requests.
    When it returns a record, the record is of that bank, its products are
    not empty and are counted by [total_products], no two of them have the
    same name, duration, rate and category, each is of one of the three
    categories with a product name kept for that category and passes the
    validity policy, and [rates_fetched] goes up by one; when it returns
    [None] or raises, the counters stay. *)
Theorem X19_fetch_interest_rates (cfg : Crawler.config) (api : Crawler.endpoints)
    (rate_rows_of : str → list Html.node) (transport : gmap str str → Z → Crawler.reply)
    (now : Z) (st : Crawler.stats) (bank : gmap str str) :
  let r := Crawler.fetch_interest_rates cfg api rate_rows_of transport now st bank in
  (bank !! py"gmgoCd" = None → r = (inr None, st, []))
  ∧ (length (List.filter is_get r.2) ≤ 3 * Z.to_nat (Crawler.retry_count cfg))%nat
  ∧ (is_Some (bank !! py"gmgoCd") → bank !! py"name" = None →
     r.1 = (inl (py"KeyError"), st))
  ∧ match r.1.1 with
    | inl _ | inr None => r.1.2 = st
    | inr (Some rate) =>
        Crawler.bank rate = bank
        ∧ Crawler.crawled_at rate = Datetime.isoformat now
        ∧ Crawler.products rate ≠ []
        ∧ Crawler.total_products rate = Z.of_nat (length (Crawler.products rate))
        ∧ NoDup (Crawler.product_key <$> Crawler.products rate)
        ∧ (∀ p, p ∈ Crawler.products rate →
             Parser.product_type p ∈ [Parser.SIGHT; Parser.TERM; Parser.INSTALLMENT]
             ∧ Parser._is_valid_product (Parser.product_name p) (Parser.product_type p) = true
             ∧ passes_validity (Parser.product_type p) (Parser.duration_months p)
                 (Parser.interest_rate p))
        ∧ r.1.2
          = Crawler.Stats (Crawler.banks_fetched st) (Crawler.rates_fetched st + 1)
              (Crawler.errors st)
    end.
Proof.
  cbv zeta. unfold Crawler.fetch_interest_rates.
  destruct (bank !! py"gmgoCd") as [gmgoCd|];
    [|by split_and!; [|simpl; lia|intros [? ?]|]].
  destruct (fetch_product_types_spec cfg api rate_rows_of transport gmgoCd
              Crawler.product_types ([], [])) as [Hproducts Hgets].
  destruct (foldl _ _ _) as [all_products events]. simpl in Hproducts, Hgets.
  pose proof (dedup_loop_sublist Crawler.product_key all_products) as Hsub.
  pose proof (dedup_loop_NoDup Crawler.product_key all_products) as Hnodup.
  unfold Crawler._remove_duplicate_products.
  destruct (bank !! py"name") as [name|].
  2:{ split_and!; [done | simpl; lia | done | done]. }
  destruct (Parser.dedup_loop Crawler.product_key all_products) as [|p unique] eqn:Hunique.
  { split_and!; [done | simpl; lia | done | done]. }
  split_and!; [done | simpl; lia | done |]. cbn [fst snd Crawler.bank Crawler.crawled_at
    Crawler.products Crawler.total_products].
  split_and!; [done | done | done | done | done | | done].
  intros q Hq. eapply elem_of_sublist in Hq; [|exact Hsub].
  destruct (Hproducts q Hq) as [Hnil|(product_type & rows & Hpt & Hin)];
    [by apply elem_of_nil in Hnil|].
  apply parse_rate_rows_valid in Hin as (Htype & Hvalid & Hpass). rewrite Htype.
  split; [|done]. unfold Crawler.product_types in Hpt.
  repeat (apply elem_of_cons in Hpt as [->|Hpt];
          [apply (bool_decide_unpack _); vm_compute; exact I|]).
  by apply elem_of_nil in Hpt.
Qed.

(** X20. [get_region_stats] counts every bank once, under its city and
    district, with [Unknown] for a missing one: the count of a city and a
    district is the number of banks of the list filed under them, and a
    city and a district without a bank have no entry. *)
Theorem X20_get_region_stats (banks : list (gmap str str)) (city district : str) :
  let count :=
    length (filter (λ bank, region_of bank = (city, district)) banks) in
  region_count (Crawler.get_region_stats banks) city district
  = if decide (count = 0%nat) then None else Some (Z.of_nat count).
Proof.
  cbv zeta. unfold Crawler.get_region_stats.
  induction banks as [|bank banks IH] using rev_ind; [done|].
  rewrite foldl_app. simpl. rewrite region_step_count, IH.
  rewrite filter_app, length_app, filter_cons, filter_nil.
  destruct (decide (region_of bank = (city, district))); simpl.
  - destruct (decide (length _ = 0%nat)) as [->|?]; simpl.
    + done.
    + rewrite decide_False by lia. f_equal. lia.
  - by rewrite Nat.add_0_r.
Qed.

(** ** One region ([fetch_bank_list]) *)

Section fetch_bank_list_facts.
Import Crawler.
Context (cfg : config).

Lemma make_request_loop_events net url params (max_retries : Z) (attempts : list Z) :
  Forall (λ e, is_get e = true → e = Get url params (timeout cfg))
         (_make_request_loop cfg net url params max_retries attempts).2.
Proof.
  induction attempts as [|attempt rest IH]; simpl; [constructor|].
  destruct (try_get (net attempt)); simpl; [by repeat constructor|].
  destruct (attempt <? max_retries - 1); simpl; [|by repeat constructor].
  destruct (_make_request_loop cfg net url params max_retries rest). simpl in *.
  by repeat constructor.
Qed.

Lemma parse_bank_list_region crawled_at soup city district bank :
  bank ∈ Parser.parse_bank_list crawled_at soup city district →
  is_Some (bank !! py"gmgoCd") ∧ is_Some (bank !! py"name")
  ∧ bank !! py"city" = Some city ∧ bank !! py"district" = Some district.
Proof.
  unfold Parser.parse_bank_list. intros (row & _ & Hrow)%list_elem_of_omap.
  destruct (Parser.parse_bank_row row) as [d|] eqn:Hd; [|done].
  injection Hrow as <-.
  destruct (parse_bank_row_fields row d Hd) as (Hcode & Hname & _ & _).
  split_and!.
  - by rewrite !lookup_insert_ne by (vm_compute; discriminate).
  - by rewrite !lookup_insert_ne by (vm_compute; discriminate).
  - rewrite !lookup_insert_ne by (vm_compute; discriminate). apply lookup_insert_eq.
  - rewrite lookup_insert_ne by (vm_compute; discriminate). apply lookup_insert_eq.
Qed.

End fetch_bank_list_facts.

(** X26. [fetch_bank_list] makes at most [retry_count] requests, all to
    the bank list address with the city as [r1]; [r2] is the district,
    or empty when the city is its own only district. The banks it returns
    all have a code and a name and carry the city and the district of the
    call, also when [r2] was sent empty; [banks_fetched] goes up by their
    number, and the other counters stay. *)
Theorem X26_fetch_bank_list (cfg : Crawler.config) (api : Crawler.endpoints)
    (REGIONS : gmap str (list str)) (soup_of : str → Html.node)
    (transport : gmap str str → Z → Crawler.reply)
    (now : Z) (st : Crawler.stats) (city district : str) :
  let r := Crawler.fetch_bank_list cfg api REGIONS soup_of transport now st city district in
  let sent_district := if bool_decide (REGIONS !! city = Some [city]) then [] else district in
  (length (List.filter is_get r.2) ≤ Z.to_nat (Crawler.retry_count cfg))%nat
  ∧ (∀ e, e ∈ r.2 → is_get e = true →
       ∃ params, e = Crawler.Get (Crawler.bank_list api) params (Crawler.timeout cfg)
                 ∧ params !! py"r1" = Some city ∧ params !! py"r2" = Some sent_district)
  ∧ (∀ bank, bank ∈ r.1.1 →
       is_Some (bank !! py"gmgoCd") ∧ is_Some (bank !! py"name")
       ∧ bank !! py"city" = Some city ∧ bank !! py"district" = Some district)
  ∧ Crawler.banks_fetched r.1.2 = Crawler.banks_fetched st + Z.of_nat (length r.1.1)
  ∧ Crawler.rates_fetched r.1.2 = Crawler.rates_fetched st
  ∧ Crawler.errors r.1.2 = Crawler.errors st.
Proof.
  cbv zeta. unfold Crawler.fetch_bank_list.
  set (params := Crawler.bank_list_params REGIONS city district).
  assert (params !! py"r1" = Some city
          ∧ params !! py"r2"
            = Some (if bool_decide (REGIONS !! city = Some [city]) then [] else district))
    as Hparams.
  { unfold params, Crawler.bank_list_params. case_bool_decide.
    - split; [|apply lookup_insert_eq].
      rewrite lookup_insert_ne by (vm_compute; discriminate). apply lookup_singleton_eq.
    - split; [|apply lookup_insert_eq].
      rewrite lookup_insert_ne by (vm_compute; discriminate). apply lookup_singleton_eq. }
  pose proof (make_request_bound cfg (transport params) (Crawler.bank_list api) params
                (Crawler.retry_count cfg)) as Hbound.
  pose proof (make_request_loop_events cfg (transport params) (Crawler.bank_list api) params
                (Crawler.retry_count cfg) (Py.range (Crawler.retry_count cfg))) as Hevents.
  fold (Crawler._make_request cfg (transport params) (Crawler.bank_list api) params
          (Crawler.retry_count cfg)) in Hevents.
  destruct (Crawler._make_request cfg (transport params) (Crawler.bank_list api) params
              (Crawler.retry_count cfg)) as [[response|] events]; cbn [fst snd] in *.
  - split_and!; [done | | | done | done | done].
    + intros e He Hget. rewrite Forall_forall in Hevents.
      exists params. by rewrite (Hevents e He Hget).
    + apply parse_bank_list_region.
  - split_and!; [done | | | simpl; lia | done | done].
    + intros e He Hget. rewrite Forall_forall in Hevents.
      exists params. by rewrite (Hevents e He Hget).
    + intros bank Hbank. by apply elem_of_nil in Hbank.
Qed.

(** ** The grade crawler ([parse_grade_data], [fetch_grade_for_bank],
    [collect_all_grades]) and [collect_grades] *)

Section grade_facts.
Import GradeCrawler.
Context (cfg : config) (req : request_config).
Context (GRADE_MAP : gmap str (str * str)) (url : str) (soup_of : str → Html.node).
Context (transport : gmap str str → Z → Crawler.reply).

Lemma starts_with_Some (p s : str) : Py.starts_with p s = true → s = p ++ drop (length p) s.
Proof.
  revert s. induction p as [|a p IH]; intros s; simpl; [done|].
  destruct s as [|b s]; [done|]. case_decide as Hab; [|done]. subst b.
  intros Hp. simpl. f_equal. by apply IH.
Qed.

Lemma ascii_digits_exact_Some n s ds rest :
  ascii_digits_exact n s = Some (ds, rest) →
  s = ds ++ rest ∧ length ds = n ∧ Forall (λ c, is_ascii_digit c = true) ds.
Proof.
  unfold ascii_digits_exact. case_bool_decide as Hlen; simpl; [|done].
  destruct (forallb is_ascii_digit (take n s)) eqn:Hall; [|done].
  intros [= <- <-]. split_and!; [by rewrite take_drop | done |].
  apply Forall_forall. intros c Hc. rewrite forallb_forall in Hall.
  by apply Hall, list_elem_of_In.
Qed.

(** A match of the grade pattern. *)
Lemma grade_at_Some s agency date code :
  grade_at s = Some (agency, date, code) →
  (∃ rest, s = py"31000001" ++ agency ++ [124%N] ++ date ++ [124%N] ++ code ++ rest)
  ∧ agency ≠ [] ∧ Forall (λ c, c ≠ 124%N) agency
  ∧ length date = 8%nat ∧ Forall (λ c, is_ascii_digit c = true) date
  ∧ length code = 1%nat ∧ Forall (λ c, is_ascii_digit c = true) code.
Proof.
  unfold grade_at. destruct (Py.starts_with (py"31000001") s) eqn:Hstart; [|done].
  apply starts_with_Some in Hstart.
  pose proof (span_spec (λ c, negb (bool_decide (c = 124%N))) (drop 8 s)) as Hspan.
  destruct (Py.span _ (drop 8 s)) as [run rest0]. destruct Hspan as (Hrun & Hall & _).
  destruct run as [|c run]; [done|]. simpl Py.truthy. cbv iota.
  destruct (Parser.lit_at 124 rest0) as [rest1|] eqn:H1; [|done]. simpl.
  destruct (ascii_digits_exact 8 rest1) as [[d rest2]|] eqn:H2; [|done]. simpl.
  destruct (Parser.lit_at 124 rest2) as [rest3|] eqn:H3; [|done]. simpl.
  destruct (ascii_digits_exact 1 rest3) as [[g rest4]|] eqn:H4; [|done]. simpl.
  intros [= <- <- <-].
  apply lit_at_inv in H1, H3.
  apply ascii_digits_exact_Some in H2 as (-> & ? & ?), H4 as (-> & ? & ?).
  subst rest0 rest2. split_and!; try done.
  - exists rest4. rewrite Hstart at 1. f_equal.
    change (length (py"31000001")) with 8%nat. by rewrite Hrun.
  - eapply Forall_impl; [exact Hall|]. intros x Hx. simpl in Hx.
    apply negb_true_iff, bool_decide_eq_false in Hx. done.
Qed.

(** The fields of a grade that come from the call and the configuration. *)
Lemma parse_grade_data_fields now soup gmgo_cd bank_name city district g :
  parse_grade_data cfg GRADE_MAP now soup gmgo_cd bank_name city district = Some g →
  GradeCrawler.gmgo_cd g = gmgo_cd ∧ GradeCrawler.bank_name g = bank_name
  ∧ GradeCrawler.city g = city ∧ GradeCrawler.district g = district
  ∧ grade_evaluation_year g = evaluation_year cfg
  ∧ grade_evaluation_month g = evaluation_month cfg.
Proof.
  unfold parse_grade_data.
  destruct (head _) as [[|name attrs children]|]; try done.
  destruct (attrs !! py"value") as [data_str|]; [|done].
  destruct (Py.truthy data_str); [|done].
  destruct (Parser.search grade_at data_str) as [[[agency date] code]|]; [|done].
  by intros [= <-].
Qed.


Lemma fetch_grade_loop_bound now gmgo_cd bank_name city district attempts :
  (length (List.filter is_post
             (fetch_grade_loop cfg req GRADE_MAP url soup_of transport now gmgo_cd bank_name
                city district attempts).2)
   ≤ length attempts)%nat.
Proof.
  induction attempts as [|attempt rest IH]; simpl; [done|].
  destruct (Crawler.try_get _); simpl; [lia|].
  destruct (attempt <? retry_count req - 1); simpl; [|lia].
  destruct (fetch_grade_loop _ _ _ _ _ _ _ _ _ _ _ rest). simpl in *. lia.
Qed.

Lemma fetch_grade_loop_answer now gmgo_cd bank_name city district (j n a : nat)
    (response : Crawler.response) :
  (j < n)%nat →
  Z.of_nat (a + j) < retry_count req →
  (∀ attempt, Z.of_nat a ≤ attempt < Z.of_nat (a + j) →
              request_fails (transport (grade_payload cfg gmgo_cd) attempt)) →
  Crawler.try_get (transport (grade_payload cfg gmgo_cd) (Z.of_nat (a + j))) = Some response →
  fetch_grade_loop cfg req GRADE_MAP url soup_of transport now gmgo_cd bank_name city
    district (Z.of_nat <$> seq a n)
  = (parse_grade_data cfg GRADE_MAP now (soup_of (Crawler.text response)) gmgo_cd bank_name
       city district,
     flat_map (λ _, [Post url (grade_payload cfg gmgo_cd) (timeout req);
                     Sleep (retry_delay req)])
              (Z.of_nat <$> seq a j)
     ++ [Post url (grade_payload cfg gmgo_cd) (timeout req)]).
Proof.
  revert n a. induction j as [|j IH]; intros n a Hn Hmax Hfail Hget.
  - destruct n as [|n]; [lia|]. simpl. rewrite Nat.add_0_r in Hget. by rewrite Hget.
  - destruct n as [|n]; [lia|]. simpl.
    rewrite (proj2 (try_get_None _)) by (apply Hfail; lia).
    replace (Z.of_nat a <? retry_count req - 1) with true by (symmetry; apply Z.ltb_lt; lia).
    rewrite IH; [done | lia | lia | intros; apply Hfail; lia |].
    by replace (S a + j)%nat with (a + S j)%nat by lia.
Qed.

Lemma fetch_grade_loop_all_fail now gmgo_cd bank_name city district (n a : nat) :
  Z.of_nat a + Z.of_nat n = retry_count req →
  (∀ attempt, Z.of_nat a ≤ attempt < retry_count req →
              request_fails (transport (grade_payload cfg gmgo_cd) attempt)) →
  fetch_grade_loop cfg req GRADE_MAP url soup_of transport now gmgo_cd bank_name city
    district (Z.of_nat <$> seq a n)
  = (None,
     match n with
     | O => []
     | S m =>
         flat_map (λ _, [Post url (grade_payload cfg gmgo_cd) (timeout req);
                         Sleep (retry_delay req)])
                  (Z.of_nat <$> seq a m)
         ++ [Post url (grade_payload cfg gmgo_cd) (timeout req)]
     end).
Proof.
  revert a. induction n as [|n IH]; intros a Hsum Hfail; [done|].
  simpl. rewrite (proj2 (try_get_None _)) by (apply Hfail; lia).
  destruct (Z.of_nat a <? retry_count req - 1) eqn:Hlast.
  - rewrite IH; [|lia | intros; apply Hfail; lia].
    destruct n as [|n]; [lia|]. done.
  - destruct n; [done | lia].
Qed.



End grade_facts.

(** X21. A grade read by [parse_grade_data]: the code, the name, the
    city and the district are those of the call, the year and the month
    those of the configuration; the evaluation date is eight digits and
    the grade code one digit, both where the value of the [contentsdata]
    field has them after [31000001], an agency without a bar, and a bar;
    the agency is that run, stripped; the grade name and description are
    those of [GRADE_MAP], or the two default texts for a code it does not
    have. *)
Theorem X21_parse_grade_data (cfg : GradeCrawler.config) (GRADE_MAP : gmap str (str * str))
    (now : Z) (soup : Html.node) (gmgo_cd bank_name city district : str)
    (g : GradeCrawler.grade) :
  GradeCrawler.parse_grade_data cfg GRADE_MAP now soup gmgo_cd bank_name city district
  = Some g →
  GradeCrawler.gmgo_cd g = gmgo_cd ∧ GradeCrawler.bank_name g = bank_name
  ∧ GradeCrawler.city g = city ∧ GradeCrawler.district g = district
  ∧ GradeCrawler.grade_evaluation_year g = GradeCrawler.evaluation_year cfg
  ∧ GradeCrawler.grade_evaluation_month g = GradeCrawler.evaluation_month cfg
  ∧ GradeCrawler.collected_at g = Datetime.isoformat now
  ∧ length (GradeCrawler.evaluation_date g) = 8%nat
  ∧ Forall (λ c, GradeCrawler.is_ascii_digit c = true) (GradeCrawler.evaluation_date g)
  ∧ length (GradeCrawler.grade_code g) = 1%nat
  ∧ Forall (λ c, GradeCrawler.is_ascii_digit c = true) (GradeCrawler.grade_code g)
  ∧ (GradeCrawler.grade_name g, GradeCrawler.grade_description g)
    = default (py"알수없음", py"등급 정보 없음") (GRADE_MAP !! GradeCrawler.grade_code g)
  ∧ ∃ contents_input before agency rest,
      head (Html.find_all_attr soup (py"input") (py"id") (py"contentsdata"))
      = Some contents_input
      ∧ Html.get contents_input (py"value")
        = before ++ py"31000001" ++ agency ++ [124%N] ++ GradeCrawler.evaluation_date g
          ++ [124%N] ++ GradeCrawler.grade_code g ++ rest
      ∧ agency ≠ [] ∧ Forall (λ c, c ≠ 124%N) agency
      ∧ GradeCrawler.evaluation_agency g = Py.strip agency.
Proof.
  intros Hg.
  destruct (parse_grade_data_fields cfg GRADE_MAP now _ _ _ _ _ g Hg)
    as (? & ? & ? & ? & ? & ?).
  unfold GradeCrawler.parse_grade_data in Hg.
  destruct (head _) as [[|name attrs children]|] eqn:Hinput; try done.
  destruct (attrs !! py"value") as [data_str|] eqn:Hvalue; [|done].
  destruct (Py.truthy data_str); [|done].
  destruct (Parser.search GradeCrawler.grade_at data_str) as [[[agency date] code]|] eqn:Hm;
    [|done].
  apply search_inv in Hm as (before & rest0 & Hdata & Hat).
  apply grade_at_Some in Hat as ([rest Hrest] & ? & ? & ? & ? & ? & ?).
  injection Hg as <-. simpl.
  split_and!; try done.
  - by destruct (GRADE_MAP !! code) as [[? ?]|].
  - exists (Html.Tag name attrs children), before, agency, rest.
    split_and!; try done. simpl. by rewrite Hvalue, Hdata, Hrest.
Qed.

Lemma X21_witness :
  GradeCrawler.evaluation_date
    (GradeCrawler.Grade (py"12345") (py"한빛") (py"서울") (py"종로구") (py"중앙회")
       (py"20251231") (py"2") (py"알수없음") (py"등급 정보 없음") (py"2026-07-01T12:00:00")
       2025 12)
  = py"20251231"
  ∧ length (py"20251231") = 8%nat.
Proof.
  pose proof (X21_parse_grade_data
                (GradeCrawler.Config true (GradeCrawler.OneMonth 7) 2025 12) ∅ sample_now
                (grade_page (py"x31000001 중앙회 |20251231|2|"))
                (py"12345") (py"한빛") (py"서울") (py"종로구")
                (GradeCrawler.Grade (py"12345") (py"한빛") (py"서울") (py"종로구") (py"중앙회")
                   (py"20251231") (py"2") (py"알수없음") (py"등급 정보 없음")
                   (py"2026-07-01T12:00:00") 2025 12)) as H.
  destruct H as (_ & _ & _ & _ & _ & _ & _ & Hlen & _).
  - vm_compute. reflexivity.
  - split; [reflexivity | exact Hlen].
Defined.

(** X22. [fetch_grade_for_bank] posts at most [retry_count] times and
    sleeps the same [retry_delay] after every failed attempt that is not
    the last. The first answer that is no error ends it: the grade read
    from that page is returned, or [None] when the page has none, without
    another request. When every attempt fails it returns [None] after
    [retry_count] requests. *)
Theorem X22_fetch_grade_for_bank (cfg : GradeCrawler.config)
    (req : GradeCrawler.request_config) (GRADE_MAP : gmap str (str * str)) (url : str)
    (soup_of : str → Html.node) (transport : gmap str str → Z → Crawler.reply)
    (now : Z) (gmgo_cd bank_name city district : str) :
  let payload := GradeCrawler.grade_payload cfg gmgo_cd in
  let post := GradeCrawler.Post url payload (GradeCrawler.timeout req) in
  let r := GradeCrawler.fetch_grade_for_bank cfg req GRADE_MAP url soup_of transport now
             gmgo_cd bank_name city district in
  (length (List.filter is_post r.2) ≤ Z.to_nat (GradeCrawler.retry_count req))%nat
  ∧ (∀ k response,
       0 ≤ k < GradeCrawler.retry_count req →
       (∀ attempt, 0 ≤ attempt < k → request_fails (transport payload attempt)) →
       Crawler.try_get (transport payload k) = Some response →
       r = (GradeCrawler.parse_grade_data cfg GRADE_MAP now (soup_of (Crawler.text response))
              gmgo_cd bank_name city district,
            retried_posts req url payload k ++ [post]))
  ∧ (0 < GradeCrawler.retry_count req →
     (∀ attempt, 0 ≤ attempt < GradeCrawler.retry_count req →
                 request_fails (transport payload attempt)) →
     r = (None, retried_posts req url payload (GradeCrawler.retry_count req - 1) ++ [post])).
Proof.
  cbv zeta. unfold GradeCrawler.fetch_grade_for_bank, retried_posts, Py.range. split_and!.
  - etrans; [apply fetch_grade_loop_bound|]. by rewrite length_fmap, length_seq.
  - intros k response Hk Hfail Hget.
    destruct (Z_of_nat_complete k) as [j ->]; [lia|]. rewrite Nat2Z.id.
    apply (fetch_grade_loop_answer cfg req GRADE_MAP url soup_of transport now gmgo_cd
             bank_name city district j (Z.to_nat (GradeCrawler.retry_count req)) 0 response);
      [lia | lia | | done].
    intros attempt Hattempt. apply Hfail. lia.
  - intros Hpos Hfail.
    rewrite (fetch_grade_loop_all_fail cfg req GRADE_MAP url soup_of transport now gmgo_cd
               bank_name city district (Z.to_nat (GradeCrawler.retry_count req)) 0);
      [|lia | intros; apply Hfail; lia].
    destruct (Z.to_nat (GradeCrawler.retry_count req)) as [|m] eqn:Hm; [lia|].
    by replace (Z.to_nat (GradeCrawler.retry_count req - 1)) with m by lia.
Qed.

Lemma X22_witness :
  GradeCrawler.fetch_grade_for_bank (GradeCrawler.Config true (GradeCrawler.OneMonth 7) 2025 12)
    (GradeCrawler.RequestConfig 3 1 10) ∅ (py"https://www.kfcc.co.kr") grade_page
    (λ _ attempt, if attempt <? 1 then Crawler.Responds 503 []
                  else Crawler.Responds 200 (py"none"))
    sample_now (py"12345") (py"한빛") (py"서울") (py"종로구")
  = (GradeCrawler.parse_grade_data (GradeCrawler.Config true (GradeCrawler.OneMonth 7) 2025 12)
       ∅ sample_now (grade_page (py"none")) (py"12345") (py"한빛") (py"서울") (py"종로구"),
     retried_posts (GradeCrawler.RequestConfig 3 1 10) (py"https://www.kfcc.co.kr")
       (GradeCrawler.grade_payload (GradeCrawler.Config true (GradeCrawler.OneMonth 7) 2025 12)
          (py"12345")) 1
     ++ [GradeCrawler.Post (py"https://www.kfcc.co.kr")
           (GradeCrawler.grade_payload
              (GradeCrawler.Config true (GradeCrawler.OneMonth 7) 2025 12) (py"12345")) 10]).
Proof.
  refine (proj1 (proj2 (X22_fetch_grade_for_bank
                          (GradeCrawler.Config true (GradeCrawler.OneMonth 7) 2025 12)
                          (GradeCrawler.RequestConfig 3 1 10) ∅ (py"https://www.kfcc.co.kr")
                          grade_page _ sample_now (py"12345") (py"한빛") (py"서울")
                          (py"종로구")))
            1 (Crawler.Response 200 (py"none")) _ _ _).
  - simpl. lia.
  - intros attempt Hattempt. replace attempt with 0 by lia. simpl. lia.
  - reflexivity.
Defined.



Section collect_grades_facts.
Context (self : Storage.StorageManager).
Context (cfg : GradeCrawler.config) (req : GradeCrawler.request_config).
Context (GRADE_MAP : gmap str (str * str)) (url : str) (soup_of : str → Html.node).
Context (transport : gmap str str → Z → Crawler.reply).


End collect_grades_facts.



(** ** The latest snapshot *)

Section latest_facts.
Import Storage.
Context (self : StorageManager).
Implicit Types (s : gmap (list (list N)) file) (p q filepath : list (list N)).







End latest_facts.


